(** * Session persistence protocol of the serverless nanobot gateway

    A shallow embedding of [src/storage.py] (the GCS-backed session record,
    the two append-only JSONL logs, the file operations, the workspace
    synchroniser), of [src/adapter.py] (the webhook handler of the
    gateway, its health check, and the functions that hand requests to
    it), of [src/config.py] (the configuration read from the environment
    and its validation) and of the two request handlers of
    [src/handlers.py], followed by the properties stated about them.

    Python values that travel through [json] are modelled by the type
    [json]; a Python [dict] with string keys is a [gmap string json].
    Side effects (the bucket, the local file system, the clock, the uuid
    generator, the logger, the outbound HTTP call) are threaded through an
    explicit world in a state-and-exception monad.  Libraries that are not
    part of the repository ([json], [httpx], [datetime], [uuid], the agent)
    are parameters collected in [env] and in the gateway object. *)

From stdpp Require Import gmap strings list fin_maps pretty sorting.
From Stdlib Require Import Ascii.

Set Warnings "-register-all".
Set Default Proof Using "Type".

(** ** Python built-ins on text *)

Module Py.

(** [str.isspace] on the code points below 256. *)
Definition isspace (c : ascii) : bool :=
  match c with
  | "009" | "010" | "011" | "012" | "013"
  | "028" | "029" | "030" | "031" | " "
  | "133" | "160" => true
  | _ => false
  end%char.

Fixpoint lstrip (s : string) : string :=
  match s with
  | "" => ""
  | String c s' => if isspace c then lstrip s' else s
  end.

Fixpoint rstrip (s : string) : string :=
  match s with
  | "" => ""
  | String c s' =>
      match rstrip s' with
      | "" => if isspace c then "" else String c ""
      | r => String c r
      end
  end.

(** [s.strip()] *)
Definition strip (s : string) : string := rstrip (lstrip s).

(** [s.split(sep)] for a one-character separator: never returns []. *)
Fixpoint split (sep : ascii) (s : string) : list string :=
  match s with
  | "" => [""]
  | String c s' =>
      if decide (c = sep) then "" :: split sep s'
      else match split sep s' with
           | w :: ws => String c w :: ws
           | [] => [String c ""]
           end
  end.

(** [s.replace(old, new)] for one-character arguments. *)
Fixpoint replace (old new : ascii) (s : string) : string :=
  match s with
  | "" => ""
  | String c s' =>
      String (if decide (c = old) then new else c) (replace old new s')
  end.

(** [s.startswith(p)] *)
Fixpoint startswith (p s : string) : bool :=
  match p, s with
  | "", _ => true
  | String a p', String b s' => bool_decide (a = b) && startswith p' s'
  | String _ _, "" => false
  end.

(** [s[n:]] for [0 <= n] *)
Fixpoint drop (n : nat) (s : string) : string :=
  match n, s with
  | O, _ => s
  | S n', "" => ""
  | S n', String _ s' => drop n' s'
  end.

(** [sep.join(parts)] *)
Fixpoint join (sep : string) (parts : list string) : string :=
  match parts with
  | [] => ""
  | [p] => p
  | p :: ps => p +:+ sep +:+ join sep ps
  end.

(** [l[i:]] on a list, for any integer [i] (negative counts from the end). *)
Definition slice_from {A} (i : Z) (l : list A) : list A :=
  if decide (i < 0)%Z
  then list.drop (Z.to_nat (Z.of_nat (length l) + i)) l
  else list.drop (Z.to_nat i) l.

End Py.

Definition LF : ascii := "010"%char.
Definition NL : string := String LF "".

(** ** JSON values, which double as the Python values the code handles *)

Inductive json :=
  | JNull
  | JBool (b : bool)
  | JNum (z : Z)
  | JStr (s : string)
  | JArr (l : list json)
  | JObj (m : gmap string json).

(** A [dict] display: [{"k": v, ...}]. *)
Definition dict_of (kvs : list (string * json)) : json :=
  JObj (list_to_map kvs).

(** Truth value of a Python object ([if x:], [x or y], [not x]). *)
Definition truthy (v : json) : bool :=
  match v with
  | JNull => false
  | JBool b => b
  | JNum z => negb (z =? 0)%Z
  | JStr s => negb (bool_decide (s = ""))
  | JArr l => negb (bool_decide (l = []))
  | JObj m => negb (bool_decide (m = ∅))
  end.

(** [x or y] *)
Definition py_or (x y : json) : json := if truthy x then x else y.

(** [type(v).__name__] *)
Definition type_name (v : json) : string :=
  match v with
  | JNull => "NoneType"
  | JBool _ => "bool"
  | JNum _ => "int"
  | JStr _ => "str"
  | JArr _ => "list"
  | JObj _ => "dict"
  end.

(** ** Exceptions *)

Inductive exn_class :=
  | JSONDecodeError
  | AttributeError
  | TypeError
  | OSError
  | NotFound
  | TimeoutException
  | HTTPStatusError
  | RecursionError
  | ValueError
  | ImportError
  | RuntimeError
  | OtherException.

Global Instance exn_class_eq_dec : EqDecision exn_class.
Proof. solve_decision. Defined.

(** An exception object: its class and [str(e)]. *)
Record exn := Exn { exn_cls : exn_class; exn_str : string }.

(** ** The world *)

Inductive level := DEBUG | INFO | WARNING | ERROR.

Global Instance level_eq_dec : EqDecision level.
Proof. solve_decision. Defined.

(** A local path is the list of its components below the root. *)
Abbreviation path := (list string).

Inductive node :=
  | File (data : string)
  | Dir.

(** What the messaging platform answers to a [sendMessage] request, seen
    through the [except] clauses of the handler. *)
Inductive post_outcome :=
  | PostTimeout
  | PostHTTPStatusError (status_code : Z) (text : string)
  | PostException (e : exn)
  | PostJson (result : json).

(** Libraries outside the repository. *)
Record env := Env {
  json_dumps : json → string;          (* json.dumps(obj) *)
  json_dumps_indent : json → string;   (* json.dumps(obj, indent=2) *)
  json_loads : string → option json;   (* json.loads(s); None: it raises *)
  json_loads_error : string → exn;     (* what it raises then: JSONDecodeError,
                                          RecursionError, ValueError *)
  utcnow_isoformat : nat → string;     (* n-th reading of the clock *)
  uuid4 : nat → string;                (* n-th generated uuid *)
  container_str : json → string;       (* str() of a list or a dict *)
  httpx_post : string → json → post_outcome;
  bucket_name : string;                (* GCS_BUCKET_NAME *)
}.

Record world := World {
  bucket : gmap string string;         (* objects of the GCS bucket *)
  faults : list (option exn);          (* outcome of the coming GCS calls *)
  fs : gmap path node;                 (* local file system *)
  ticks : nat;                         (* clock readings so far *)
  uuids : nat;                         (* uuids generated so far *)
  outbox : list (string * json);       (* POST requests issued: url, body *)
  log : list (level * string);         (* records emitted by [logger] *)
}.

Definition set_bucket (b : gmap string string) (w : world) : world :=
  World b (faults w) (fs w) (ticks w) (uuids w) (outbox w) (log w).
Definition set_faults (f : list (option exn)) (w : world) : world :=
  World (bucket w) f (fs w) (ticks w) (uuids w) (outbox w) (log w).
Definition set_fs (f : gmap path node) (w : world) : world :=
  World (bucket w) (faults w) f (ticks w) (uuids w) (outbox w) (log w).
Definition set_ticks (n : nat) (w : world) : world :=
  World (bucket w) (faults w) (fs w) n (uuids w) (outbox w) (log w).
Definition set_uuids (n : nat) (w : world) : world :=
  World (bucket w) (faults w) (fs w) (ticks w) n (outbox w) (log w).
Definition set_outbox (o : list (string * json)) (w : world) : world :=
  World (bucket w) (faults w) (fs w) (ticks w) (uuids w) o (log w).
Definition set_log (l : list (level * string)) (w : world) : world :=
  World (bucket w) (faults w) (fs w) (ticks w) (uuids w) (outbox w) l.

(** ** State and exception monad *)

Inductive res (A : Type) :=
  | Ok (a : A)
  | Raise (e : exn).
Global Arguments Ok {A} a.
Global Arguments Raise {A} e.

Definition M (A : Type) : Type := world → res A * world.

Global Instance M_ret : MRet M := λ A a w, (Ok a, w).

Global Instance M_bind : MBind M := λ A B f m w,
  match m w with
  | (Ok a, w') => f a w'
  | (Raise e, w') => (Raise e, w')
  end.

Definition raise {A} (e : exn) : M A := λ w, (Raise e, w).

(** [try: body except Exception as e: handler e] *)
Definition try_except {A} (body : M A) (handler : exn → M A) : M A := λ w,
  match body w with
  | (Ok a, w') => (Ok a, w')
  | (Raise e, w') => handler e w'
  end.

(** [for x in xs: body x] *)
Fixpoint for_each {A} (xs : list A) (body : A → M unit) : M unit :=
  match xs with
  | [] => mret ()
  | x :: xs' => body x;; for_each xs' body
  end.

(** A loop that grows a local list: [acc] is the list so far. *)
Fixpoint for_fold {A B} (xs : list A) (acc : B) (body : B → A → M B) : M B :=
  match xs with
  | [] => mret acc
  | x :: xs' => acc' ← body acc x; for_fold xs' acc' body
  end.

Definition logger (l : level) (msg : string) : M unit := λ w,
  (Ok (), set_log (log w ++ [(l, msg)]) w).

(** State after a run, and its result. *)
Definition result_of {A} (r : res A * world) : res A := fst r.
Definition world_of {A} (r : res A * world) : world := snd r.

(** [obj.get(key, default)]: only a dict has the method. *)
Definition py_get (obj : json) (key : string) (default : json) : M json :=
  match obj with
  | JObj m => mret (from_option id default (m !! key))
  | _ => raise (Exn AttributeError
                 ("'" +:+ type_name obj +:+ "' object has no attribute 'get'"))
  end.

Definition gets {A} (f : world → A) : M A := λ w, (Ok (f w), w).
Definition modify (f : world → world) : M unit := λ w, (Ok (), f w).

(** ** The local file system, as [pathlib] and [shutil] show it *)

Module FS.

(** The node at a path; the root is a directory. *)
Definition node_at (f : gmap path node) (p : path) : option node :=
  match p with
  | [] => Some Dir
  | _ => f !! p
  end.

(** [p.parent] *)
Definition parent (p : path) : path := removelast p.

(** [str(p)] for a relative path *)
Definition path_str (p : path) : string := Py.join "/" p.

(** [base / s]: the components of [s] that are neither empty nor ".",
    below [base], or from the root when [s] starts with a slash. *)
Definition path_join (base : path) (s : string) : path :=
  let parts := filter (λ c, c ≠ "" ∧ c ≠ ".") (Py.split "/" s) in
  if Py.startswith "/" s then parts else base ++ parts.

(** [p.exists()] *)
Definition exists_ (p : path) : M bool :=
  gets (λ w, bool_decide (is_Some (node_at (fs w) p))).

Definition is_file_in (f : gmap path node) (p : path) : bool :=
  match node_at f p with
  | Some (File _) => true
  | _ => false
  end.

(** [p.is_file()] *)
Definition is_file (p : path) : M bool := gets (λ w, is_file_in (fs w) p).

(** The entries strictly below [p], when [p] is a directory. *)
Definition below (f : gmap path node) (p : path) : list path :=
  match node_at f p with
  | Some Dir => filter (λ q, p `prefix_of` q ∧ q ≠ p) (map_to_list f).*1
  | _ => []
  end.

(** [list(p.rglob("*"))] *)
Definition rglob (p : path) : M (list path) := gets (λ w, below (fs w) p).

(** Creates the directories [pre ++ [c1]], [pre ++ [c1; c2]], ...; fails
    on a component that is a file. *)
Fixpoint mkdir_go (pre : path) (rest : list string) (f : gmap path node)
    : option (gmap path node) :=
  match rest with
  | [] => Some f
  | c :: rest' =>
      let q := pre ++ [c] in
      match f !! q with
      | Some (File _) => None
      | _ => mkdir_go q rest' (<[q := Dir]> f)
      end
  end.

(** [p.mkdir(parents=True, exist_ok=True)] *)
Definition mkdir_parents (p : path) : M unit := λ w,
  match mkdir_go [] p (fs w) with
  | Some f' => (Ok (), set_fs f' w)
  | None => (Raise (Exn OSError "File exists"), w)
  end.

(** The content of a file, as [open(p, "rb").read()] gives it. *)
Definition read_bytes (p : path) : M string := λ w,
  match node_at (fs w) p with
  | Some (File data) => (Ok data, w)
  | Some Dir => (Raise (Exn OSError "Is a directory"), w)
  | None => (Raise (Exn OSError "No such file or directory"), w)
  end.

(** [open(p, "wb")]: the parent must be a directory and [p] none; the
    file is created or emptied. *)
Definition open_wb (p : path) : M unit := λ w,
  match node_at (fs w) (parent p), node_at (fs w) p with
  | Some Dir, Some Dir => (Raise (Exn OSError "Is a directory"), w)
  | Some Dir, _ => (Ok (), set_fs (<[p := File ""]> (fs w)) w)
  | Some (File _), _ => (Raise (Exn OSError "Not a directory"), w)
  | None, _ => (Raise (Exn OSError "No such file or directory"), w)
  end.

(** Writing to the file opened at [p]. *)
Definition write_bytes (p : path) (data : string) : M unit :=
  modify (λ w, set_fs (<[p := File data]> (fs w)) w).

(** [os.remove(p)] *)
Definition remove (p : path) : M unit :=
  modify (λ w, set_fs (delete p (fs w)) w).

(** [shutil.copy2(src, dst)]: into [dst] when it is a directory. *)
Definition copy2 (src dst : path) : M unit :=
  is_dir ← gets (λ w, match node_at (fs w) dst with
                      | Some Dir => true
                      | _ => false
                      end);
  let dst := if is_dir : bool then dst ++ option_list (last src) else dst in
  data ← read_bytes src;
  if bool_decide (src = dst)
  then raise (Exn OSError "are the same file")
  else open_wb dst;; write_bytes dst data.

End FS.

(** ** The google-cloud-storage client, as far as the code uses it *)

Module GCS.

(** One request to the service: it raises when the fault schedule says so. *)
Definition call : M unit := λ w,
  match faults w with
  | [] => (Ok (), w)
  | None :: rest => (Ok (), set_faults rest w)
  | Some e :: rest => (Raise e, set_faults rest w)
  end.

(** [blob.exists()] *)
Definition blob_exists (name : string) : M bool :=
  call;; gets (λ w, bool_decide (is_Some (bucket w !! name))).

(** [blob.download_as_text()] *)
Definition download_as_text (name : string) : M string :=
  call;;
  o ← gets (λ w, bucket w !! name);
  match o with
  | Some data => mret data
  | None => raise (Exn NotFound ("404 No such object: " +:+ name))
  end.

(** [blob.upload_from_string(data)] *)
Definition upload_from_string (name data : string) : M unit :=
  call;; modify (λ w, set_bucket (<[name := data]> (bucket w)) w).

(** [bucket.list_blobs(prefix=prefix)], consumed: the names with that
    prefix, in the lexicographic order the service lists them in. *)
Definition list_blobs (prefix : string) : M (list string) :=
  call;;
  gets (λ w, merge_sort String.le
               (filter (λ n, Py.startswith prefix n = true)
                       (map_to_list (bucket w)).*1)).

(** [blob.upload_from_filename(filename)] *)
Definition upload_from_filename (name : string) (filename : path) : M unit :=
  data ← FS.read_bytes filename;
  call;; modify (λ w, set_bucket (<[name := data]> (bucket w)) w).

(** [blob.download_to_filename(filename)]: the local file is opened
    first; an object that is not there removes it again. *)
Definition download_to_filename (name : string) (filename : path) : M unit :=
  FS.open_wb filename;;
  call;;
  o ← gets (λ w, bucket w !! name);
  match o with
  | Some data => FS.write_bytes filename data
  | None => FS.remove filename;;
            raise (Exn NotFound ("404 No such object: " +:+ name))
  end.

(** [blob.delete()] *)
Definition delete (name : string) : M unit :=
  call;;
  o ← gets (λ w, bucket w !! name);
  match o with
  | Some _ => modify (λ w, set_bucket (base.delete name (bucket w)) w)
  | None => raise (Exn NotFound ("404 No such object: " +:+ name))
  end.

End GCS.

(** ** [src/storage.py] *)

Module GCSFileStorage.
Section methods.
Context (E : env).

(** [datetime.utcnow().isoformat()] *)
Definition utcnow : M string := λ w,
  (Ok (utcnow_isoformat E (ticks w)), set_ticks (S (ticks w)) w).

(** [str(uuid.uuid4())] *)
Definition new_uuid : M string := λ w,
  (Ok (uuid4 E (uuids w)), set_uuids (S (uuids w)) w).

(** [json.loads(s)] *)
Definition loads (s : string) : M json :=
  match json_loads E s with
  | Some v => mret v
  | None => raise (json_loads_error E s)
  end.

Definition _get_session_path (session_key : string) : string :=
  let safe_key := Py.replace ":" "_" session_key in
  "sessions/" +:+ safe_key.

Definition get_session (session_key : string) : M json :=
  try_except
    (let session_path := _get_session_path session_key +:+ "/session.json" in
     ex ← GCS.blob_exists session_path;
     if negb ex then mret JNull
     else
       content ← GCS.download_as_text session_path;
       loads content)
    (λ e, logger ERROR "Error getting session";; mret JNull).

(** [obj[key] = value] *)
Definition setitem (obj : json) (key : string) (value : json) : M json :=
  match obj with
  | JObj m => mret (JObj (<[key := value]> m))
  | JArr _ =>
      raise (Exn TypeError "list indices must be integers or slices, not str")
  | _ => raise (Exn TypeError ("'" +:+ type_name obj +:+
                               "' object does not support item assignment"))
  end.

(** [{**old, **new}] *)
Definition unpack_merge (old : json) (new : gmap string json) : M json :=
  match old with
  | JObj m => mret (JObj (new ∪ m))
  | _ => raise (Exn TypeError ("'" +:+ type_name old +:+
                               "' object is not a mapping"))
  end.

(** Truth value of an [Optional[Dict]] argument. *)
Definition dict_truthy (metadata : option (gmap string json)) : bool :=
  match metadata with
  | Some m => negb (bool_decide (m = ∅))
  | None => false
  end.

(** [metadata or {}] *)
Definition or_empty (metadata : option (gmap string json)) : json :=
  JObj (from_option id ∅ metadata).

Definition create_or_update_session
    (session_key user_id : string) (metadata : option (gmap string json))
    : M json :=
  try_except
    (session ← get_session session_key;
     now ← utcnow;
     session ←
       (if truthy session then
          session ← setitem session "updated_at" (JStr now);
          session ← setitem session "user_id" (JStr user_id);
          if dict_truthy metadata then
            old ← py_get session "metadata" (JObj ∅);
            merged ← unpack_merge old (from_option id ∅ metadata);
            setitem session "metadata" merged
          else mret session
        else
          mret (dict_of [("session_key", JStr session_key);
                         ("user_id", JStr user_id);
                         ("created_at", JStr now);
                         ("updated_at", JStr now);
                         ("metadata", or_empty metadata)]));
     let session_path := _get_session_path session_key +:+ "/session.json" in
     GCS.upload_from_string session_path (json_dumps_indent E session);;
     logger DEBUG "Saved session to GCS";;
     mret session)
    (λ e, logger ERROR "Error creating/updating session";; raise e).

Definition save_chat_message
    (session_key message_id role : string) (content : json)
    (metadata : option (gmap string json)) : M unit :=
  try_except
    (let chat_history_path :=
       _get_session_path session_key +:+ "/chat_history.jsonl" in
     timestamp ← utcnow;
     let message_doc :=
       dict_of [("message_id", JStr message_id);
                ("role", JStr role);
                ("content", content);
                ("timestamp", JStr timestamp);
                ("metadata", or_empty metadata)] in
     let message_line := json_dumps E message_doc +:+ NL in
     ex ← GCS.blob_exists chat_history_path;
     new_content ←
       (if ex : bool then
          existing_content ← GCS.download_as_text chat_history_path;
          mret (existing_content +:+ message_line)
        else mret message_line);
     GCS.upload_from_string chat_history_path new_content;;
     logger DEBUG "Saved chat message")
    (λ e, logger ERROR "Error saving chat message").

(** [if limit: return xs[-limit:]] / [return xs] *)
Definition limited {A} (limit : option Z) (xs : list A) : list A :=
  match limit with
  | Some n => if (n =? 0)%Z then xs else Py.slice_from (- n) xs
  | None => xs
  end.

Definition get_chat_history (session_key : string) (limit : option Z)
    : M (list json) :=
  try_except
    (let chat_history_path :=
       _get_session_path session_key +:+ "/chat_history.jsonl" in
     ex ← GCS.blob_exists chat_history_path;
     if negb ex then mret []
     else
       content ← GCS.download_as_text chat_history_path;
       messages ←
         for_fold (Py.split LF (Py.strip content)) []
           (λ messages line,
              if bool_decide (Py.strip line = "") then mret messages
              else
                try_except
                  (v ← loads line; mret (messages ++ [v]))
                  (λ e, if decide (exn_cls e = JSONDecodeError)
                        then logger WARNING "Failed to parse chat history line";;
                             mret messages
                        else raise e));
       mret (limited limit messages))
    (λ e, logger ERROR "Error getting chat history";; mret []).

Definition save_agent_action
    (session_key action_type : string) (action_data : gmap string json)
    (metadata : option (gmap string json)) : M string :=
  try_except
    (action_id ← new_uuid;
     let actions_path :=
       _get_session_path session_key +:+ "/agent_actions.jsonl" in
     timestamp ← utcnow;
     let action_doc :=
       dict_of [("action_id", JStr action_id);
                ("action_type", JStr action_type);
                ("action_data", JObj action_data);
                ("timestamp", JStr timestamp);
                ("metadata", or_empty metadata)] in
     let action_line := json_dumps E action_doc +:+ NL in
     ex ← GCS.blob_exists actions_path;
     new_content ←
       (if ex : bool then
          existing_content ← GCS.download_as_text actions_path;
          mret (existing_content +:+ action_line)
        else mret action_line);
     GCS.upload_from_string actions_path new_content;;
     logger DEBUG "Saved agent action";;
     mret action_id)
    (λ e, logger ERROR "Error saving agent action";; mret "").

(** [value == s] for a string [s] *)
Definition eq_str (value : json) (s : string) : bool :=
  match value with
  | JStr s' => bool_decide (s' = s)
  | _ => false
  end.

Definition get_agent_actions
    (session_key : string) (action_type : option string) (limit : option Z)
    : M (list json) :=
  try_except
    (let actions_path :=
       _get_session_path session_key +:+ "/agent_actions.jsonl" in
     ex ← GCS.blob_exists actions_path;
     if negb ex then mret []
     else
       content ← GCS.download_as_text actions_path;
       actions ←
         for_fold (Py.split LF (Py.strip content)) []
           (λ actions line,
              if bool_decide (Py.strip line = "") then mret actions
              else
                try_except
                  (action ← loads line;
                   keep ←
                     match action_type with
                     | None => mret true
                     | Some t =>
                         v ← py_get action "action_type" JNull;
                         mret (eq_str v t)
                     end;
                   mret (if keep : bool then actions ++ [action] else actions))
                  (λ e, if decide (exn_cls e = JSONDecodeError)
                        then logger WARNING "Failed to parse agent action line";;
                             mret actions
                        else raise e));
       mret (limited limit actions))
    (λ e, logger ERROR "Error getting agent actions";; mret []).

Definition upload_file (local_path : path) (remote_path : string) : M string :=
  try_except
    (GCS.upload_from_filename remote_path local_path;;
     let gcs_uri := "gs://" +:+ bucket_name E +:+ "/" +:+ remote_path in
     logger INFO "Uploaded file to GCS";;
     mret gcs_uri)
    (λ e, logger ERROR "Error uploading file to GCS";; raise e).

Definition download_file (remote_path : string) (local_path : path) : M bool :=
  try_except
    (ex ← GCS.blob_exists remote_path;
     if negb ex then
       logger WARNING "File not found in GCS";; mret false
     else
       FS.mkdir_parents (FS.parent local_path);;
       GCS.download_to_filename remote_path local_path;;
       logger DEBUG "Downloaded file from GCS";;
       mret true)
    (λ e, logger ERROR "Error downloading file from GCS";; mret false).

Definition list_files (prefix : string) : M (list string) :=
  try_except
    (GCS.list_blobs prefix)
    (λ e, logger ERROR "Error listing files in GCS";; mret []).

Definition delete_file (remote_path : string) : M bool :=
  try_except
    (ex ← GCS.blob_exists remote_path;
     if ex : bool then
       GCS.delete remote_path;;
       logger INFO "Deleted file from GCS";;
       mret true
     else mret false)
    (λ e, logger ERROR "Error deleting file from GCS";; mret false).

Definition sync_workspace_to_gcs (workspace_path : path) (session_key : string)
    : M unit :=
  try_except
    (ex ← FS.exists_ workspace_path;
     if negb ex then mret ()
     else
       let prefix := _get_session_path session_key +:+ "/files/" in
       files ← FS.rglob workspace_path;
       for_each files (λ file_path,
         is_file ← FS.is_file file_path;
         if is_file : bool then
           let relative_path := drop (length workspace_path) file_path in
           let remote_path := prefix +:+ FS.path_str relative_path in
           _ ← upload_file file_path remote_path;
           mret ()
         else mret ());;
       logger INFO "Synced workspace to GCS")
    (λ e, logger ERROR "Error syncing workspace to GCS").

Definition sync_gcs_to_workspace (workspace_path : path) (session_key : string)
    : M unit :=
  try_except
    (let prefix := _get_session_path session_key +:+ "/files/" in
     files ← list_files prefix;
     for_each files (λ remote_path,
       let relative_path := Py.drop (String.length prefix) remote_path in
       let local_path := FS.path_join workspace_path relative_path in
       _ ← download_file remote_path local_path;
       mret ());;
     logger INFO "Synced GCS to workspace")
    (λ e, logger ERROR "Error syncing GCS to workspace").

End methods.
End GCSFileStorage.

Module PersistentStorageManager.
Section methods.
Context (E : env).

Definition get_session (session_key : string) : M json :=
  GCSFileStorage.get_session E session_key.

Definition create_or_update_session
    (session_key user_id : string) (metadata : option (gmap string json))
    : M json :=
  GCSFileStorage.create_or_update_session E session_key user_id metadata.

Definition save_chat_message
    (session_key message_id role : string) (content : json)
    (metadata : option (gmap string json)) : M unit :=
  GCSFileStorage.save_chat_message E session_key message_id role content
    metadata.

Definition get_chat_history (session_key : string) (limit : option Z)
    : M (list json) :=
  GCSFileStorage.get_chat_history E session_key limit.

Definition save_agent_action
    (session_key action_type : string) (action_data : gmap string json)
    (metadata : option (gmap string json)) : M string :=
  GCSFileStorage.save_agent_action E session_key action_type action_data
    metadata.

Definition get_agent_actions
    (session_key : string) (action_type : option string) (limit : option Z)
    : M (list json) :=
  GCSFileStorage.get_agent_actions E session_key action_type limit.

Definition sync_files_to_storage (workspace_path : path) (session_key : string)
    : M unit :=
  GCSFileStorage.sync_workspace_to_gcs E workspace_path session_key.

Definition sync_files_from_storage (workspace_path : path)
    (session_key : string) : M unit :=
  GCSFileStorage.sync_gcs_to_workspace workspace_path session_key.

End methods.
End PersistentStorageManager.

(** ** [src/adapter.py] *)

(** The agent: [process_direct(content, session_key)] returns a reply
    (or [None]) or raises, and may change the local files. *)
Record AgentLoop := {
  agent_workspace : path;
  process_direct :
    json → string → gmap path node → res (option string) * gmap path node;
}.

(** [config.channels.telegram] *)
Record TelegramConfig := {
  allow_from : option (list string);
  token : string;
}.

Record ServerlessGateway := {
  agent_loop : AgentLoop;
  config : TelegramConfig;
  workspace : path;
}.

Definition fallback_message : string :=
  "I received your message but couldn't generate a response.".

Module Gateway.
Section methods.
Context (E : env).

(** [str(v)] *)
Definition py_str (v : json) : string :=
  match v with
  | JNull => "None"
  | JBool true => "True"
  | JBool false => "False"
  | JNum z => pretty z
  | JStr s => s
  | _ => container_str E v
  end.

(** [text[:50]], evaluated for the log record of the message. *)
Definition slice50 (text : json) : M unit :=
  match text with
  | JStr _ | JArr _ => mret ()
  | JObj _ => raise (Exn TypeError "unhashable type: 'slice'")
  | _ => raise (Exn TypeError
                  ("'" +:+ type_name text +:+ "' object is not subscriptable"))
  end.

(** Truth value of the allow-list. *)
Definition list_truthy (l : option (list string)) : bool :=
  match l with
  | Some (_ :: _) => true
  | _ => false
  end.

(** Truth value of the agent's reply. *)
Definition reply_truthy (r : option string) : bool :=
  match r with
  | Some s => negb (bool_decide (s = ""))
  | None => false
  end.

(** [not response_text or not response_text.strip()] *)
Definition reply_blank (r : option string) : bool :=
  match r with
  | Some s => bool_decide (s = "") || bool_decide (Py.strip s = "")
  | None => true
  end.

(** [await self.agent_loop.process_direct(content=..., session_key=...)] *)
Definition call_agent (a : AgentLoop) (content : json) (session_key : string)
    : M (option string) := λ w,
  let '(r, f') := process_direct a content session_key (fs w) in
  (r, set_fs f' w).

(** Copies every file below [src_dir] to the same relative path below
    [dst_dir]; [files] is the listing of [src_dir]. *)
Definition copy_files (files : list path) (src_dir dst_dir : path) : M unit :=
  for_each files (λ src_file,
    is_file ← FS.is_file src_file;
    if is_file : bool then
      let relative_path := drop (length src_dir) src_file in
      let dst_file := dst_dir ++ relative_path in
      FS.mkdir_parents (FS.parent dst_file);;
      FS.copy2 src_file dst_file
    else mret ()).

(** The request to the [sendMessage] method and the handling of its
    outcome. *)
Definition send_message (telegram_token chat_id response_text : string)
    : M unit :=
  let telegram_api_url :=
    "https://api.telegram.org/bot" +:+ telegram_token +:+ "/sendMessage" in
  let body := dict_of [("chat_id", JStr chat_id);
                       ("text", JStr response_text)] in
  try_except
    (modify (λ w, set_outbox (outbox w ++ [(telegram_api_url, body)]) w);;
     match httpx_post E telegram_api_url body with
     | PostTimeout => raise (Exn TimeoutException "timed out")
     | PostHTTPStatusError code text =>
         raise (Exn HTTPStatusError ("HTTP status " +:+ pretty code))
     | PostException e => raise e
     | PostJson result =>
         ok ← py_get result "ok" JNull;
         if truthy ok
         then logger INFO "Successfully sent response"
         else (_ ← py_get result "description" (JStr "Unknown error");
               logger ERROR "Telegram API error")
     end)
    (λ e,
       if decide (exn_cls e = TimeoutException)
       then logger ERROR "Timeout sending message to Telegram API"
       else if decide (exn_cls e = HTTPStatusError)
       then logger ERROR "HTTP error sending message to Telegram"
       else logger ERROR "Error sending message to Telegram").

Definition handle_telegram_webhook (self : ServerlessGateway) (update : json)
    : M json :=
  try_except
    (m ← py_get update "message" JNull;
     message ← (if truthy m then mret m
                else py_get update "edited_message" JNull);
     if negb (truthy message) then
       logger WARNING "No message found in Telegram update";;
       mret (dict_of [("ok", JBool true); ("handled", JBool false)])
     else
       chat ← py_get message "chat" (JObj ∅);
       user ← py_get message "from" (JObj ∅);
       text ← py_get message "text" (JStr "");
       chat_id_value ← py_get chat "id" JNull;
       let chat_id := py_str chat_id_value in
       user_id_value ← py_get user "id" JNull;
       let user_id := py_str user_id_value in
       slice50 text;;
       logger INFO "Received message";;
       let telegram_config := config self in
       let allowed_users := allow_from telegram_config in
       if list_truthy allowed_users
          && negb (bool_decide (user_id ∈ from_option id [] allowed_users))
       then
         logger WARNING "User not in allowed list";;
         mret (dict_of [("ok", JBool true); ("handled", JBool false);
                        ("error", JStr "User not allowed")])
       else
         let session_key := "telegram:" +:+ chat_id in
         session ← PersistentStorageManager.get_session E session_key;
         (if negb (truthy session) then
            chat_type ← py_get chat "type" (JStr "unknown");
            _ ← PersistentStorageManager.create_or_update_session E
                  session_key user_id (Some {[ "chat_type" := chat_type ]});
            mret ()
          else mret ());;
         let session_workspace :=
           FS.path_join (workspace self) (Py.replace ":" "_" session_key) in
         FS.mkdir_parents session_workspace;;
         PersistentStorageManager.sync_files_from_storage
           session_workspace session_key;;
         chat_history ←
           PersistentStorageManager.get_chat_history E session_key (Some 50%Z);
         logger DEBUG "Loaded previous messages";;
         (ex ← FS.exists_ session_workspace;
          if ex : bool then
            files ← FS.rglob session_workspace;
            copy_files files session_workspace
              (agent_workspace (agent_loop self))
          else mret ());;
         message_id ← GCSFileStorage.new_uuid E;
         telegram_message_id ← py_get message "message_id" JNull;
         PersistentStorageManager.save_chat_message E session_key message_id
           "user" text (Some {[ "telegram_message_id" := telegram_message_id ]});;
         (if bool_decide (chat_history = []) then mret ()
          else logger INFO "Processing message with previous messages in context");;
         response_text ← call_agent (agent_loop self) text session_key;
         (if reply_truthy response_text then
            response_message_id ← GCSFileStorage.new_uuid E;
            PersistentStorageManager.save_chat_message E session_key
              response_message_id "assistant"
              (JStr (from_option id "" response_text)) None
          else mret ());;
         agent_workspace_files ← FS.rglob (agent_workspace (agent_loop self));
         copy_files agent_workspace_files (agent_workspace (agent_loop self))
           session_workspace;;
         PersistentStorageManager.sync_files_to_storage E
           session_workspace session_key;;
         (ex ← FS.exists_ session_workspace;
          if ex : bool then
            entries ← FS.rglob session_workspace;
            files_created ← gets (λ w, filter (λ f, FS.is_file_in (fs w) f = true)
                                         entries);
            if bool_decide (files_created = []) then mret ()
            else
              _ ← PersistentStorageManager.save_agent_action E session_key
                    "file_operation"
                    {[ "files_count" := JNum (Z.of_nat (length files_created));
                       "workspace" :=
                         JStr ("/" +:+ FS.path_str session_workspace) ]}
                    None;
              mret ()
          else mret ());;
         response_text ←
           (if reply_blank response_text then
              logger WARNING "No response generated";;
              mret fallback_message
            else mret (from_option id "" response_text));
         let telegram_token := token telegram_config in
         if bool_decide (telegram_token = "") then
           logger ERROR "Telegram bot token not found in config";;
           mret (dict_of [("ok", JBool false);
                          ("error", JStr "Telegram bot token not configured")])
         else
           send_message telegram_token chat_id response_text;;
           mret (dict_of [("ok", JBool true); ("handled", JBool true);
                          ("response", JStr response_text)]))
    (λ e,
       logger ERROR "Error handling Telegram webhook";;
       mret (dict_of [("ok", JBool false); ("error", JStr (exn_str e))])).

End methods.
End Gateway.

(** ** A reference implementation of the [json] parameters

    [json.dumps] with its default separators and [ensure_ascii], the same
    with [indent=2], and a recursive-descent [json.loads], on the fragment
    without floating-point numbers.  It is what the examples run on. *)

Module RefJson.

Definition hex_digit (n : N) : ascii :=
  ascii_of_N (if (n <? 10)%N then 48 + n else 87 + n).

(** The escape of one character inside a string literal. *)
Definition escape_char (c : ascii) : string :=
  match c with
  | "034"%char => String "\" (String "034" "")
  | "\"%char => "\\"
  | "008"%char => "\b"
  | "009"%char => "\t"
  | "010"%char => "\n"
  | "012"%char => "\f"
  | "013"%char => "\r"
  | _ =>
      let n := N_of_ascii c in
      if ((32 <=? n) && (n <=? 126))%N then String c ""
      else "\u00" +:+ String (hex_digit (n / 16)) (String (hex_digit (n mod 16)) "")
  end.

Fixpoint escape (s : string) : string :=
  match s with
  | "" => ""
  | String c s' => escape_char c +:+ escape s'
  end.

Definition quote (s : string) : string :=
  String "034" (escape s +:+ String "034" "").

Fixpoint dumps (v : json) : string :=
  match v with
  | JNull => "null"
  | JBool true => "true"
  | JBool false => "false"
  | JNum z => pretty z
  | JStr s => quote s
  | JArr l => "[" +:+ Py.join ", " (map dumps l) +:+ "]"
  | JObj m =>
      "{" +:+ Py.join ", "
                (map_fold (λ k x acc, acc ++ [quote k +:+ ": " +:+ dumps x]) [] m)
          +:+ "}"
  end.

Fixpoint spaces (n : nat) : string :=
  match n with
  | O => ""
  | S n' => String " " (spaces n')
  end.

(** [json.dumps(v, indent=2)] at nesting depth [d]. *)
Fixpoint dumps_at (d : nat) (v : json) : string :=
  let inner := NL +:+ spaces (2 * S d) in
  let close := NL +:+ spaces (2 * d) in
  match v with
  | JArr [] => "[]"
  | JArr l =>
      "[" +:+ inner +:+ Py.join ("," +:+ inner) (map (dumps_at (S d)) l)
          +:+ close +:+ "]"
  | JObj m =>
      match map_fold (λ k x acc,
                        acc ++ [quote k +:+ ": " +:+ dumps_at (S d) x]) [] m with
      | [] => "{}"
      | items => "{" +:+ inner +:+ Py.join ("," +:+ inner) items
                     +:+ close +:+ "}"
      end
  | _ => dumps v
  end.

Definition dumps_indent (v : json) : string := dumps_at 0 v.

(** White space of the JSON grammar. *)
Definition is_ws (c : ascii) : bool :=
  match c with
  | " " | "009" | "010" | "013" => true
  | _ => false
  end%char.

Fixpoint skip_ws (s : string) : string :=
  match s with
  | String c s' => if is_ws c then skip_ws s' else s
  | "" => ""
  end.

Definition digit_val (c : ascii) : option Z :=
  let n := Z.of_N (N_of_ascii c) in
  if ((48 <=? n) && (n <=? 57))%Z then Some (n - 48)%Z else None.

Definition hex_val (c : ascii) : option N :=
  let n := N_of_ascii c in
  if ((48 <=? n) && (n <=? 57))%N then Some (n - 48)%N
  else if ((97 <=? n) && (n <=? 102))%N then Some (n - 87)%N
  else if ((65 <=? n) && (n <=? 70))%N then Some (n - 55)%N
  else None.

(** Digits of an integer literal, most significant first. *)
Fixpoint parse_digits (acc : Z) (s : string) : Z * string :=
  match s with
  | String c s' =>
      match digit_val c with
      | Some d => parse_digits (10 * acc + d) s'
      | None => (acc, s)
      end
  | "" => (acc, s)
  end.

(** An integer literal; a fraction or an exponent after it is refused. *)
Definition parse_int (s : string) : option (Z * string) :=
  let '(neg, s1) := match s with
                    | String "-" s' => (true, s')
                    | _ => (false, s)
                    end in
  match s1 with
  | String c s2 =>
      match digit_val c with
      | None => None
      | Some d =>
          let '(n, rest) := if (d =? 0)%Z then (0%Z, s2) else parse_digits d s2 in
          match rest with
          | String "." _ | String "e" _ | String "E" _ => None
          | _ => Some (if neg : bool then (- n)%Z else n, rest)
          end
      end
  | "" => None
  end.

(** The body of a string literal, after its opening quote. *)
Fixpoint parse_chars (s : string) : option (string * string) :=
  match s with
  | "" => None
  | String "034" rest => Some ("", rest)
  | String "\" (String e rest) =>
      let continue (c : ascii) (rest : string) :=
        '(t, rest') ← parse_chars rest; Some (String c t, rest') in
      match e with
      | "034"%char => continue "034"%char rest
      | "\"%char => continue "\"%char rest
      | "/"%char => continue "/"%char rest
      | "b"%char => continue "008"%char rest
      | "f"%char => continue "012"%char rest
      | "n"%char => continue "010"%char rest
      | "r"%char => continue "013"%char rest
      | "t"%char => continue "009"%char rest
      | "u"%char =>
          match rest with
          | String "0" (String "0" (String h (String l rest'))) =>
              a ← hex_val h; b ← hex_val l;
              '(t, rest'') ← parse_chars rest';
              Some (String (ascii_of_N (16 * a + b)) t, rest'')
          | _ => None
          end
      | _ => None
      end
  | String "\" "" => None
  | String c rest =>
      if (N_of_ascii c <? 32)%N then None
      else '(t, rest') ← parse_chars rest; Some (String c t, rest')
  end.

Definition expect (lit : string) (v : json) (s : string) : option (json * string) :=
  if Py.startswith lit s then Some (v, Py.drop (String.length lit) s) else None.

(** Elements of an array after the first one was not a closing bracket. *)
Fixpoint parse_elems (pv : string → option (json * string))
    (n : nat) (acc : list json) (s : string) : option (json * string) :=
  match n with
  | O => None
  | S n' =>
      '(v, rest) ← pv s;
      match skip_ws rest with
      | String "," rest' => parse_elems pv n' (acc ++ [v]) rest'
      | String "]" rest' => Some (JArr (acc ++ [v]), rest')
      | _ => None
      end
  end.

(** Members of an object; a repeated key keeps its last value. *)
Fixpoint parse_members (pv : string → option (json * string))
    (n : nat) (acc : gmap string json) (s : string) : option (json * string) :=
  match n with
  | O => None
  | S n' =>
      match skip_ws s with
      | String "034" s1 =>
          '(k, s2) ← parse_chars s1;
          match skip_ws s2 with
          | String ":" s3 =>
              '(v, rest) ← pv s3;
              match skip_ws rest with
              | String "," rest' => parse_members pv n' (<[k := v]> acc) rest'
              | String "}" rest' => Some (JObj (<[k := v]> acc), rest')
              | _ => None
              end
          | _ => None
          end
      | _ => None
      end
  end.

Fixpoint parse_value (fuel : nat) (s : string) : option (json * string) :=
  match fuel with
  | O => None
  | S fuel' =>
      let s0 := skip_ws s in
      match s0 with
      | String "n" _ => expect "null" JNull s0
      | String "t" _ => expect "true" (JBool true) s0
      | String "f" _ => expect "false" (JBool false) s0
      | String "034" rest => '(t, rest') ← parse_chars rest; Some (JStr t, rest')
      | String "[" rest =>
          match skip_ws rest with
          | String "]" rest' => Some (JArr [], rest')
          | _ => parse_elems (parse_value fuel') (String.length rest) [] rest
          end
      | String "{" rest =>
          match skip_ws rest with
          | String "}" rest' => Some (JObj ∅, rest')
          | _ => parse_members (parse_value fuel') (String.length rest) ∅ rest
          end
      | _ => '(z, rest) ← parse_int s0; Some (JNum z, rest)
      end
  end.

(** The deepest nesting of brackets and the longest run of digits of a
    text, outside its string literals: [depth] and [run] are those at the
    current position, [deepest] and [longest] the greatest so far. *)
Fixpoint scan (in_str esc : bool) (depth run deepest longest : nat)
    (s : string) : nat * nat :=
  match s with
  | "" => (deepest, longest)
  | String c s' =>
      if in_str then
        if esc then scan true false depth 0 deepest longest s'
        else if bool_decide (c = "034"%char)
        then scan false false depth 0 deepest longest s'
        else scan true (bool_decide (c = "\"%char)) depth 0 deepest longest s'
      else if bool_decide (c = "034"%char)
      then scan true false depth 0 deepest longest s'
      else if bool_decide (c = "["%char) || bool_decide (c = "{"%char)
      then scan false false (S depth) 0 (Nat.max (S depth) deepest) longest s'
      else if bool_decide (c = "]"%char) || bool_decide (c = "}"%char)
      then scan false false (pred depth) 0 deepest longest s'
      else match digit_val c with
           | Some _ =>
               scan false false depth (S run) deepest
                    (Nat.max (S run) longest) s'
           | None => scan false false depth 0 deepest longest s'
           end
  end.

(** The recursion limit of the interpreter and its limit on the digits of
    an integer literal. *)
Definition recursion_limit : nat := 1000.
Definition max_str_digits : nat := 4300.

(** The exception [json.loads] raises on a text it does not load. *)
Definition loads_error (s : string) : exn :=
  let '(depth, digits) := scan false false 0 0 0 0 s in
  if decide (recursion_limit ≤ depth) then
    Exn RecursionError "maximum recursion depth exceeded"
  else if decide (max_str_digits < digits) then
    Exn ValueError "Exceeds the limit (4300 digits) for integer string conversion"
  else Exn JSONDecodeError "Expecting value".

Definition loads (s : string) : option json :=
  if decide (exn_cls (loads_error s) = JSONDecodeError) then
    '(v, rest) ← parse_value (S (String.length s)) s;
    if bool_decide (skip_ws rest = "") then Some v else None
  else None.

(** [str()] of a list or a dict is not needed by the examples. *)
Definition container_str (v : json) : string := dumps v.

End RefJson.

(** ** Vocabulary of the statements *)

Fixpoint has_char (c : ascii) (s : string) : bool :=
  match s with
  | "" => false
  | String a s' => bool_decide (a = c) || has_char c s'
  end.

(** A line as [json.dumps] writes one: no line feed inside, no white space
    at either end, not empty. *)
Definition jsonl_line (s : string) : bool :=
  negb (has_char LF s) && bool_decide (Py.lstrip s = s)
  && bool_decide (Py.rstrip s = s) && negb (bool_decide (s = "")).

(** A record is valid for a log when its line is such a line and parses
    back to the record. *)
Definition valid_record (E : env) (d : json) : Prop :=
  jsonl_line (json_dumps E d) = true ∧ json_loads E (json_dumps E d) = Some d.

(** The text of a log that holds the lines [ls]. *)
Fixpoint jsonl (ls : list string) : string :=
  match ls with
  | [] => ""
  | l :: ls' => l +:+ NL +:+ jsonl ls'
  end.

(** The lines a read looks at: those of the stripped content that are not
    blank. *)
Definition lines_of (content : string) : list string :=
  filter (λ l, Py.strip l ≠ "") (Py.split LF (Py.strip content)).

(** The records a read collects from lines. *)
Definition parsed (E : env) (lines : list string) : list json :=
  omap (json_loads E) lines.

(** The warnings a read emits: one for each line that does not parse. *)
Definition warnings (E : env) (msg : string) (lines : list string)
    : list (level * string) :=
  omap (λ l, match json_loads E l with
             | Some _ => None
             | None => Some (WARNING, msg)
             end) lines.

(** A line on which [json.loads] raises something else than a
    JSONDecodeError (a RecursionError on deep nesting, a ValueError on an
    integer literal with too many digits): the clause of the loop does not
    catch it. *)
Definition aborts_read (E : env) (l : string) : bool :=
  match json_loads E l with
  | Some _ => false
  | None => negb (bool_decide (exn_cls (json_loads_error E l) = JSONDecodeError))
  end.

(** Lines none of which does that. *)
Definition readable (E : env) (lines : list string) : bool :=
  forallb (λ l, negb (aborts_read E l)) lines.

(** The records a read returns from lines: those that parse, unless one line
    aborts the read, which then returns nothing. *)
Definition read_records (E : env) (lines : list string) : list json :=
  if readable E lines then parsed E lines else [].

(** [s * n] *)
Fixpoint times (n : nat) (s : string) : string :=
  match n with
  | O => ""
  | S n' => s +:+ times n' s
  end.

Definition session_path (session_key : string) : string :=
  GCSFileStorage._get_session_path session_key +:+ "/session.json".
Definition chat_history_path (session_key : string) : string :=
  GCSFileStorage._get_session_path session_key +:+ "/chat_history.jsonl".
Definition agent_actions_path (session_key : string) : string :=
  GCSFileStorage._get_session_path session_key +:+ "/agent_actions.jsonl".

(** The arguments of one [save_chat_message] call. *)
Record ChatMessage := {
  cm_id : string;
  cm_role : string;
  cm_content : json;
  cm_metadata : option (gmap string json);
}.

(** The Chat Message Record that call stores when the clock reads
    [timestamp]. *)
Definition message_doc (m : ChatMessage) (timestamp : string) : json :=
  dict_of [("message_id", JStr (cm_id m));
           ("role", JStr (cm_role m));
           ("content", cm_content m);
           ("timestamp", JStr timestamp);
           ("metadata", GCSFileStorage.or_empty (cm_metadata m))].

(** The records of a run of appends that starts at clock reading [t]. *)
Definition docs_from (E : env) (t : nat) (msgs : list ChatMessage) : list json :=
  imap (λ i m, message_doc m (utcnow_isoformat E (t + i))) msgs.

Definition append_all (E : env) (session_key : string)
    (msgs : list ChatMessage) : M unit :=
  for_each msgs (λ m,
    GCSFileStorage.save_chat_message E session_key
      (cm_id m) (cm_role m) (cm_content m) (cm_metadata m)).

(** ** The environment and the data of the examples *)

Definition pad2 (n : nat) : string :=
  (if decide (n < 10) then "0" else "") +:+ pretty n.

Definition ref_env : env := {|
  json_dumps := RefJson.dumps;
  json_dumps_indent := RefJson.dumps_indent;
  json_loads := RefJson.loads;
  json_loads_error := RefJson.loads_error;
  utcnow_isoformat := λ n, "2026-01-01T00:00:" +:+ pad2 n;
  uuid4 := λ n, "00000000-0000-4000-8000-0000000000" +:+ pad2 n;
  container_str := RefJson.container_str;
  httpx_post := λ _ _, PostJson (dict_of [("ok", JBool true)]);
  bucket_name := "nanobot-sessions";
|}.

Definition empty_world : world := World ∅ [] ∅ 0 0 [] [].

Definition hello : ChatMessage :=
  {| cm_id := "m1"; cm_role := "user"; cm_content := JStr "hello";
     cm_metadata := Some {[ "telegram_message_id" := JNum 17 ]} |}.
Definition hi_there : ChatMessage :=
  {| cm_id := "m2"; cm_role := "assistant"; cm_content := JStr "hi there";
     cm_metadata := None |}.
Definition bye : ChatMessage :=
  {| cm_id := "m3"; cm_role := "user";
     cm_content := JStr ("bye" +:+ NL +:+ "now"); cm_metadata := None |}.

(** The body of the loop of [get_chat_history]. *)
Definition chat_line_step (E : env) (messages : list json) (line : string)
    : M (list json) :=
  if bool_decide (Py.strip line = "") then mret messages
  else
    try_except
      (v ← GCSFileStorage.loads E line; mret (messages ++ [v]))
      (λ e, if decide (exn_cls e = JSONDecodeError)
            then logger WARNING "Failed to parse chat history line";;
                 mret messages
            else raise e).

(** The body of the loop of [get_agent_actions] when no type is asked for. *)
Definition action_line_step (E : env) (actions : list json) (line : string)
    : M (list json) :=
  if bool_decide (Py.strip line = "") then mret actions
  else
    try_except
      (action ← GCSFileStorage.loads E line;
       keep ← mret true;
       mret (if keep : bool then actions ++ [action] else actions))
      (λ e, if decide (exn_cls e = JSONDecodeError)
            then logger WARNING "Failed to parse agent action line";;
                 mret actions
            else raise e).

(** A chat history with a line that is not JSON between two records. *)
Definition log_with_bad_line : string :=
  RefJson.dumps (message_doc hello "t0") +:+ NL +:+
  "{not json" +:+ NL +:+
  RefJson.dumps (message_doc hi_there "t1") +:+ NL.

Definition log_without_bad_line : string :=
  RefJson.dumps (message_doc hello "t0") +:+ NL +:+
  RefJson.dumps (message_doc hi_there "t1") +:+ NL.

Definition world_with_bad_line : world :=
  set_bucket {[ chat_history_path "telegram:42" := log_with_bad_line;
                agent_actions_path "telegram:42" := log_with_bad_line ]}
    empty_world.

(** A chat history with a line of 1200 opening brackets between two
    records: [json.loads] raises a RecursionError on it. *)
Definition deep_line : string := times 1200 "[".

Definition log_with_deep_line : string :=
  RefJson.dumps (message_doc hello "t0") +:+ NL +:+
  deep_line +:+ NL +:+
  RefJson.dumps (message_doc hi_there "t1") +:+ NL.

Definition world_with_deep_line : world :=
  set_bucket {[ chat_history_path "telegram:42" := log_with_deep_line;
                agent_actions_path "telegram:42" := log_with_deep_line ]}
    empty_world.

(** ** The session record, as the specification words it *)

Record Session := {
  s_key : string;
  s_user_id : string;
  s_created_at : string;
  s_updated_at : string;
  s_metadata : gmap string json;
}.

(** The document a session record is stored as. *)
Definition session_json (s : Session) : json :=
  dict_of [("session_key", JStr (s_key s));
           ("user_id", JStr (s_user_id s));
           ("created_at", JStr (s_created_at s));
           ("updated_at", JStr (s_updated_at s));
           ("metadata", JObj (s_metadata s))].

(** The arguments of one upsert. *)
Record Upsert := {
  up_user_id : string;
  up_metadata : option (gmap string json);
}.

Definition metadata_of (u : Upsert) : gmap string json :=
  from_option id ∅ (up_metadata u).

(** "If no record exists, creates one with created_at = updated_at = now.
    If a record exists, sets updated_at = now, overwrites user_id, and
    shallow-merges metadata (new keys override same-named old keys;
    untouched keys survive)." *)
Definition upsert_spec (key now : string) (u : Upsert) (old : option Session)
    : Session :=
  match old with
  | None =>
      {| s_key := key; s_user_id := up_user_id u;
         s_created_at := now; s_updated_at := now;
         s_metadata := metadata_of u |}
  | Some s =>
      {| s_key := s_key s; s_user_id := up_user_id u;
         s_created_at := s_created_at s; s_updated_at := now;
         s_metadata := metadata_of u ∪ s_metadata s |}
  end.

(** The record after each of a run of upserts that starts at clock
    reading [t] from the record [old]. *)
Fixpoint session_states (E : env) (key : string) (t : nat)
    (old : option Session) (calls : list Upsert) : list Session :=
  match calls with
  | [] => []
  | u :: rest =>
      let s := upsert_spec key (utcnow_isoformat E t) u old in
      s :: session_states E key (S t) (Some s) rest
  end.

(** The shallow union of the metadata of a run of upserts, later calls
    overriding earlier ones. *)
Definition merged_metadata (calls : list Upsert) : gmap string json :=
  foldl (λ acc u, metadata_of u ∪ acc) ∅ calls.

Definition upsert_all (E : env) (key : string) (calls : list Upsert) : M unit :=
  for_each calls (λ u,
    _ ← GCSFileStorage.create_or_update_session E key
          (up_user_id u) (up_metadata u);
    mret ()).

(** A session document is valid when it parses back from its text. *)
Definition valid_session (E : env) (s : Session) : Prop :=
  json_loads E (json_dumps_indent E (session_json s)) = Some (session_json s).

(** The stored text of a session record, if there is one. *)
Definition stored (E : env) (o : option Session) : option string :=
  json_dumps_indent E ∘ session_json <$> o.

(** Three upserts of one session, and the record they leave. *)
Definition three_upserts : list Upsert :=
  [ {| up_user_id := "7";
       up_metadata := Some {[ "chat_type" := JStr "private" ]} |};
    {| up_user_id := "8";
       up_metadata := Some {[ "chat_type" := JStr "group";
                              "lang" := JStr "en" ]} |};
    {| up_user_id := "9"; up_metadata := None |} ].

Definition session_after_three : Session :=
  {| s_key := "telegram:42"; s_user_id := "9";
     s_created_at := "2026-01-01T00:00:00";
     s_updated_at := "2026-01-01T00:00:02";
     s_metadata := {[ "chat_type" := JStr "group"; "lang" := JStr "en" ]} |}.

(** ** The phases of [handle_telegram_webhook]

    The handler is one function in the source.  The statements about it
    speak of the state of a run at the authorization check, when the agent
    is invoked and when the reply is sent, so its text is cut here along
    the steps Received, Authorized, Synced-In, Invoked, Synced-Out and
    Replied.  [handler_phases] below proves that the handler is the
    sequence of these parts. *)

(** What the handler reads off an update. *)
Record Inbound := {
  in_message : json;
  in_chat : json;
  in_text : json;
  in_chat_id : string;
  in_user_id : string;
}.

(** What the Synced-In step hands on. *)
Record Turn := {
  turn_text : json;
  turn_chat_id : string;
  turn_session_key : string;
  turn_workspace : path;
}.

Definition no_message_result : json :=
  dict_of [("ok", JBool true); ("handled", JBool false)].

Definition not_allowed_result : json :=
  dict_of [("ok", JBool true); ("handled", JBool false);
           ("error", JStr "User not allowed")].

Definition no_token_result : json :=
  dict_of [("ok", JBool false);
           ("error", JStr "Telegram bot token not configured")].

Definition handled_result (response_text : string) : json :=
  dict_of [("ok", JBool true); ("handled", JBool true);
           ("response", JStr response_text)].

Section phases.
Context (E : env) (self : ServerlessGateway).

(** Received: an early result when there is no message, or what was
    read. *)
Definition received (update : json) : M (json + Inbound) :=
  m ← py_get update "message" JNull;
  message ← (if truthy m then mret m
             else py_get update "edited_message" JNull);
  if negb (truthy message) then
    logger WARNING "No message found in Telegram update";;
    mret (inl no_message_result)
  else
    chat ← py_get message "chat" (JObj ∅);
    user ← py_get message "from" (JObj ∅);
    text ← py_get message "text" (JStr "");
    chat_id_value ← py_get chat "id" JNull;
    let chat_id := Gateway.py_str E chat_id_value in
    user_id_value ← py_get user "id" JNull;
    let user_id := Gateway.py_str E user_id_value in
    Gateway.slice50 text;;
    logger INFO "Received message";;
    mret (inr {| in_message := message; in_chat := chat; in_text := text;
                 in_chat_id := chat_id; in_user_id := user_id |}).

(** Authorized: the check the gate makes. *)
Definition refused (user_id : string) : bool :=
  Gateway.list_truthy (allow_from (config self))
  && negb (bool_decide (user_id ∈ default [] (allow_from (config self)))).

(** Synced-In: up to and including the append of the user's message. *)
Definition synced_in (i : Inbound) : M Turn :=
  let session_key := "telegram:" +:+ in_chat_id i in
  session ← PersistentStorageManager.get_session E session_key;
  (if negb (truthy session) then
     chat_type ← py_get (in_chat i) "type" (JStr "unknown");
     _ ← PersistentStorageManager.create_or_update_session E
           session_key (in_user_id i) (Some {[ "chat_type" := chat_type ]});
     mret ()
   else mret ());;
  let session_workspace :=
    FS.path_join (workspace self) (Py.replace ":" "_" session_key) in
  FS.mkdir_parents session_workspace;;
  PersistentStorageManager.sync_files_from_storage
    session_workspace session_key;;
  chat_history ←
    PersistentStorageManager.get_chat_history E session_key (Some 50%Z);
  logger DEBUG "Loaded previous messages";;
  (ex ← FS.exists_ session_workspace;
   if ex : bool then
     files ← FS.rglob session_workspace;
     Gateway.copy_files files session_workspace
       (agent_workspace (agent_loop self))
   else mret ());;
  message_id ← GCSFileStorage.new_uuid E;
  telegram_message_id ← py_get (in_message i) "message_id" JNull;
  PersistentStorageManager.save_chat_message E session_key message_id
    "user" (in_text i)
    (Some {[ "telegram_message_id" := telegram_message_id ]});;
  (if bool_decide (chat_history = []) then mret ()
   else logger INFO "Processing message with previous messages in context");;
  mret {| turn_text := in_text i; turn_chat_id := in_chat_id i;
          turn_session_key := session_key;
          turn_workspace := session_workspace |}.

(** Invoked. *)
Definition invoked (t : Turn) : M (option string) :=
  Gateway.call_agent (agent_loop self) (turn_text t) (turn_session_key t).

(** Synced-Out: from the agent's reply to the action record. *)
Definition synced_out (t : Turn) (response_text : option string) : M unit :=
  let session_key := turn_session_key t in
  let session_workspace := turn_workspace t in
  (if Gateway.reply_truthy response_text then
     response_message_id ← GCSFileStorage.new_uuid E;
     PersistentStorageManager.save_chat_message E session_key
       response_message_id "assistant"
       (JStr (from_option id "" response_text)) None
   else mret ());;
  agent_workspace_files ← FS.rglob (agent_workspace (agent_loop self));
  Gateway.copy_files agent_workspace_files (agent_workspace (agent_loop self))
    session_workspace;;
  PersistentStorageManager.sync_files_to_storage E
    session_workspace session_key;;
  (ex ← FS.exists_ session_workspace;
   if ex : bool then
     entries ← FS.rglob session_workspace;
     files_created ← gets (λ w, filter (λ f, FS.is_file_in (fs w) f = true)
                                  entries);
     if bool_decide (files_created = []) then mret ()
     else
       _ ← PersistentStorageManager.save_agent_action E session_key
             "file_operation"
             {[ "files_count" := JNum (Z.of_nat (length files_created));
                "workspace" :=
                  JStr ("/" +:+ FS.path_str session_workspace) ]}
             None;
       mret ()
   else mret ()).

(** The text that is sent: the agent's reply, or the fallback message
    when the reply is blank. *)
Definition reply_text (response_text : option string) : string :=
  if Gateway.reply_blank response_text then fallback_message
  else from_option id "" response_text.

(** Replied: the fallback substitution, the delivery and the result. *)
Definition replied (chat_id : string) (response_text : option string)
    : M json :=
  response_text ←
    (if Gateway.reply_blank response_text then
       logger WARNING "No response generated";;
       mret fallback_message
     else mret (from_option id "" response_text));
  let telegram_token := token (config self) in
  if bool_decide (telegram_token = "") then
    logger ERROR "Telegram bot token not found in config";;
    mret no_token_result
  else
    Gateway.send_message E telegram_token chat_id response_text;;
    mret (handled_result response_text).

(** The steps after the authorization check. *)
Definition past_gate (i : Inbound) : M json :=
  t ← synced_in i;
  response_text ← invoked t;
  synced_out t response_text;;
  replied (turn_chat_id t) response_text.

(** The [except Exception] clause of the handler. *)
Definition on_error (e : exn) : M json :=
  logger ERROR "Error handling Telegram webhook";;
  mret (dict_of [("ok", JBool false); ("error", JStr (exn_str e))]).

(** The handler as the sequence of its phases. *)
Definition phased (update : json) : M json :=
  try_except
    (r ← received update;
     match r with
     | inl early => mret early
     | inr i =>
         if refused (in_user_id i) then
           logger WARNING "User not in allowed list";;
           mret not_allowed_result
         else past_gate i
     end)
    on_error.

End phases.

(** What the handler reads off an update that gets as far as the
    authorization check: the update and its message are dicts, the message
    is not empty, its chat and sender are dicts and its text can be
    sliced. *)
Definition inbound (E : env) (update : json) : option Inbound :=
  match update with
  | JObj um =>
      let message := py_or (default JNull (um !! "message"))
                           (default JNull (um !! "edited_message")) in
      match message with
      | JObj mm =>
          if truthy message then
            match default (JObj ∅) (mm !! "chat"),
                  default (JObj ∅) (mm !! "from"),
                  default (JStr "") (mm !! "text") with
            | JObj cm, JObj fm, (JStr _ | JArr _) as text =>
                Some {| in_message := message;
                        in_chat := JObj cm;
                        in_text := text;
                        in_chat_id :=
                          Gateway.py_str E (default JNull (cm !! "id"));
                        in_user_id :=
                          Gateway.py_str E (default JNull (fm !! "id")) |}
            | _, _, _ => None
            end
          else None
      | _ => None
      end
  | _ => None
  end.

(** The gateway with another allow-list. *)
Definition with_allow_from (self : ServerlessGateway)
    (allowed : option (list string)) : ServerlessGateway :=
  {| agent_loop := agent_loop self;
     config := {| allow_from := allowed; token := token (config self) |};
     workspace := workspace self |}.

(** The environment with another answer of the messaging platform. *)
Definition with_httpx_post (E : env) (post : string → json → post_outcome)
    : env :=
  {| json_dumps := json_dumps E;
     json_dumps_indent := json_dumps_indent E;
     json_loads := json_loads E;
     json_loads_error := json_loads_error E;
     utcnow_isoformat := utcnow_isoformat E;
     uuid4 := uuid4 E;
     container_str := container_str E;
     httpx_post := post;
     bucket_name := bucket_name E |}.

(** The request that delivers [text] to [chat_id]. *)
Definition send_request (self : ServerlessGateway) (chat_id text : string)
    : string * json :=
  ("https://api.telegram.org/bot" +:+ token (config self) +:+ "/sendMessage",
   dict_of [("chat_id", JStr chat_id); ("text", JStr text)]).

(** The request is not answered: it times out, is answered with an error
    status, or raises. *)
Definition delivery_fails (o : post_outcome) : bool :=
  match o with
  | PostJson _ => false
  | _ => true
  end.

(** The records the handler logs for a request that is not answered. *)
Definition delivery_errors : list string :=
  ["Timeout sending message to Telegram API";
   "HTTP error sending message to Telegram";
   "Error sending message to Telegram"].

(** Two computations that run alike in every world. *)
Definition meq {A} (m1 m2 : M A) : Prop := ∀ w, m1 w = m2 w.

(** The results the handler can give. *)
Definition structured (r : json) : Prop :=
  r = no_message_result ∨ r = not_allowed_result ∨ r = no_token_result
  ∨ (∃ text, r = handled_result text)
  ∨ (∃ msg, r = dict_of [("ok", JBool false); ("error", JStr msg)]).

(** The update of the end-to-end scenario: user 7 says hello in chat 42. *)
Definition update_hello : json :=
  dict_of [("message",
            dict_of [("chat", dict_of [("id", JNum 42);
                                       ("type", JStr "private")]);
                     ("from", dict_of [("id", JNum 7)]);
                     ("text", JStr "hello")])].

Definition inbound_hello : Inbound :=
  {| in_message :=
       dict_of [("chat", dict_of [("id", JNum 42); ("type", JStr "private")]);
                ("from", dict_of [("id", JNum 7)]);
                ("text", JStr "hello")];
     in_chat := dict_of [("id", JNum 42); ("type", JStr "private")];
     in_text := JStr "hello";
     in_chat_id := "42";
     in_user_id := "7" |}.

(** An update that carries no message. *)
Definition update_empty : gmap string json := {[ "update_id" := JNum 5 ]}.

(** An agent that answers [reply] and leaves the files alone. *)
Definition fixed_agent (reply : option string) : AgentLoop :=
  {| agent_workspace := ["tmp"; "nanobot_workspace"];
     process_direct := λ _ _ f, (Ok reply, f) |}.

Definition gateway_with (reply : option string) (allowed : option (list string))
    : ServerlessGateway :=
  {| agent_loop := fixed_agent reply;
     config := {| allow_from := allowed; token := "123:abc" |};
     workspace := ["tmp"; "nanobot_workspace"] |}.

(** The run of the scenario with an agent whose reply is white space. *)
Definition turn_hello : Turn :=
  {| turn_text := JStr "hello"; turn_chat_id := "42";
     turn_session_key := "telegram:42";
     turn_workspace := ["tmp"; "nanobot_workspace"; "telegram_42"] |}.

Definition blank_gateway : ServerlessGateway :=
  gateway_with (Some "  ") (Some ["7"]).

Definition hello_w1 : world :=
  set_log [(INFO, "Received message")] empty_world.
Definition hello_w2 : world :=
  world_of (synced_in ref_env blank_gateway inbound_hello hello_w1).
Definition hello_w3 : world :=
  world_of (invoked blank_gateway turn_hello hello_w2).
Definition hello_w4 : world :=
  world_of (synced_out ref_env blank_gateway turn_hello (Some "  ") hello_w3).

(** The reference environment with a platform that does not answer in
    time. *)
Definition offline_env : env := with_httpx_post ref_env (λ _ _, PostTimeout).

(** ** Frames: what a computation leaves related to where it started *)

(** Every run of [m] takes a world to one related to it by [R]. *)
Definition ensures {A} (R : world → world → Prop) (m : M A) : Prop :=
  ∀ w, R w (world_of (m w)).

(** The bucket and the local files are the ones at the start. *)
Definition same_store (w w' : world) : Prop :=
  bucket w' = bucket w ∧ fs w' = fs w.

(** The bucket is the one at the start. *)
Definition same_bucket (w w' : world) : Prop := bucket w' = bucket w.

(** The object [name] is as it was at the start. *)
Definition same_object (name : string) (w w' : world) : Prop :=
  bucket w' !! name = bucket w !! name.

(** No object of the bucket has gone. *)
Definition no_object_lost (w w' : world) : Prop :=
  ∀ name, is_Some (bucket w !! name) → is_Some (bucket w' !! name).

(** A store that answered every call so far keeps answering: there is no
    fault left in the schedule. *)
Definition stays_healthy (w w' : world) : Prop :=
  faults w = [] → faults w' = [].

(** The body of the loop of [get_agent_actions] when the type [t] is asked
    for. *)
Definition action_filter_step (E : env) (t : string) (actions : list json)
    (line : string) : M (list json) :=
  if bool_decide (Py.strip line = "") then mret actions
  else
    try_except
      (action ← GCSFileStorage.loads E line;
       keep ← (v ← py_get action "action_type" JNull;
               mret (GCSFileStorage.eq_str v t));
       mret (if keep : bool then actions ++ [action] else actions))
      (λ e, if decide (exn_cls e = JSONDecodeError)
            then logger WARNING "Failed to parse agent action line";;
                 mret actions
            else raise e).

(** The arguments of one [save_agent_action] call. *)
Record ActionCall := {
  ac_type : string;
  ac_data : gmap string json;
  ac_metadata : option (gmap string json);
}.

(** The Agent Action Record that call stores under the id [action_id] when
    the clock reads [timestamp]. *)
Definition action_doc (a : ActionCall) (action_id timestamp : string) : json :=
  dict_of [("action_id", JStr action_id);
           ("action_type", JStr (ac_type a));
           ("action_data", JObj (ac_data a));
           ("timestamp", JStr timestamp);
           ("metadata", GCSFileStorage.or_empty (ac_metadata a))].

(** The records of a run of action appends that starts at uuid number [u]
    and clock reading [t]. *)
Definition action_docs_from (E : env) (u t : nat) (acts : list ActionCall)
    : list json :=
  imap (λ i a, action_doc a (uuid4 E (u + i)) (utcnow_isoformat E (t + i))) acts.

(** A run of action appends; the ids they return. *)
Definition append_actions (E : env) (session_key : string)
    (acts : list ActionCall) : M (list string) :=
  for_fold acts [] (λ ids a,
    action_id ← GCSFileStorage.save_agent_action E session_key
                  (ac_type a) (ac_data a) (ac_metadata a);
    mret (ids ++ [action_id])).

(** The record [d] is of type [t]. *)
Definition has_type (t : string) (d : json) : bool :=
  match d with
  | JObj m => GCSFileStorage.eq_str (default JNull (m !! "action_type")) t
  | _ => false
  end.

(** The records of type [t]. *)
Definition of_type (t : string) (docs : list json) : list json :=
  filter (λ d, has_type t d = true) docs.

Definition is_dict (v : json) : bool :=
  match v with
  | JObj _ => true
  | _ => false
  end.

(** Three actions of two types. *)
Definition three_actions : list ActionCall :=
  [ {| ac_type := "file_operation";
       ac_data := {[ "files_count" := JNum 1 ]}; ac_metadata := None |};
    {| ac_type := "search";
       ac_data := {[ "query" := JStr "weather" ]}; ac_metadata := None |};
    {| ac_type := "file_operation";
       ac_data := {[ "files_count" := JNum 2 ]};
       ac_metadata := Some {[ "note" := JStr "second" ]} |} ].

(** An action log whose second line is a JSON number. *)
Definition log_with_number : string :=
  RefJson.dumps (action_doc {| ac_type := "search"; ac_data := ∅;
                               ac_metadata := None |} "a1" "t0")
  +:+ NL +:+ "123" +:+ NL.

Definition world_with_number : world :=
  set_bucket {[ agent_actions_path "telegram:42" := log_with_number ]}
    empty_world.

(** The world after the three upserts, and the same with a store that
    fails its next call once. *)
Definition world_after_three : world :=
  world_of (upsert_all ref_env "telegram:42" three_upserts empty_world).

Definition unavailable : exn := Exn OtherException "503 Service Unavailable".

Definition faulty_once : world := set_faults [Some unavailable] world_after_three.

(** A store whose second call fails. *)
Definition faulty_second : world :=
  set_faults [None; Some unavailable] empty_world.

(** The world after three messages were appended. *)
Definition world_three_messages : world :=
  world_of (append_all ref_env "telegram:42" [hello; hi_there; bye] empty_world).

(** A line of an action log that is not blank and parses to something
    that is no object. *)
Definition not_a_record (E : env) (l : string) : bool :=
  negb (bool_decide (Py.strip l = ""))
  && match json_loads E l with
     | Some v => negb (is_dict v)
     | None => false
     end.

(** Lines none of which stops a read with a type filter: none aborts the
    read and every one that parses is an object. *)
Definition typed_readable (E : env) (lines : list string) : bool :=
  forallb (λ l, negb (aborts_read E l) && negb (not_a_record E l)) lines.

(** Lines none of which stops a read of the action log. *)
Definition readable_for (E : env) (action_type : option string)
    (lines : list string) : bool :=
  match action_type with
  | None => readable E lines
  | Some _ => typed_readable E lines
  end.

(** The records the filter of [get_agent_actions] keeps. *)
Definition selected (action_type : option string) (docs : list json)
    : list json :=
  match action_type with
  | None => docs
  | Some t => of_type t docs
  end.

(** The records a read of the action log returns from lines. *)
Definition read_actions (E : env) (action_type : option string)
    (lines : list string) : list json :=
  if readable_for E action_type lines
  then selected action_type (parsed E lines) else [].

(** The local files are the ones at the start. *)
Definition same_files (w w' : world) : Prop := fs w' = fs w.

(** The objects whose names do not start with [prefix] are as they were
    at the start. *)
Definition outside (prefix : string) (w w' : world) : Prop :=
  ∀ name, Py.startswith prefix name = false →
          bucket w' !! name = bucket w !! name.

(** The prefix of the names under which a session's files are stored. *)
Definition files_prefix (session_key : string) : string :=
  GCSFileStorage._get_session_path session_key +:+ "/files/".

(** ** [src/config.py] *)

Module Config.

(** [os.getenv(name)] when it is taken for true: set and not empty. *)
Definition getenv_set (environ : gmap string string) (name : string)
    : option string :=
  match environ !! name with
  | Some "" => None
  | o => o
  end.

(** [[uid.strip() for uid in s.split(",") if uid.strip()]] *)
Definition allowed_users (s : string) : list string :=
  Py.strip <$> filter (λ uid, Py.strip uid ≠ "") (Py.split "," s).

Definition load_config_from_env (environ : gmap string string) : json :=
  let model :=
    default "anthropic/claude-opus-4-5" (environ !! "NANOBOT_MODEL") in
  let providers : gmap string json :=
    match getenv_set environ "NANOBOT_OPENROUTER_API_KEY" with
    | Some openrouter_api_key =>
        let openrouter : gmap string json :=
          {[ "apiKey" := JStr openrouter_api_key ]} in
        {[ "openrouter" :=
             JObj match getenv_set environ "NANOBOT_OPENROUTER_API_BASE" with
                  | Some api_base => <["apiBase" := JStr api_base]> openrouter
                  | None => openrouter
                  end ]}
    | None => ∅
    end in
  let telegram_allowed_users :=
    default "" (environ !! "TELEGRAM_ALLOWED_USERS") in
  let telegram :=
    match getenv_set environ "TELEGRAM_BOT_TOKEN" with
    | Some telegram_token =>
        dict_of [("enabled", JBool true);
                 ("token", JStr telegram_token);
                 ("allowFrom",
                  JArr (JStr <$> allowed_users telegram_allowed_users))]
    | None => dict_of [("enabled", JBool false)]
    end in
  let whatsapp := dict_of [("enabled", JBool false)] in
  let tools : gmap string json :=
    match getenv_set environ "BRAVE_SEARCH_API_KEY" with
    | Some brave_api_key =>
        {[ "web" := dict_of [("search",
                              dict_of [("apiKey", JStr brave_api_key)])] ]}
    | None => ∅
    end in
  dict_of [("agents", dict_of [("defaults", dict_of [("model", JStr model)])]);
           ("providers", JObj providers);
           ("channels", dict_of [("telegram", telegram);
                                 ("whatsapp", whatsapp)]);
           ("tools", JObj tools)].

Definition get_mongodb_uri (environ : gmap string string) : option string :=
  environ !! "MONGODB_URI".

(** The checks on the channel: the message of the first that fails. *)
Definition telegram_requirements (channels : json) : M (option string) :=
  telegram_config ← py_get channels "telegram" (JObj ∅);
  token ← py_get telegram_config "token" JNull;
  if negb (truthy token) then
    mret (Some "TELEGRAM_BOT_TOKEN is required when Telegram is enabled")
  else
    allow_from ← py_get telegram_config "allowFrom" JNull;
    if negb (truthy allow_from) then
      mret (Some "TELEGRAM_ALLOWED_USERS is required when Telegram is enabled")
    else mret None.

Definition validate_config (config : json) (environ : gmap string string)
    : M (bool * option string) :=
  providers ← py_get config "providers" JNull;
  if negb (truthy providers) then
    mret (false,
          Some "No LLM provider configured. Set NANOBOT_OPENROUTER_API_KEY")
  else
    channels ← py_get config "channels" (JObj ∅);
    telegram ← py_get channels "telegram" (JObj ∅);
    telegram_enabled ← py_get telegram "enabled" (JBool false);
    whatsapp ← py_get channels "whatsapp" (JObj ∅);
    whatsapp_enabled ← py_get whatsapp "enabled" (JBool false);
    if negb (truthy telegram_enabled) && negb (truthy whatsapp_enabled) then
      mret (false,
            Some ("No channels enabled. "
                  +:+ "Configure TELEGRAM_BOT_TOKEN for Telegram support"))
    else
      failed ← (if truthy telegram_enabled then telegram_requirements channels
                else mret None);
      match failed with
      | Some error_message => mret (false, Some error_message)
      | None =>
          match getenv_set environ "GCS_BUCKET_NAME" with
          | None =>
              mret (false,
                    Some "GCS_BUCKET_NAME is required for persistent storage")
          | Some _ => mret (true, None)
          end
      end.

Definition create_nanobot_config_file (E : env) (config : json)
    (config_path : path) : M path :=
  FS.mkdir_parents (FS.parent config_path);;
  FS.open_wb config_path;;
  FS.write_bytes config_path (json_dumps_indent E config);;
  mret config_path.

End Config.

(** ** [src/adapter.py]: the functions around the gateway *)

Module Adapter.
Section functions.
Context (E : env) (environ : gmap string string).

(** What the imports of nanobot's modules raise, [None] when they
    succeed. *)
Context (import_failure : option exn).

(** What [get_gateway_instance] does with the validated configuration and
    the file written from it: nanobot's loader, the storage client, the
    provider and the agent loop, up to the gateway. *)
Context (initialize : json → path → M ServerlessGateway).

(** The components of a gateway are the objects its constructor was given,
    none of them [None]; the workspace is a path. *)
Definition health_check (self : ServerlessGateway) : M json :=
  try_except
    (workspace_exists ← FS.exists_ (workspace self);
     let checks := [("bus", JBool true);
                    ("agent_loop", JBool true);
                    ("session_manager", JBool true);
                    ("config", JBool true);
                    ("workspace", JBool workspace_exists);
                    ("storage_manager", JBool true);
                    ("gcs", JBool true)] in
     let all_healthy := forallb truthy checks.*2 in
     mret (dict_of [("status", JStr (if all_healthy then "healthy"
                                     else "degraded"));
                    ("checks", dict_of checks)]))
    (λ e, logger ERROR "Health check failed";;
          mret (dict_of [("status", JStr "unhealthy");
                         ("error", JStr (exn_str e))])).

(** The six [from nanobot... import ...] statements. *)
Definition import_nanobot : M unit :=
  match import_failure with
  | Some e => raise e
  | None => mret ()
  end.

(** [_gateway_instance] is the module's global. *)
Definition get_gateway_instance (_gateway_instance : option ServerlessGateway)
    : M ServerlessGateway :=
  match _gateway_instance with
  | Some gateway => mret gateway
  | None =>
      try_except
        (import_nanobot;;
         let config_dict := Config.load_config_from_env environ in
         valid ← Config.validate_config config_dict environ;
         let '(is_valid, error_msg) := valid in
         if negb is_valid then
           raise (Exn ValueError
                    ("Invalid configuration: "
                     +:+ from_option id "None" error_msg))
         else
           config_path_str ←
             Config.create_nanobot_config_file E config_dict
               ["tmp"; ".nanobot"; "config.json"];
           gateway ← initialize config_dict config_path_str;
           logger INFO "nanobot gateway initialized successfully";;
           mret gateway)
        (λ e, if decide (exn_cls e = ImportError)
              then logger ERROR "Failed to import nanobot";;
                   raise (Exn RuntimeError
                            ("nanobot-ai package not found or import failed. "
                             +:+ "Error: " +:+ exn_str e
                             +:+ ". Install it with: pip install nanobot-ai"))
              else logger ERROR "Failed to initialize gateway";; raise e)
  end.

Definition handle_telegram_update
    (_gateway_instance : option ServerlessGateway) (update : json) : M json :=
  gateway ← get_gateway_instance _gateway_instance;
  Gateway.handle_telegram_webhook E gateway update.

Definition get_health_status (_gateway_instance : option ServerlessGateway)
    : M json :=
  try_except
    (gateway ← get_gateway_instance _gateway_instance;
     health_check gateway)
    (λ e, logger ERROR "Health check error";;
          mret (dict_of [("status", JStr "unhealthy");
                         ("error", JStr (exn_str e))])).

End functions.
End Adapter.

(** ** [src/handlers.py] *)

Module Handlers.
Section functions.
Context (E : env) (environ : gmap string string).
Context (import_failure : option exn).
Context (initialize : json → path → M ServerlessGateway).
Context (_gateway_instance : option ServerlessGateway).

(** The response dictionary of the two handlers. *)
Definition response (status_code : Z) (body : json) : json :=
  dict_of [("status_code", JNum status_code);
           ("body", JStr (json_dumps E body));
           ("headers", dict_of [("Content-Type", JStr "application/json")])].

Definition handle_telegram_webhook_request
    (request_body : string) (headers : gmap string string) : M json :=
  try_except
    (parsed ←
       try_except
         (update ← GCSFileStorage.loads E request_body; mret (inl update))
         (λ e, if decide (exn_cls e = JSONDecodeError)
               then logger ERROR "Invalid JSON in request body";;
                    mret (inr (response 400
                                 (dict_of [("ok", JBool false);
                                           ("error", JStr "Invalid JSON")])))
               else raise e);
     match parsed with
     | inr invalid => mret invalid
     | inl update =>
         result ← Adapter.handle_telegram_update E environ import_failure
                    initialize _gateway_instance update;
         mret (response 200 result)
     end)
    (λ e, logger ERROR "Error handling Telegram webhook";;
          mret (response 500
                  (dict_of [("ok", JBool false);
                            ("error", JStr "Internal server error")]))).

Definition handle_health_check_request : M json :=
  try_except
    (health_status ← Adapter.get_health_status E environ import_failure
                       initialize _gateway_instance;
     status ← py_get health_status "status" JNull;
     let status_code :=
       if GCSFileStorage.eq_str status "healthy" then 200%Z else 503%Z in
     mret (response status_code health_status))
    (λ e, logger ERROR "Error in health check";;
          mret (response 503
                  (dict_of [("status", JStr "unhealthy");
                            ("error", JStr (exn_str e))]))).

End functions.
End Handlers.

(** The verdict of the validation on the configuration loaded from the
    environment, read off the variables. *)
Definition verdict (environ : gmap string string) : bool * option string :=
  if bool_decide (Config.getenv_set environ "NANOBOT_OPENROUTER_API_KEY" = None)
  then (false,
        Some "No LLM provider configured. Set NANOBOT_OPENROUTER_API_KEY")
  else if bool_decide (Config.getenv_set environ "TELEGRAM_BOT_TOKEN" = None)
  then (false,
        Some ("No channels enabled. "
              +:+ "Configure TELEGRAM_BOT_TOKEN for Telegram support"))
  else if bool_decide
            (Config.allowed_users
               (default "" (environ !! "TELEGRAM_ALLOWED_USERS")) = [])
  then (false,
        Some "TELEGRAM_ALLOWED_USERS is required when Telegram is enabled")
  else if bool_decide (Config.getenv_set environ "GCS_BUCKET_NAME" = None)
  then (false, Some "GCS_BUCKET_NAME is required for persistent storage")
  else (true, None).

(** The status code of a response. *)
Definition status_of (response : json) : option Z :=
  match response with
  | JObj m => match m !! "status_code" with
              | Some (JNum code) => Some code
              | _ => None
              end
  | _ => None
  end.

(** The status code a request was answered with, when it was answered. *)
Definition status_of_result (r : res json * world) : option Z :=
  match result_of r with
  | Ok response => status_of response
  | Raise _ => None
  end.

(** An environment with everything the validation asks for. *)
Definition good_environ : gmap string string :=
  {[ "NANOBOT_OPENROUTER_API_KEY" := "sk-or-1";
     "TELEGRAM_BOT_TOKEN" := "123:abc";
     "TELEGRAM_ALLOWED_USERS" := "7, 8 ,,9";
     "GCS_BUCKET_NAME" := "nanobot-sessions" ]}.

(** The same without the allow-list. *)
Definition open_environ : gmap string string :=
  <["TELEGRAM_ALLOWED_USERS" := " , "]> good_environ.

(** The value a dictionary literal gives to a key: that of the first pair
    with that key. *)
Fixpoint assoc (key : string) (kvs : list (string * json)) : option json :=
  match kvs with
  | [] => None
  | (k, v) :: kvs' => if String.eqb key k then Some v else assoc key kvs'
  end.

(** The store keeps answering and the object [name] is as it was. *)
Definition keeps (name : string) (w w' : world) : Prop :=
  stays_healthy w w' ∧ same_object name w w'.

(** The role and the content of a record. *)
Definition role_and_content (d : json) : option json * option json :=
  match d with
  | JObj m => (m !! "role", m !! "content")
  | _ => (None, None)
  end.

(** ** The vocabulary of the workspace round trip *)

(** A path component as a file system has them: not empty, not ".",
    without a slash. *)
Definition simple_component (c : string) : bool :=
  negb (bool_decide (c = "")) && negb (bool_decide (c = "."))
  && negb (has_char "/" c).

(** The state of a pull that has restored the files [done] of the
    workspace [ws]: they are there with their content, no other file is
    below [ws], no prefix of [ws] is a file, and the directories below
    [ws] lead to restored files. [Rel rel d]: the workspace held the file
    [rel] with the content [d]. *)
Definition restored (ws : path) (Rel : path → string → Prop)
    (done : list path) (f : gmap path node) : Prop :=
  (∀ rel, rel ∈ done → ∃ d, Rel rel d ∧ f !! (ws ++ rel) = Some (File d))
  ∧ (∀ q d, ws `prefix_of` q → f !! q = Some (File d) →
            ∃ rel, rel ∈ done ∧ q = ws ++ rel)
  ∧ (∀ q d, q `prefix_of` ws → f !! q ≠ Some (File d))
  ∧ (∀ q, ws `prefix_of` q → q ≠ ws → f !! q = Some Dir →
          ∃ rel, rel ∈ done ∧ q `prefix_of` ws ++ rel ∧ q ≠ ws ++ rel).

(** The name of the object of the file at the relative path [rel]. *)
Definition remote_name (key : string) (rel : path) : string :=
  files_prefix key +:+ FS.path_str rel.

Global Instance node_eq_dec : EqDecision node.
Proof. solve_decision. Defined.

(** The name under which the push stores the file at [p]. *)
Definition pushed_name (ws : path) (key : string) (p : path) : string :=
  files_prefix key +:+ FS.path_str (drop (length ws) p).

(** What the upload of [p] does to the bucket when the store answers. *)
Definition push_step (ws : path) (key : string) (f : gmap path node)
    (b : gmap string string) (p : path) : gmap string string :=
  match FS.node_at f p with
  | Some (File d) => <[pushed_name ws key p := d]> b
  | _ => b
  end.

(** No object of the bucket is under the session's files prefix. *)
Definition no_files_stored (key : string) (b : gmap string string) : Prop :=
  map_Forall (λ n _, Py.startswith (files_prefix key) n = false) b.

(** The files below [ws] have plain component names. *)
Definition tidy_workspace (ws : path) (f : gmap path node) : Prop :=
  Forall (λ p, FS.is_file_in f p = true →
               Forall (λ c, simple_component c = true) (drop (length ws) p))
         (FS.below f ws).

(** No file lies below another file. *)
Definition tree_like (f : gmap path node) : Prop :=
  map_Forall (λ p n, n ≠ Dir →
    map_Forall (λ q n', n' ≠ Dir → p `prefix_of` q → p = q) f) f.

(** Local files in which the workspace [ws] is missing or empty, and no
    prefix of [ws] is a file. *)
Definition fresh_for (ws : path) (f0 : gmap path node) : Prop :=
  map_Forall (λ q n, ¬ (ws `prefix_of` q ∧ q ≠ ws)
                     ∧ (q `prefix_of` ws → n = Dir)) f0.

(** A workspace with a file and a directory with a file. *)
Definition example_workspace : path := ["tmp"; "ws"].

Definition example_files : gmap path node :=
  {[ ["tmp"] := Dir;
     ["tmp"; "ws"] := Dir;
     ["tmp"; "ws"; "notes.txt"] := File "hello";
     ["tmp"; "ws"; "data"] := Dir;
     ["tmp"; "ws"; "data"; "a.csv"] := File "1,2" ]}.

Definition world_with_files : world := set_fs example_files empty_world.

(** The chat type the handler files a session under. *)
Definition chat_type_of (i : Inbound) : json :=
  match in_chat i with
  | JObj cm => default (JStr "unknown") (cm !! "type")
  | _ => JStr "unknown"
  end.

(** The session of a first contact. *)
Definition first_session (E : env) (i : Inbound) (now : nat) : Session :=
  upsert_spec ("telegram:" +:+ in_chat_id i) (utcnow_isoformat E now)
    {| up_user_id := in_user_id i;
       up_metadata := Some {[ "chat_type" := chat_type_of i ]} |}
    None.

(** Files stay files and directories stay directories. *)
Definition grows (w w' : world) : Prop :=
  ∀ p n, FS.node_at (fs w) p = Some n →
         match n with
         | File _ => FS.is_file_in (fs w') p = true
         | Dir => FS.node_at (fs w') p = Some Dir
         end.

(** Where [shutil.copy2] has put the copy of [src] made for [dst]. *)
Definition copied (f : gmap path node) (src dst : path) : Prop :=
  FS.is_file_in f dst = true
  ∨ (FS.node_at f dst = Some Dir
     ∧ FS.is_file_in f (dst ++ option_list (last src)) = true).

(** The scenario at the start of Synced-Out, with one file in the session
    workspace; and at its end. *)
Definition hello_with_file : world :=
  set_fs (<[ ["tmp"; "nanobot_workspace"; "telegram_42"; "a.txt"] := File "A" ]>
            (fs hello_w3)) hello_w3.

Definition hello_after_file : world :=
  world_of (synced_out ref_env blank_gateway turn_hello (Some "  ")
              hello_with_file).

(** * Properties *)

(** ** Text *)

Section text_facts.

Lemma str_app_nil_l (s : string) : "" +:+ s = s.
Proof. reflexivity. Qed.

Lemma str_app_cons c (s t : string) : String c s +:+ t = String c (s +:+ t).
Proof. reflexivity. Qed.

Lemma str_app_nil_r (s : string) : s +:+ "" = s.
Proof. induction s as [|c s IH]; [done|]. by rewrite str_app_cons, IH. Qed.

Lemma str_app_assoc (s t u : string) : (s +:+ t) +:+ u = s +:+ t +:+ u.
Proof. induction s as [|c s IH]; [done|]. by rewrite !str_app_cons, IH. Qed.

Lemma split_nonempty sep s : Py.split sep s ≠ [].
Proof.
  destruct s as [|c s]; simpl; [done|].
  case_decide; [done|]. by destruct (Py.split sep s).
Qed.

(** Splitting distributes over a separator. *)
Lemma split_app_sep sep a b :
  Py.split sep (a +:+ String sep b) = Py.split sep a ++ Py.split sep b.
Proof.
  induction a as [|c a IH].
  - rewrite str_app_nil_l. simpl. by rewrite decide_True.
  - rewrite str_app_cons. simpl. rewrite IH. case_decide; [done|].
    pose proof (split_nonempty sep a). by destruct (Py.split sep a).
Qed.

Lemma split_no_sep sep s : has_char sep s = false → Py.split sep s = [s].
Proof.
  induction s as [|c s IH]; simpl; [done|].
  intros [Hc Hs]%orb_false_elim. apply bool_decide_eq_false in Hc.
  rewrite decide_False by done. by rewrite IH.
Qed.

Lemma lstrip_app a b :
  Py.lstrip a ≠ "" → Py.lstrip (a +:+ b) = Py.lstrip a +:+ b.
Proof.
  induction a as [|c a IH]; [done|].
  rewrite str_app_cons. simpl. destruct (Py.isspace c); [apply IH|done].
Qed.

Lemma rstrip_app a b :
  Py.rstrip b ≠ "" → Py.rstrip (a +:+ b) = a +:+ Py.rstrip b.
Proof.
  intros Hb. induction a as [|c a IH]; [done|].
  rewrite !str_app_cons. simpl. rewrite IH.
  destruct a as [|c' a]; [rewrite str_app_nil_l; by destruct (Py.rstrip b)|].
  by rewrite str_app_cons.
Qed.

Lemma rstrip_app_blank a b :
  Py.rstrip b = "" → Py.rstrip (a +:+ b) = Py.rstrip a.
Proof.
  intros Hb. induction a as [|c a IH]; [done|].
  rewrite str_app_cons. simpl. by rewrite IH.
Qed.

Lemma rstrip_blank_lstrip s : Py.rstrip s = "" → Py.lstrip s = "".
Proof.
  induction s as [|c s IH]; simpl; [done|].
  destruct (Py.rstrip s) eqn:Hr; [|done].
  destruct (Py.isspace c); [|done]. auto.
Qed.

Lemma rstrip_lstrip_ne s : Py.rstrip s ≠ "" → Py.rstrip (Py.lstrip s) ≠ "".
Proof.
  induction s as [|c s IH]; simpl; [done|].
  destruct (Py.isspace c) eqn:Hc.
  - destruct (Py.rstrip s); [done|]. intros _. by apply IH.
  - simpl. by rewrite Hc.
Qed.

(** A string is blank for [strip] exactly when it is for [rstrip]. *)
Lemma strip_blank_iff s : Py.strip s = "" ↔ Py.rstrip s = "".
Proof.
  unfold Py.strip. split.
  - intros H. destruct (decide (Py.rstrip s = "")) as [|Hne]; [done|].
    by apply rstrip_lstrip_ne in Hne.
  - intros H. apply rstrip_blank_lstrip in H. by rewrite H.
Qed.

Lemma jsonl_snoc ls l : jsonl (ls ++ [l]) = jsonl ls +:+ (l +:+ NL).
Proof.
  induction ls as [|x ls IH]; simpl.
  - by rewrite str_app_nil_r.
  - by rewrite IH, !str_app_assoc.
Qed.

Lemma jsonl_line_spec s :
  jsonl_line s = true ↔
  has_char LF s = false ∧ Py.lstrip s = s ∧ Py.rstrip s = s ∧ s ≠ "".
Proof.
  unfold jsonl_line.
  rewrite !andb_true_iff, !negb_true_iff, !bool_decide_eq_true,
    bool_decide_eq_false. tauto.
Qed.

Lemma rstrip_jsonl ls :
  ls ≠ [] → Forall (λ l, jsonl_line l = true) ls →
  Py.rstrip (jsonl ls) = Py.join NL ls.
Proof.
  induction ls as [|l ls IH]; [done|]. intros _ Hall.
  apply Forall_cons in Hall as [Hl Hall].
  apply jsonl_line_spec in Hl as (_&_&Hr&Hne).
  destruct ls as [|l' ls].
  - simpl. by rewrite rstrip_app_blank.
  - change (jsonl (l :: l' :: ls)) with (l +:+ NL +:+ jsonl (l' :: ls)).
    change (Py.join NL (l :: l' :: ls))
      with (l +:+ NL +:+ Py.join NL (l' :: ls)).
    assert (Hj : Py.rstrip (jsonl (l' :: ls)) = Py.join NL (l' :: ls))
      by (by apply IH).
    assert (Hjne : Py.join NL (l' :: ls) ≠ "").
    { apply Forall_cons in Hall as [Hl' _].
      apply jsonl_line_spec in Hl' as (_&_&_&Hne').
      destruct l'; [done|]. by destruct ls. }
    rewrite <- Hj in Hjne.
    rewrite rstrip_app.
    + rewrite rstrip_app by done. by rewrite Hj.
    + rewrite rstrip_app by done. unfold NL. by rewrite str_app_cons.
Qed.

(** Stripping a log removes the line feed that ends it and nothing else. *)
Lemma strip_jsonl ls :
  ls ≠ [] → Forall (λ l, jsonl_line l = true) ls →
  Py.strip (jsonl ls) = Py.join NL ls.
Proof.
  intros Hne Hall. unfold Py.strip.
  destruct ls as [|l ls]; [done|].
  assert (Hl : Py.lstrip l = l ∧ l ≠ "").
  { apply Forall_cons in Hall as [Hl _]. apply jsonl_line_spec in Hl. tauto. }
  destruct Hl as [Hl Hlne].
  change (jsonl (l :: ls)) with (l +:+ NL +:+ jsonl ls).
  rewrite lstrip_app by (by rewrite Hl). rewrite Hl.
  by apply (rstrip_jsonl (l :: ls)).
Qed.

Lemma split_join ls :
  ls ≠ [] → Forall (λ l, has_char LF l = false) ls →
  Py.split LF (Py.join NL ls) = ls.
Proof.
  induction ls as [|l ls IH]; [done|]. intros _ Hall.
  apply Forall_cons in Hall as [Hl Hall].
  destruct ls as [|l' ls].
  - simpl. by apply split_no_sep.
  - change (Py.join NL (l :: l' :: ls))
      with (l +:+ NL +:+ Py.join NL (l' :: ls)).
    unfold NL at 1. rewrite str_app_cons, str_app_nil_l, split_app_sep.
    rewrite split_no_sep by done. by rewrite IH.
Qed.

Lemma filter_all {A} (P : A → Prop) `{∀ x, Decision (P x)} (l : list A) :
  Forall P l → filter P l = l.
Proof.
  induction 1 as [|x l Hx _ IH]; [done|]. by rewrite filter_cons_True, IH.
Qed.

(** The lines a read sees in a log are the lines that were written. *)
Lemma lines_of_jsonl ls :
  Forall (λ l, jsonl_line l = true) ls → lines_of (jsonl ls) = ls.
Proof.
  intros Hall. destruct (decide (ls = [])) as [->|Hne]; [done|].
  unfold lines_of. rewrite strip_jsonl by done.
  rewrite split_join; [|done|].
  - apply filter_all.
    eapply Forall_impl; [exact Hall|]. intros l Hl.
    apply jsonl_line_spec in Hl as (_&Hls&Hrs&Hne').
    unfold Py.strip. by rewrite Hls, Hrs.
  - eapply Forall_impl; [exact Hall|]. intros l Hl.
    by apply jsonl_line_spec in Hl as (?&_).
Qed.

Lemma slice_last {A} (k : Z) (l : list A) :
  (0 < k)%Z → Py.slice_from (- k) l = drop (length l - Z.to_nat k) l.
Proof.
  intros Hk. unfold Py.slice_from. rewrite decide_True by lia. f_equal. lia.
Qed.

End text_facts.

(** ** Running the monad *)

Lemma bind_run {A B} (m : M A) (f : A → M B) w :
  (m ≫= f) w = match m w with
               | (Ok a, w') => f a w'
               | (Raise e, w') => (Raise e, w')
               end.
Proof. reflexivity. Qed.

Lemma call_ok w : faults w = [] → GCS.call w = (Ok (), w).
Proof. unfold GCS.call. by intros ->. Qed.

Lemma blob_exists_ok name w :
  faults w = [] →
  GCS.blob_exists name w = (Ok (bool_decide (is_Some (bucket w !! name))), w).
Proof. intros H. unfold GCS.blob_exists. by rewrite bind_run, call_ok. Qed.

Lemma download_as_text_ok name data w :
  faults w = [] → bucket w !! name = Some data →
  GCS.download_as_text name w = (Ok data, w).
Proof.
  intros H Hb. unfold GCS.download_as_text. rewrite bind_run, call_ok by done.
  rewrite bind_run. unfold gets. by rewrite Hb.
Qed.

Lemma upload_from_string_ok name data w :
  faults w = [] →
  GCS.upload_from_string name data w
  = (Ok (), set_bucket (<[name := data]> (bucket w)) w).
Proof.
  intros H. unfold GCS.upload_from_string. by rewrite bind_run, call_ok.
Qed.

(** Unfolds the monad and the world updates, leaving the data. *)
Ltac run_monad :=
  unfold GCS.blob_exists, GCS.download_as_text, GCS.upload_from_string,
    GCS.list_blobs, GCS.call, GCSFileStorage.utcnow, GCSFileStorage.new_uuid,
    gets, modify, logger, raise, try_except, mbind, M_bind, mret, M_ret;
  cbn [faults bucket ticks log fs uuids outbox
       set_ticks set_bucket set_log set_faults set_fs set_uuids set_outbox
       fst snd result_of world_of negb].

(** ** The append-only logs *)

Section log_facts.
Context (E : env).

Lemma readable_cons l lines :
  readable E (l :: lines) = true →
  aborts_read E l = false ∧ readable E lines = true.
Proof.
  unfold readable. simpl. intros [Hl Hr]%andb_prop.
  split; [by destruct (aborts_read E l)|done].
Qed.

Lemma not_aborting l :
  json_loads E l = None → aborts_read E l = false →
  exn_cls (json_loads_error E l) = JSONDecodeError.
Proof.
  unfold aborts_read. intros ->.
  destruct (decide (exn_cls (json_loads_error E l) = JSONDecodeError)); [done|].
  by rewrite bool_decide_eq_false_2.
Qed.

Lemma aborting l :
  aborts_read E l = true →
  json_loads E l = None ∧ exn_cls (json_loads_error E l) ≠ JSONDecodeError.
Proof.
  unfold aborts_read. destruct (json_loads E l); [done|].
  intros H. split; [done|]. intros Hc.
  by rewrite bool_decide_eq_true_2 in H.
Qed.

Lemma chat_loop lines : ∀ acc w,
  readable E (filter (λ l, Py.strip l ≠ "") lines) = true →
  for_fold lines acc (chat_line_step E) w
  = (Ok (acc ++ parsed E (filter (λ l, Py.strip l ≠ "") lines)),
     set_log (log w ++ warnings E "Failed to parse chat history line"
                          (filter (λ l, Py.strip l ≠ "") lines)) w).
Proof.
  induction lines as [|l lines IH]; intros acc w Hr.
  - simpl. unfold mret, M_ret. rewrite !app_nil_r. by destruct w.
  - simpl. rewrite bind_run. unfold chat_line_step at 1.
    destruct (decide (Py.strip l = "")) as [Hb|Hb].
    + rewrite bool_decide_eq_true_2 by done.
      rewrite filter_cons_False in Hr by (by intros ?).
      rewrite filter_cons_False by (by intros ?). by apply IH.
    + rewrite bool_decide_eq_false_2 by done.
      rewrite filter_cons_True in Hr by done.
      rewrite filter_cons_True by done.
      apply readable_cons in Hr as [Hl Hr].
      unfold try_except, GCSFileStorage.loads. rewrite bind_run.
      unfold parsed, warnings. simpl.
      destruct (json_loads E l) as [v|] eqn:Hv; simpl.
      * rewrite IH by done. by rewrite <- app_assoc.
      * unfold raise. rewrite decide_True by (by apply not_aborting).
        simpl. rewrite IH by done. f_equal. destruct w; unfold set_log; simpl.
        by rewrite <- app_assoc.
Qed.

(** A line that aborts the read ends the loop with what [json.loads]
    raised. *)
Lemma chat_loop_abort lines : ∀ acc w,
  readable E (filter (λ l, Py.strip l ≠ "") lines) = false →
  ∃ e w', for_fold lines acc (chat_line_step E) w = (Raise e, w').
Proof.
  induction lines as [|l lines IH]; intros acc w Hr; [done|].
  simpl. rewrite bind_run. unfold chat_line_step at 1.
  destruct (decide (Py.strip l = "")) as [Hb|Hb].
  - rewrite bool_decide_eq_true_2 by done.
    rewrite filter_cons_False in Hr by (by intros ?). by apply IH.
  - rewrite bool_decide_eq_false_2 by done.
    rewrite filter_cons_True in Hr by done.
    unfold try_except, GCSFileStorage.loads. rewrite bind_run.
    destruct (aborts_read E l) eqn:Hl.
    + apply aborting in Hl as [Hv Hc]. rewrite Hv. unfold raise.
      rewrite decide_False by done. by eexists _, _.
    + assert (Hr' : readable E (filter (λ l, Py.strip l ≠ "") lines) = false).
      { unfold readable in Hr. simpl in Hr. by rewrite Hl in Hr. }
      destruct (json_loads E l) as [v|] eqn:Hv; simpl.
      * by apply IH.
      * unfold raise. rewrite decide_True by (by apply not_aborting).
        simpl. by apply IH.
Qed.

Lemma action_loop lines : ∀ acc w,
  readable E (filter (λ l, Py.strip l ≠ "") lines) = true →
  for_fold lines acc (action_line_step E) w
  = (Ok (acc ++ parsed E (filter (λ l, Py.strip l ≠ "") lines)),
     set_log (log w ++ warnings E "Failed to parse agent action line"
                          (filter (λ l, Py.strip l ≠ "") lines)) w).
Proof.
  induction lines as [|l lines IH]; intros acc w Hr.
  - simpl. unfold mret, M_ret. rewrite !app_nil_r. by destruct w.
  - simpl. rewrite bind_run. unfold action_line_step at 1.
    destruct (decide (Py.strip l = "")) as [Hb|Hb].
    + rewrite bool_decide_eq_true_2 by done.
      rewrite filter_cons_False in Hr by (by intros ?).
      rewrite filter_cons_False by (by intros ?). by apply IH.
    + rewrite bool_decide_eq_false_2 by done.
      rewrite filter_cons_True in Hr by done.
      rewrite filter_cons_True by done.
      apply readable_cons in Hr as [Hl Hr].
      unfold try_except, GCSFileStorage.loads. rewrite bind_run.
      unfold parsed, warnings. simpl.
      destruct (json_loads E l) as [v|] eqn:Hv; simpl.
      * rewrite IH by done. by rewrite <- app_assoc.
      * unfold raise. rewrite decide_True by (by apply not_aborting).
        simpl. rewrite IH by done. f_equal. destruct w; unfold set_log; simpl.
        by rewrite <- app_assoc.
Qed.

Lemma action_loop_abort lines : ∀ acc w,
  readable E (filter (λ l, Py.strip l ≠ "") lines) = false →
  ∃ e w', for_fold lines acc (action_line_step E) w = (Raise e, w').
Proof.
  induction lines as [|l lines IH]; intros acc w Hr; [done|].
  simpl. rewrite bind_run. unfold action_line_step at 1.
  destruct (decide (Py.strip l = "")) as [Hb|Hb].
  - rewrite bool_decide_eq_true_2 by done.
    rewrite filter_cons_False in Hr by (by intros ?). by apply IH.
  - rewrite bool_decide_eq_false_2 by done.
    rewrite filter_cons_True in Hr by done.
    unfold try_except, GCSFileStorage.loads. rewrite bind_run.
    destruct (aborts_read E l) eqn:Hl.
    + apply aborting in Hl as [Hv Hc]. rewrite Hv. unfold raise.
      rewrite decide_False by done. by eexists _, _.
    + assert (Hr' : readable E (filter (λ l, Py.strip l ≠ "") lines) = false).
      { unfold readable in Hr. simpl in Hr. by rewrite Hl in Hr. }
      destruct (json_loads E l) as [v|] eqn:Hv; simpl.
      * by apply IH.
      * unfold raise. rewrite decide_True by (by apply not_aborting).
        simpl. by apply IH.
Qed.

Lemma get_chat_history_run key limit content w :
  faults w = [] → bucket w !! chat_history_path key = Some content →
  readable E (lines_of content) = true →
  GCSFileStorage.get_chat_history E key limit w
  = (Ok (GCSFileStorage.limited limit (parsed E (lines_of content))),
     set_log (log w ++ warnings E "Failed to parse chat history line"
                          (lines_of content)) w).
Proof.
  intros Hf Hb Hr. unfold GCSFileStorage.get_chat_history, try_except. cbv zeta.
  fold (chat_history_path key).
  rewrite bind_run, blob_exists_ok by done.
  rewrite Hb, bool_decide_eq_true_2 by eauto. cbn [negb].
  rewrite bind_run, (download_as_text_ok _ content) by done.
  rewrite bind_run.
  change (for_fold ?l [] _) with (for_fold l [] (chat_line_step E)).
  rewrite chat_loop by done. reflexivity.
Qed.

(** A line that aborts the read makes it log an error and return nothing. *)
Lemma get_chat_history_abort key limit content w :
  faults w = [] → bucket w !! chat_history_path key = Some content →
  readable E (lines_of content) = false →
  ∃ w', GCSFileStorage.get_chat_history E key limit w = (Ok [], w')
        ∧ last (log w') = Some (ERROR, "Error getting chat history").
Proof.
  intros Hf Hb Hr. unfold GCSFileStorage.get_chat_history, try_except. cbv zeta.
  fold (chat_history_path key).
  rewrite bind_run, blob_exists_ok by done.
  rewrite Hb, bool_decide_eq_true_2 by eauto. cbn [negb].
  rewrite bind_run, (download_as_text_ok _ content) by done.
  rewrite bind_run.
  change (for_fold ?l [] _) with (for_fold l [] (chat_line_step E)).
  destruct (chat_loop_abort (Py.split LF (Py.strip content)) [] w Hr)
    as (e & w' & ->).
  eexists. split; [reflexivity|]. simpl. apply last_snoc.
Qed.

Lemma limited_nil {A} limit : GCSFileStorage.limited limit (@nil A) = [].
Proof.
  destruct limit as [n|]; [|done]. unfold GCSFileStorage.limited.
  destruct (n =? 0)%Z; [done|]. unfold Py.slice_from.
  by destruct (decide (- n < 0)%Z); rewrite drop_nil.
Qed.

(** What a read of the chat history returns, whatever the lines are. *)
Lemma get_chat_history_result key limit content w :
  faults w = [] → bucket w !! chat_history_path key = Some content →
  result_of (GCSFileStorage.get_chat_history E key limit w)
  = Ok (GCSFileStorage.limited limit (read_records E (lines_of content))).
Proof.
  intros Hf Hb. unfold read_records.
  destruct (readable E (lines_of content)) eqn:Hr.
  - by rewrite (get_chat_history_run key limit content).
  - destruct (get_chat_history_abort key limit content w) as (w' & -> & _);
      [done..|]. by rewrite limited_nil.
Qed.

Lemma get_agent_actions_run key limit content w :
  faults w = [] → bucket w !! agent_actions_path key = Some content →
  readable E (lines_of content) = true →
  GCSFileStorage.get_agent_actions E key None limit w
  = (Ok (GCSFileStorage.limited limit (parsed E (lines_of content))),
     set_log (log w ++ warnings E "Failed to parse agent action line"
                          (lines_of content)) w).
Proof.
  intros Hf Hb Hr. unfold GCSFileStorage.get_agent_actions, try_except. cbv zeta.
  fold (agent_actions_path key).
  rewrite bind_run, blob_exists_ok by done.
  rewrite Hb, bool_decide_eq_true_2 by eauto. cbn [negb].
  rewrite bind_run, (download_as_text_ok _ content) by done.
  rewrite bind_run.
  change (for_fold ?l [] _) with (for_fold l [] (action_line_step E)).
  rewrite action_loop by done. reflexivity.
Qed.

Lemma get_agent_actions_abort key limit content w :
  faults w = [] → bucket w !! agent_actions_path key = Some content →
  readable E (lines_of content) = false →
  ∃ w', GCSFileStorage.get_agent_actions E key None limit w = (Ok [], w')
        ∧ last (log w') = Some (ERROR, "Error getting agent actions").
Proof.
  intros Hf Hb Hr. unfold GCSFileStorage.get_agent_actions, try_except. cbv zeta.
  fold (agent_actions_path key).
  rewrite bind_run, blob_exists_ok by done.
  rewrite Hb, bool_decide_eq_true_2 by eauto. cbn [negb].
  rewrite bind_run, (download_as_text_ok _ content) by done.
  rewrite bind_run.
  change (for_fold ?l [] _) with (for_fold l [] (action_line_step E)).
  destruct (action_loop_abort (Py.split LF (Py.strip content)) [] w Hr)
    as (e & w' & ->).
  eexists. split; [reflexivity|]. simpl. apply last_snoc.
Qed.

Lemma get_agent_actions_result key limit content w :
  faults w = [] → bucket w !! agent_actions_path key = Some content →
  result_of (GCSFileStorage.get_agent_actions E key None limit w)
  = Ok (GCSFileStorage.limited limit (read_records E (lines_of content))).
Proof.
  intros Hf Hb. unfold read_records.
  destruct (readable E (lines_of content)) eqn:Hr.
  - by rewrite (get_agent_actions_run key limit content).
  - destruct (get_agent_actions_abort key limit content w) as (w' & -> & _);
      [done..|]. by rewrite limited_nil.
Qed.

Lemma get_chat_history_absent key limit w :
  faults w = [] → bucket w !! chat_history_path key = None →
  GCSFileStorage.get_chat_history E key limit w = (Ok [], w).
Proof.
  intros Hf Hb. unfold GCSFileStorage.get_chat_history, try_except. cbv zeta.
  fold (chat_history_path key).
  rewrite bind_run, blob_exists_ok by done.
  rewrite Hb, bool_decide_eq_false_2 by (by intros [??]). reflexivity.
Qed.

(** One append on a store that answers. *)
Lemma save_chat_message_run key m w :
  faults w = [] →
  GCSFileStorage.save_chat_message E key
    (cm_id m) (cm_role m) (cm_content m) (cm_metadata m) w
  = (Ok (),
     set_log (log w ++ [(DEBUG, "Saved chat message")])
       (set_bucket
          (<[chat_history_path key :=
               from_option id "" (bucket w !! chat_history_path key)
               +:+ (json_dumps E (message_doc m (utcnow_isoformat E (ticks w)))
                    +:+ NL)]>
             (bucket w))
          (set_ticks (S (ticks w)) w))).
Proof.
  intros Hf. destruct w as [b f fsys t u o l]. simpl in Hf. subst f.
  unfold GCSFileStorage.save_chat_message. cbv zeta.
  fold (chat_history_path key). run_monad.
  destruct (b !! chat_history_path key) as [old|] eqn:Hb.
  - rewrite bool_decide_eq_true_2 by eauto. run_monad.
    rewrite Hb. reflexivity.
  - rewrite bool_decide_eq_false_2 by (by intros [??]). reflexivity.
Qed.

Lemma docs_from_cons t m msgs :
  docs_from E t (m :: msgs)
  = message_doc m (utcnow_isoformat E t) :: docs_from E (S t) msgs.
Proof.
  unfold docs_from. rewrite imap_cons. f_equal; [by rewrite Nat.add_0_r|].
  apply imap_ext. intros i x _. simpl. f_equal. f_equal. lia.
Qed.

(** A run of appends on a store that answers: the log grows by the lines
    of the records, in order, and nothing else in the bucket changes. *)
Lemma append_all_run key msgs : ∀ w pre,
  faults w = [] →
  from_option id "" (bucket w !! chat_history_path key) = jsonl pre →
  ∃ w',
    append_all E key msgs w = (Ok (), w') ∧
    faults w' = [] ∧
    (msgs ≠ [] → bucket w' !! chat_history_path key
     = Some (jsonl (pre ++ (json_dumps E <$> docs_from E (ticks w) msgs)))) ∧
    (msgs = [] → w' = w) ∧
    (∀ name, name ≠ chat_history_path key →
             bucket w' !! name = bucket w !! name).
Proof.
  induction msgs as [|m msgs IH]; intros w pre Hf Hb.
  - exists w. by repeat split.
  - unfold append_all. simpl for_each.
    rewrite bind_run, save_chat_message_run by done.
    set (w1 := set_log _ _).
    destruct (IH w1 (pre ++ [json_dumps E
                               (message_doc m (utcnow_isoformat E (ticks w)))]))
      as (w' & Hrun & Hf' & Hb' & Hnil & Hoth).
    { done. }
    { subst w1. simpl. rewrite lookup_insert_eq. simpl.
      by rewrite Hb, jsonl_snoc. }
    exists w'. split; [exact Hrun|]. split; [done|]. split; [|split; [done|]].
    + intros _. rewrite docs_from_cons, fmap_cons.
      destruct (decide (msgs = [])) as [->|Hne].
      * rewrite (Hnil eq_refl). subst w1. simpl. rewrite lookup_insert_eq.
        by rewrite Hb, jsonl_snoc.
      * rewrite Hb' by done. subst w1; simpl. by rewrite <- app_assoc.
    + intros name Hname. rewrite Hoth by done. subst w1; simpl.
      by rewrite lookup_insert_ne.
Qed.

Lemma parsed_dumps docs :
  Forall (valid_record E) docs → parsed E (json_dumps E <$> docs) = docs.
Proof.
  induction 1 as [|d docs [_ Hd] _ IH]; [done|].
  unfold parsed in *. rewrite fmap_cons. cbn [omap list_omap]. rewrite Hd.
  f_equal. exact IH.
Qed.

Lemma readable_app l1 l2 :
  readable E (l1 ++ l2) = readable E l1 && readable E l2.
Proof. apply forallb_app. Qed.

Lemma parses_readable l v : json_loads E l = Some v → aborts_read E l = false.
Proof. unfold aborts_read. by intros ->. Qed.

(** Without a line that aborts the read, the records read are the lines
    that parse. *)
Lemma read_records_readable lines :
  readable E lines = true → read_records E lines = parsed E lines.
Proof. unfold read_records. by intros ->. Qed.

(** The lines of valid records do not abort a read. *)
Lemma readable_dumps docs :
  Forall (valid_record E) docs → readable E (json_dumps E <$> docs) = true.
Proof.
  induction 1 as [|d docs [_ Hd] _ IH]; [done|].
  rewrite fmap_cons. unfold readable in *. cbn [forallb].
  by rewrite (parses_readable _ _ Hd), IH.
Qed.

End log_facts.

Section log_claims.
Context (E : env).

(** C1. Append-then-read round trip of the chat history.  On a store that
    answers, starting from a session without a history, appending N valid
    records succeeds; reading with no limit then returns exactly those N
    records in append order, and reading with a limit k > 0 returns the
    last k of them, in append order (all of them when k >= N).  Reading
    with the limit 0 does not return the last 0 of them: [if limit:] is
    false at 0 and the read returns all N records. *)
Theorem append_then_read_roundtrip key msgs w :
  faults w = [] →
  bucket w !! chat_history_path key = None →
  Forall (valid_record E) (docs_from E (ticks w) msgs) →
  ∃ w',
    append_all E key msgs w = (Ok (), w') ∧
    result_of (GCSFileStorage.get_chat_history E key None w')
      = Ok (docs_from E (ticks w) msgs) ∧
    (∀ k : Z, (0 < k)%Z →
      result_of (GCSFileStorage.get_chat_history E key (Some k) w')
      = Ok (drop (length msgs - Z.to_nat k) (docs_from E (ticks w) msgs))) ∧
    result_of (GCSFileStorage.get_chat_history E key (Some 0%Z) w')
      = Ok (docs_from E (ticks w) msgs).
Proof.
  intros Hf Hb Hvalid.
  destruct (append_all_run E key msgs w [])
    as (w' & Hrun & Hf' & Hb' & Hnil & _); [done|by rewrite Hb|].
  exists w'. split; [done|].
  destruct (decide (msgs = [])) as [->|Hne].
  - rewrite (Hnil eq_refl). split; [|split; [intros k Hk|]];
      by rewrite get_chat_history_absent.
  - specialize (Hb' Hne). simpl in Hb'.
    assert (Hlines :
      lines_of (jsonl (json_dumps E <$> docs_from E (ticks w) msgs))
      = json_dumps E <$> docs_from E (ticks w) msgs).
    { apply lines_of_jsonl. apply Forall_fmap.
      eapply Forall_impl; [exact Hvalid|]. by intros d [? _]. }
    assert (Hread : ∀ limit,
      result_of (GCSFileStorage.get_chat_history E key limit w')
      = Ok (GCSFileStorage.limited limit (docs_from E (ticks w) msgs))).
    { intros limit. rewrite (get_chat_history_run _ _ limit _ _ Hf' Hb').
      - unfold result_of. simpl. by rewrite Hlines, parsed_dumps.
      - rewrite Hlines. by apply readable_dumps. }
    split; [apply (Hread None)|]. split; [|apply (Hread (Some 0%Z))].
    intros k Hk. rewrite Hread. f_equal. unfold GCSFileStorage.limited.
    destruct (Z.eqb_spec k 0) as [->|_]; [lia|].
    rewrite slice_last by done. unfold docs_from. by rewrite length_imap.
Qed.

(** C5. The two best-effort writers never raise, whatever the store does:
    [save_chat_message] returns normally, having either appended or logged
    an error and left the bucket as it was; [save_agent_action] returns
    normally, with the new action id after an append, and with the empty
    string, an error logged and the bucket as it was otherwise. *)
Theorem side_channels_never_raise
    key message_id role content metadata action_type action_data w :
  (∃ w',
     GCSFileStorage.save_chat_message E key message_id role content metadata w
     = (Ok (), w') ∧
     (last (log w') = Some (DEBUG, "Saved chat message")
      ∨ last (log w') = Some (ERROR, "Error saving chat message")
        ∧ bucket w' = bucket w))
  ∧
  (∃ action_id w',
     GCSFileStorage.save_agent_action E key action_type action_data metadata w
     = (Ok action_id, w') ∧
     (action_id = uuid4 E (uuids w)
      ∧ last (log w') = Some (DEBUG, "Saved agent action")
      ∨ action_id = ""
        ∧ last (log w') = Some (ERROR, "Error saving agent action")
        ∧ bucket w' = bucket w)).
Proof.
  destruct w as [b f fsys t u o l]. split.
  - unfold GCSFileStorage.save_chat_message. cbv zeta.
    fold (chat_history_path key).
    destruct f as [|[e1|] [|[e2|] [|[e3|] f]]];
      run_monad;
      destruct (b !! chat_history_path key) as [old|] eqn:Hb;
      rewrite ?bool_decide_eq_true_2 by eauto;
      rewrite ?bool_decide_eq_false_2 by (by intros [??]);
      run_monad; rewrite ?Hb; run_monad;
      eexists; (split; [reflexivity|]); run_monad;
      rewrite last_snoc; auto.
  - unfold GCSFileStorage.save_agent_action. cbv zeta.
    fold (agent_actions_path key).
    destruct f as [|[e1|] [|[e2|] [|[e3|] f]]];
      run_monad;
      destruct (b !! agent_actions_path key) as [old|] eqn:Hb;
      rewrite ?bool_decide_eq_true_2 by eauto;
      rewrite ?bool_decide_eq_false_2 by (by intros [??]);
      run_monad; rewrite ?Hb; run_monad;
      eexists _, _; (split; [reflexivity|]); run_monad;
      rewrite last_snoc; auto.
Qed.

Lemma strip_ne_lstrip s : Py.strip s ≠ "" → Py.lstrip s ≠ "".
Proof. unfold Py.strip. intros H Hl. by rewrite Hl in H. Qed.

Lemma strip_ne_rstrip s : Py.strip s ≠ "" → Py.rstrip s ≠ "".
Proof. intros H Hr. by apply strip_blank_iff in Hr. Qed.

(** Stripping a text whose two ends are not blank touches the ends only. *)
Lemma strip_between pre mid post :
  Py.strip pre ≠ "" → Py.strip post ≠ "" →
  Py.strip (pre +:+ mid +:+ post) = Py.lstrip pre +:+ mid +:+ Py.rstrip post.
Proof.
  intros Hpre Hpost. unfold Py.strip.
  rewrite lstrip_app by (by apply strip_ne_lstrip).
  rewrite <- str_app_assoc, rstrip_app by (by apply strip_ne_rstrip).
  by rewrite str_app_assoc.
Qed.

Lemma lines_of_between pre mid post :
  Py.strip pre ≠ "" → Py.strip post ≠ "" →
  Py.split LF (Py.strip (pre +:+ NL +:+ mid +:+ post))
  = Py.split LF (Py.lstrip pre) ++ Py.split LF (mid +:+ Py.rstrip post).
Proof.
  intros Hpre Hpost.
  rewrite <- (str_app_assoc NL mid post).
  rewrite strip_between by done.
  rewrite (str_app_assoc NL mid). unfold NL at 1.
  by rewrite str_app_cons, str_app_nil_l, split_app_sep.
Qed.

Lemma parsed_lines_app l1 l2 :
  parsed E (filter (λ l, Py.strip l ≠ "") (l1 ++ l2))
  = parsed E (filter (λ l, Py.strip l ≠ "") l1)
    ++ parsed E (filter (λ l, Py.strip l ≠ "") l2).
Proof. unfold parsed. by rewrite filter_app, omap_app. Qed.

(** The lines a read looks at when a line is put between two parts of a
    log. *)
Lemma lines_of_injected pre bad post :
  Py.strip pre ≠ "" → Py.strip post ≠ "" → has_char LF bad = false →
  lines_of (pre +:+ NL +:+ bad +:+ NL +:+ post)
  = filter (λ l, Py.strip l ≠ "") (Py.split LF (Py.lstrip pre))
    ++ filter (λ l, Py.strip l ≠ "") [bad]
    ++ filter (λ l, Py.strip l ≠ "") (Py.split LF (Py.rstrip post))
  ∧ lines_of (pre +:+ NL +:+ post)
    = filter (λ l, Py.strip l ≠ "") (Py.split LF (Py.lstrip pre))
      ++ filter (λ l, Py.strip l ≠ "") (Py.split LF (Py.rstrip post)).
Proof.
  intros Hpre Hpost Hlf. unfold lines_of. split.
  - replace (pre +:+ NL +:+ bad +:+ NL +:+ post)
      with (pre +:+ NL +:+ (bad +:+ NL) +:+ post) by (by rewrite str_app_assoc).
    rewrite lines_of_between by done.
    rewrite str_app_assoc. unfold NL at 1.
    rewrite str_app_cons, str_app_nil_l, split_app_sep.
    rewrite (split_no_sep LF bad) by done.
    by rewrite !filter_app.
  - change (pre +:+ NL +:+ post) with (pre +:+ NL +:+ "" +:+ post).
    rewrite (lines_of_between pre "" post) by done.
    by rewrite str_app_nil_l, filter_app.
Qed.

End log_claims.

(** Three records appended to a fresh session and read back. *)
Lemma append_then_read_roundtrip_witness :
  ∃ w',
    append_all ref_env "telegram:42" [hello; hi_there; bye] empty_world
    = (Ok (), w') ∧
    result_of (GCSFileStorage.get_chat_history ref_env "telegram:42" None w')
      = Ok (docs_from ref_env 0 [hello; hi_there; bye]) ∧
    (∀ k : Z, (0 < k)%Z →
      result_of
        (GCSFileStorage.get_chat_history ref_env "telegram:42" (Some k) w')
      = Ok (drop (3 - Z.to_nat k) (docs_from ref_env 0 [hello; hi_there; bye]))) ∧
    result_of
      (GCSFileStorage.get_chat_history ref_env "telegram:42" (Some 0%Z) w')
    = Ok (docs_from ref_env 0 [hello; hi_there; bye]).
Proof.
  apply (append_then_read_roundtrip ref_env "telegram:42"
           [hello; hi_there; bye] empty_world).
  - reflexivity.
  - reflexivity.
  - repeat constructor; vm_compute; reflexivity.
Defined.

(** The read at limit = 0 < N = 2, run: it returns both records, not the
    last 0 of them. *)
Example read_limit_zero_returns_all :
  (0 ≤ 0 < 2)%Z
  ∧ result_of
      (GCSFileStorage.get_chat_history ref_env "telegram:42" (Some 0%Z)
         (world_of (append_all ref_env "telegram:42" [hello; hi_there]
                      empty_world)))
    = Ok (docs_from ref_env 0 [hello; hi_there])
  ∧ docs_from ref_env 0 [hello; hi_there]
    ≠ drop (2 - Z.to_nat 0) (docs_from ref_env 0 [hello; hi_there]).
Proof.
  split; [lia|]. split; [vm_compute; reflexivity|].
  vm_compute. discriminate.
Qed.

(** ** The session record *)

Section session_facts.
Context (E : env).

Lemma session_json_truthy s : truthy (session_json s) = true.
Proof.
  unfold session_json, dict_of, truthy. apply negb_true_iff, bool_decide_eq_false.
  intros Hm. apply (f_equal (λ m : gmap string json, m !! "session_key")) in Hm.
  by vm_compute in Hm.
Qed.

Lemma dict_truthy_false md :
  GCSFileStorage.dict_truthy md = false → from_option id ∅ md = ∅.
Proof.
  destruct md as [m|]; simpl; [|done].
  intros H%negb_false_iff. by apply bool_decide_eq_true in H.
Qed.

Lemma create_run key u w :
  faults w = [] → bucket w !! session_path key = None →
  let s := upsert_spec key (utcnow_isoformat E (ticks w)) u None in
  GCSFileStorage.create_or_update_session E key (up_user_id u) (up_metadata u) w
  = (Ok (session_json s),
     set_log (log w ++ [(DEBUG, "Saved session to GCS")])
       (set_bucket (<[session_path key := json_dumps_indent E (session_json s)]>
                      (bucket w))
          (set_ticks (S (ticks w)) w))).
Proof.
  intros Hf Hb s. destruct w as [b f fsys t n o l]. simpl in *. subst f.
  unfold GCSFileStorage.create_or_update_session, GCSFileStorage.get_session.
  cbv zeta. fold (session_path key). run_monad.
  rewrite Hb, bool_decide_eq_false_2 by (by intros [??]).
  reflexivity.
Qed.

Lemma update_run key u old w :
  faults w = [] →
  bucket w !! session_path key = Some (json_dumps_indent E (session_json old)) →
  valid_session E old →
  let s := upsert_spec key (utcnow_isoformat E (ticks w)) u (Some old) in
  GCSFileStorage.create_or_update_session E key (up_user_id u) (up_metadata u) w
  = (Ok (session_json s),
     set_log (log w ++ [(DEBUG, "Saved session to GCS")])
       (set_bucket (<[session_path key := json_dumps_indent E (session_json s)]>
                      (bucket w))
          (set_ticks (S (ticks w)) w))).
Proof.
  intros Hf Hb Hv s. destruct w as [b f fsys t n o l]. simpl in *. subst f.
  unfold GCSFileStorage.create_or_update_session, GCSFileStorage.get_session.
  cbv zeta. fold (session_path key). run_monad.
  rewrite Hb, bool_decide_eq_true_2 by eauto. run_monad. rewrite Hb.
  unfold GCSFileStorage.loads. rewrite Hv. run_monad.
  rewrite session_json_truthy.
  assert (Hs : session_json s
     = JObj (<["metadata" := JObj (metadata_of u ∪ s_metadata old)]>
             (<["user_id" := JStr (up_user_id u)]>
              (<["updated_at" := JStr (utcnow_isoformat E t)]>
               (list_to_map [("session_key", JStr (s_key old));
           ("user_id", JStr (s_user_id old));
           ("created_at", JStr (s_created_at old));
           ("updated_at", JStr (s_updated_at old));
           ("metadata", JObj (s_metadata old))]))))).
  { reflexivity. }
  destruct (GCSFileStorage.dict_truthy (up_metadata u)) eqn:Hmd.
  - unfold session_json at 1, dict_of. unfold GCSFileStorage.setitem, py_get, GCSFileStorage.unpack_merge. run_monad.
    rewrite Hs. reflexivity.
  - unfold session_json at 1, dict_of. unfold GCSFileStorage.setitem. run_monad.
    rewrite Hs. unfold metadata_of. rewrite (dict_truthy_false _ Hmd), (left_id_L ∅ (∪)).
    reflexivity.
Qed.

Lemma get_session_run key s w :
  faults w = [] →
  bucket w !! session_path key = Some (json_dumps_indent E (session_json s)) →
  valid_session E s →
  GCSFileStorage.get_session E key w = (Ok (session_json s), w).
Proof.
  intros Hf Hb Hv. destruct w as [b f fsys t n o l]. simpl in *. subst f.
  unfold GCSFileStorage.get_session. cbv zeta. fold (session_path key).
  run_monad. rewrite Hb, bool_decide_eq_true_2 by eauto. run_monad. rewrite Hb.
  unfold GCSFileStorage.loads. by rewrite Hv.
Qed.


Lemma upsert_all_run key calls : ∀ w old,
  faults w = [] →
  bucket w !! session_path key = stored E old →
  from_option (valid_session E) True old →
  Forall (valid_session E) (session_states E key (ticks w) old calls) →
  ∃ w',
    upsert_all E key calls w = (Ok (), w') ∧
    faults w' = [] ∧
    bucket w' !! session_path key
    = stored E (from_option Some old
                (last (session_states E key (ticks w) old calls))).
Proof.
  induction calls as [|u calls IH]; intros w old Hf Hb Hold Hall.
  - exists w. by repeat split.
  - simpl in Hall. apply Forall_cons in Hall as [Hs Hall].
    set (s := upsert_spec key (utcnow_isoformat E (ticks w)) u old) in *.
    unfold upsert_all. simpl for_each. rewrite !bind_run.
    assert (Hrun : GCSFileStorage.create_or_update_session E key
                     (up_user_id u) (up_metadata u) w
       = (Ok (session_json s),
          set_log (log w ++ [(DEBUG, "Saved session to GCS")])
            (set_bucket (<[session_path key :=
                             json_dumps_indent E (session_json s)]> (bucket w))
               (set_ticks (S (ticks w)) w)))).
    { destruct old as [o|]; [by apply update_run|by apply create_run]. }
    rewrite Hrun. set (w1 := set_log _ _).
    destruct (IH w1 (Some s)) as (w' & Hrun' & Hf' & Hb'); [done| |done|done|].
    { subst w1. simpl. by rewrite lookup_insert_eq. }
    exists w'. split; [exact Hrun'|]. split; [done|].
    rewrite Hb'. simpl session_states. fold s. rewrite last_cons.
    subst w1. simpl ticks.
    by destruct (last (session_states E key (S (ticks w)) (Some s) calls)).
Qed.

Lemma last_session_state key calls : ∀ t old s,
  last (session_states E key t old calls) = Some s →
  s_metadata s
  = foldl (λ acc u, metadata_of u ∪ acc) (from_option s_metadata ∅ old) calls
  ∧ s_created_at s = from_option s_created_at (utcnow_isoformat E t) old
  ∧ s_updated_at s = utcnow_isoformat E (t + length calls - 1)
  ∧ Some (s_user_id s) = up_user_id <$> last calls.
Proof.
  induction calls as [|u calls IH]; intros t old s Hlast; [done|].
  simpl in Hlast.
  set (s1 := upsert_spec key (utcnow_isoformat E t) u old) in *.
  destruct calls as [|u' calls].
  - simpl in Hlast. injection Hlast as <-. subst s1. simpl.
    replace (t + 1 - 1) with t by lia.
    destruct old as [o|]; simpl; repeat split; try done.
    by rewrite (right_id_L ∅ (∪)).
  - change (last (s1 :: session_states E key (S t) (Some s1) (u' :: calls)))
      with (last (session_states E key (S t) (Some s1) (u' :: calls))) in Hlast.
    apply IH in Hlast as (Hm & Hc & Hu & Hid).
    split; [|split; [|split]].
    + rewrite Hm. simpl. subst s1.
      destruct old as [o|]; simpl; [done|]. by rewrite (right_id_L ∅ (∪)).
    + rewrite Hc. subst s1. by destruct old.
    + rewrite Hu. f_equal. simpl. lia.
    + rewrite Hid. done.
Qed.

Lemma merged_lookup (calls : list Upsert) k : ∀ m0 : gmap string json,
  foldl (λ acc u, metadata_of u ∪ acc) m0 calls !! k
  = from_option Some (m0 !! k) (last (omap (λ u, metadata_of u !! k) calls)).
Proof.
  induction calls as [|u calls IH]; intros m0; [done|].
  simpl foldl. rewrite IH. rewrite lookup_union.
  cbn [omap list_omap].
  destruct (metadata_of u !! k) as [v|] eqn:Hk.
  - rewrite union_Some_l, last_cons. by destruct (last _).
  - by rewrite (left_id_L None union).
Qed.

(** C2. Upserts followed by a get, on a store that answers and for a
    session that has no record yet: the get returns the record whose
    metadata is the shallow union of the metadata of all the upserts, a
    later call overriding a same-named key and untouched keys surviving
    (the value under a key is the one of the last call that carries it);
    created_at is the clock reading of the first upsert, updated_at that of
    the last one, and user_id that of the last one. *)
Theorem upsert_then_get key calls w :
  faults w = [] →
  bucket w !! session_path key = None →
  Forall (valid_session E) (session_states E key (ticks w) None calls) →
  ∀ s, last (session_states E key (ticks w) None calls) = Some s →
  ∃ w',
    upsert_all E key calls w = (Ok (), w') ∧
    result_of (GCSFileStorage.get_session E key w') = Ok (session_json s) ∧
    s_metadata s = merged_metadata calls ∧
    (∀ k, s_metadata s !! k = last (omap (λ u, metadata_of u !! k) calls)) ∧
    s_created_at s = utcnow_isoformat E (ticks w) ∧
    s_updated_at s = utcnow_isoformat E (ticks w + length calls - 1) ∧
    Some (s_user_id s) = up_user_id <$> last calls.
Proof.
  intros Hf Hb Hall s Hlast.
  destruct (upsert_all_run key calls w None) as (w' & Hrun & Hf' & Hb');
    [done|done|done|done|].
  rewrite Hlast in Hb'. simpl in Hb'.
  assert (Hv : valid_session E s).
  { rewrite Forall_forall in Hall. apply Hall. by apply last_Some_elem_of. }
  apply last_session_state in Hlast as (Hm & Hc & Hu & Hid).
  exists w'. split; [done|].
  split; [by rewrite (get_session_run key s)|].
  split; [done|]. split; [|done].
  intros k. rewrite Hm. cbn [from_option]. rewrite merged_lookup, lookup_empty.
  by destruct (last (omap _ calls)).
Qed.
End session_facts.

(** Three upserts on a fresh session. *)
Lemma upsert_then_get_witness :
  ∃ w',
    upsert_all ref_env "telegram:42" three_upserts empty_world = (Ok (), w') ∧
    result_of (GCSFileStorage.get_session ref_env "telegram:42" w')
    = Ok (session_json session_after_three) ∧
    s_metadata session_after_three = merged_metadata three_upserts ∧
    (∀ k, s_metadata session_after_three !! k
          = last (omap (λ u, metadata_of u !! k) three_upserts)) ∧
    s_created_at session_after_three = utcnow_isoformat ref_env (0 + 0) ∧
    s_updated_at session_after_three
    = utcnow_isoformat ref_env (0 + length three_upserts - 1) ∧
    Some (s_user_id session_after_three) = up_user_id <$> last three_upserts.
Proof.
  apply (upsert_then_get ref_env "telegram:42" three_upserts empty_world).
  - reflexivity.
  - reflexivity.
  - repeat constructor; vm_compute; reflexivity.
  - vm_compute. reflexivity.
Defined.

(** ** The webhook handler *)

Lemma meq_refl {A} (m : M A) : meq m m.
Proof. done. Qed.

Lemma bind_cong {A B} (m : M A) (f g : A → M B) :
  (∀ a, meq (f a) (g a)) → meq (m ≫= f) (m ≫= g).
Proof.
  intros H w. unfold mbind, M_bind. destruct (m w) as [[a|e] w']; [apply H|done].
Qed.

Lemma bind_push {A B C} (m : M A) (f : A → M C) (g : A → M B) (k : B → M C) :
  (∀ a, meq (f a) (g a ≫= k)) → meq (m ≫= f) ((m ≫= g) ≫= k).
Proof.
  intros H w. unfold mbind, M_bind. destruct (m w) as [[a|e] w']; [apply H|done].
Qed.

Lemma ret_bind {A B} (a : A) (k : A → M B) (m : M B) :
  meq m (k a) → meq m (mret a ≫= k).
Proof. done. Qed.

Lemma try_cong {A} (m1 m2 : M A) (h : exn → M A) :
  meq m1 m2 → meq (try_except m1 h) (try_except m2 h).
Proof. intros H w. unfold try_except. by rewrite H. Qed.

(** One step of the comparison of a flat sequence with its phases. *)
Ltac push :=
  lazymatch goal with
  | |- meq (mbind _ ?m) (mbind _ (mbind _ ?m)) => apply bind_push; intros ?
  | |- meq (mbind _ ?m) (mbind _ ?m) => apply bind_cong; intros ?
  | |- meq (if ?c then _ else _) (mbind _ (if ?c then _ else _)) => destruct c
  | |- meq (if ?c then _ else _) (if ?c then _ else _) => destruct c
  | |- meq _ (mbind _ (mret _)) =>
      apply ret_bind; cbv beta iota;
      cbn [turn_text turn_chat_id turn_session_key turn_workspace
           in_message in_chat in_text in_chat_id in_user_id]
  end.

Section handler_phases.
Context (E : env) (self : ServerlessGateway).

(** The handler is the sequence of its phases. *)
Lemma handler_phases update :
  meq (Gateway.handle_telegram_webhook E self update) (phased E self update).
Proof.
  unfold Gateway.handle_telegram_webhook, phased.
  apply try_cong. unfold received, refused. cbv zeta.
  repeat push.
  all: try apply meq_refl.
  unfold past_gate, synced_in; cbv zeta.
  cbn [turn_text turn_chat_id turn_session_key turn_workspace
       in_message in_chat in_text in_chat_id in_user_id].
  repeat push.
  all: try apply meq_refl.
  unfold invoked, synced_out, replied; cbv zeta.
  cbn [turn_text turn_chat_id turn_session_key turn_workspace].
  repeat push.
  all: try apply meq_refl.
Qed.
End handler_phases.

Section gate.
Context (E : env).

Lemma py_get_run m k d w :
  py_get (JObj m) k d w = (Ok (default d (m !! k)), w).
Proof. reflexivity. Qed.

(** What the first steps of the handler read off an update that gets as
    far as the authorization check. *)
Lemma inbound_inv update i :
  inbound E update = Some i →
  ∃ um mm cm fm,
    update = JObj um
    ∧ py_or (default JNull (um !! "message"))
            (default JNull (um !! "edited_message")) = JObj mm
    ∧ truthy (JObj mm) = true
    ∧ default (JObj ∅) (mm !! "chat") = JObj cm
    ∧ default (JObj ∅) (mm !! "from") = JObj fm
    ∧ Gateway.slice50 (default (JStr "") (mm !! "text")) = mret ()
    ∧ i = {| in_message := JObj mm; in_chat := JObj cm;
             in_text := default (JStr "") (mm !! "text");
             in_chat_id := Gateway.py_str E (default JNull (cm !! "id"));
             in_user_id := Gateway.py_str E (default JNull (fm !! "id")) |}.
Proof.
  unfold inbound. intros Hu.
  destruct update as [| | | | |um]; try done.
  destruct (py_or _ _) as [| | | | |mm] eqn:Hm; try done.
  destruct (truthy (JObj mm)) eqn:Ht; [|done].
  destruct (default (JObj ∅) (mm !! "chat")) as [| | | | |cm] eqn:Hc; try done.
  destruct (default (JObj ∅) (mm !! "from")) as [| | | | |fm] eqn:Hf; try done.
  destruct (default (JStr "") (mm !! "text")) as [| | |t|t|] eqn:Htx; try done;
    injection Hu as <-; eexists um, mm, cm, fm; by rewrite Htx.
Qed.

Lemma message_of_update um w :
  (m ← py_get (JObj um) "message" JNull;
   if truthy m then mret m else py_get (JObj um) "edited_message" JNull) w
  = (Ok (py_or (default JNull (um !! "message"))
               (default JNull (um !! "edited_message"))), w).
Proof.
  rewrite bind_run, py_get_run. unfold py_or.
  by destruct (truthy (default JNull (um !! "message"))).
Qed.

Lemma bind_assoc_run {A B C} (m : M A) (f : A → M B) (g : B → M C) w :
  ((m ≫= f) ≫= g) w = (m ≫= λ a, f a ≫= g) w.
Proof. unfold mbind, M_bind. by destruct (m w) as [[a|e] w']. Qed.

(** Received, on an update that gets as far as the check: it reads, logs
    one record and changes nothing else. *)
Lemma received_run update i w :
  inbound E update = Some i →
  received E update w
  = (Ok (inr i), set_log (log w ++ [(INFO, "Received message")]) w).
Proof.
  intros (um & mm & cm & fm & -> & Hm & Ht & Hc & Hf & Hsl & ->)%inbound_inv.
  unfold received. cbv zeta.
  rewrite <- bind_assoc_run, (bind_run (_ ≫= _)), message_of_update, Hm, Ht.
  cbn [negb].
  rewrite bind_run, py_get_run, Hc. rewrite bind_run, py_get_run, Hf.
  rewrite bind_run, py_get_run. rewrite bind_run, py_get_run.
  rewrite bind_run, py_get_run. rewrite Hsl. reflexivity.
Qed.

(** Received, on an update without a message. *)
Lemma received_no_message um w :
  truthy (py_or (default JNull (um !! "message"))
                (default JNull (um !! "edited_message"))) = false →
  received E (JObj um) w
  = (Ok (inl no_message_result),
     set_log (log w ++ [(WARNING, "No message found in Telegram update")]) w).
Proof.
  intros Hm. unfold received. cbv zeta.
  rewrite <- bind_assoc_run, (bind_run (_ ≫= _)), message_of_update, Hm.
  reflexivity.
Qed.
End gate.

Section handler.
Context (E : env) (self : ServerlessGateway).

(** Sending: whatever the platform answers, the request is recorded, one
    or two records are logged and nothing is raised. *)
Lemma send_message_run tok chat_id text w :
  ∃ l,
    Gateway.send_message E tok chat_id text w
    = (Ok (),
       set_log (log w ++ l)
         (set_outbox
            (outbox w ++
               [("https://api.telegram.org/bot" +:+ tok +:+ "/sendMessage",
                 dict_of [("chat_id", JStr chat_id); ("text", JStr text)])])
            w)).
Proof.
  destruct w as [b f fsys t u o l0].
  unfold Gateway.send_message. cbv zeta.
  destruct (httpx_post E _ _) as [|code body|e|result] eqn:Hpost;
    unfold try_except, modify; rewrite bind_run; cbv beta iota.
  - eexists [_]. unfold raise. rewrite decide_True by done. reflexivity.
  - eexists [_]. unfold raise. cbn [exn_cls].
    rewrite decide_False by done. rewrite decide_True by done. reflexivity.
  - unfold raise. destruct (decide (exn_cls e = TimeoutException));
      [|destruct (decide (exn_cls e = HTTPStatusError))];
      eexists [_]; reflexivity.
  - destruct result as [| | | | |m];
      try (eexists [_]; reflexivity).
    rewrite bind_run, py_get_run.
    destruct (truthy (default JNull (m !! "ok"))); [eexists [_]; reflexivity|].
    rewrite bind_run, py_get_run. eexists [_]. reflexivity.
Qed.

(** Replied: the text is the reply, or the fallback when the reply is
    blank; with a token it is sent once and reported, without one nothing
    is sent. *)
Lemma replied_run chat_id response w :
  let text := if Gateway.reply_blank response then fallback_message
              else default "" response in
  ∃ l,
    replied E self chat_id response w
    = if bool_decide (token (config self) = "")
      then (Ok no_token_result, set_log (log w ++ l) w)
      else (Ok (handled_result text),
            set_log (log w ++ l)
              (set_outbox (outbox w ++ [send_request self chat_id text]) w)).
Proof.
  intros text. unfold replied. cbv zeta. rewrite bind_run.
  destruct (Gateway.reply_blank response) eqn:Hb.
  - rewrite bind_run. unfold logger at 1. cbv beta iota.
    unfold mret at 1, M_ret at 1. cbv beta iota.
    destruct (bool_decide (token (config self) = "")).
    + eexists [_; _]. destruct w. unfold logger, set_log; rewrite bind_run; simpl.
      by rewrite <- app_assoc.
    + rewrite bind_run.
      destruct (send_message_run (token (config self)) chat_id fallback_message
                  (set_log (log w ++ [(WARNING, "No response generated")]) w))
        as [l Hl].
      rewrite Hl. exists ((WARNING, "No response generated") :: l).
      destruct w. unfold send_request, set_log, set_outbox; simpl.
      by rewrite <- app_assoc.
  - unfold mret at 1, M_ret at 1. cbv beta iota.
    destruct (bool_decide (token (config self) = "")).
    + eexists [_]. reflexivity.
    + rewrite bind_run.
      destruct (send_message_run (token (config self)) chat_id
                  (default "" response) w) as [l Hl].
      rewrite Hl. exists l. reflexivity.
Qed.

(** The handler on an update that gets as far as the check. *)
Lemma handler_at_gate update i w :
  inbound E update = Some i →
  Gateway.handle_telegram_webhook E self update w
  = try_except
      (if refused self (in_user_id i) then
         logger WARNING "User not in allowed list";;
         mret not_allowed_result
       else past_gate E self i)
      on_error
      (set_log (log w ++ [(INFO, "Received message")]) w).
Proof.
  intros Hi. rewrite handler_phases. unfold phased, try_except.
  by rewrite bind_run, (received_run E update i).
Qed.

(** X1. The authorization gate of [handle_telegram_webhook]: for an update
    that gets as far as the check, a sender absent from a non-empty
    allow-list gets the result ok/not handled/"User not allowed", and the
    world is the initial one but for two log records (no session write, no
    history append, no file, no request); with no allow-list, an empty one,
    or the sender on it, the run is exactly the run of the steps after the
    check. *)
Theorem authorization_gate update i w :
  inbound E update = Some i →
  let w1 := set_log (log w ++ [(INFO, "Received message")]) w in
  (∀ allowed,
     allow_from (config self) = Some allowed → allowed ≠ [] →
     in_user_id i ∉ allowed →
     Gateway.handle_telegram_webhook E self update w
     = (Ok not_allowed_result,
        set_log (log w1 ++ [(WARNING, "User not in allowed list")]) w1))
  ∧ (allow_from (config self) = None ∨ allow_from (config self) = Some []
     ∨ in_user_id i ∈ default [] (allow_from (config self)) →
     Gateway.handle_telegram_webhook E self update w
     = try_except (past_gate E self i) on_error w1).
Proof.
  intros Hi w1. split.
  - intros allowed Ha Hne Hnot. rewrite (handler_at_gate update i) by done.
    unfold refused. rewrite Ha. destruct allowed as [|a allowed]; [done|].
    cbn [Gateway.list_truthy andb default from_option id].
    by rewrite bool_decide_eq_false_2.
  - intros Hopen. rewrite (handler_at_gate update i) by done.
    assert (Hr : refused self (in_user_id i) = false).
    { unfold refused. destruct Hopen as [->| [->|Hin]]; [done|done|].
      rewrite bool_decide_eq_true_2 by done. by rewrite andb_false_r. }
    by rewrite Hr.
Qed.

(** X2. An update that is a dict without a non-empty [message] or
    [edited_message] ends the handler early: the result is ok/not handled
    and the world is the initial one but for one warning. *)
Theorem update_without_message um w :
  truthy (py_or (default JNull (um !! "message"))
                (default JNull (um !! "edited_message"))) = false →
  Gateway.handle_telegram_webhook E self (JObj um) w
  = (Ok no_message_result,
     set_log (log w ++ [(WARNING, "No message found in Telegram update")]) w).
Proof.
  intros Hm. rewrite handler_phases. unfold phased, try_except.
  by rewrite bind_run, received_no_message.
Qed.

Lemma bind_inv {A B} (m : M A) (f : A → M B) w b w' :
  (m ≫= f) w = (Ok b, w') → ∃ a w1, m w = (Ok a, w1) ∧ f a w1 = (Ok b, w').
Proof.
  rewrite bind_run. destruct (m w) as [[a|e] w1]; [eauto|done].
Qed.

(** The turn Synced-In hands on is the one of the inbound message. *)
Lemma synced_in_turn i w t w' :
  synced_in E self i w = (Ok t, w') →
  t = {| turn_text := in_text i; turn_chat_id := in_chat_id i;
         turn_session_key := "telegram:" +:+ in_chat_id i;
         turn_workspace :=
           FS.path_join (workspace self)
             (Py.replace ":" "_" ("telegram:" +:+ in_chat_id i)) |}.
Proof.
  unfold synced_in. cbv zeta. intros H.
  repeat (apply bind_inv in H as (? & ? & _ & H)).
  by injection H as <- _.
Qed.

(** X3. The reply of a run that got through Synced-In, Invoked and
    Synced-Out: the text is the agent's reply, or the fixed fallback
    message when that reply is missing, empty or white space.  With a bot
    token, whatever the platform answers, the result is ok/handled with
    that text as response, exactly one request carrying that text is
    issued, and nothing else of the world changes but the log; without a
    token the result is the "token not configured" failure and nothing is
    sent. *)
Theorem handled_run update i t response w w2 w3 w4 :
  inbound E update = Some i →
  refused self (in_user_id i) = false →
  synced_in E self i (set_log (log w ++ [(INFO, "Received message")]) w)
  = (Ok t, w2) →
  invoked self t w2 = (Ok response, w3) →
  synced_out E self t response w3 = (Ok (), w4) →
  let text := if Gateway.reply_blank response then fallback_message
              else default "" response in
  ∃ l,
    Gateway.handle_telegram_webhook E self update w
    = if bool_decide (token (config self) = "")
      then (Ok no_token_result, set_log (log w4 ++ l) w4)
      else (Ok (handled_result text),
            set_log (log w4 ++ l)
              (set_outbox
                 (outbox w4 ++ [send_request self (in_chat_id i) text]) w4)).
Proof.
  intros Hi Hr Hin Hinv Hout text.
  destruct (replied_run (in_chat_id i) response w4) as [l Hl].
  exists l. rewrite (handler_at_gate update i) by done.
  rewrite Hr. unfold try_except, past_gate.
  rewrite bind_run, Hin, bind_run, Hinv, bind_run, Hout.
  rewrite (synced_in_turn _ _ _ _ Hin). cbn [turn_chat_id].
  rewrite Hl. by destruct (bool_decide _).
Qed.

Lemma received_early update w r w' :
  received E update w = (Ok (inl r), w') → r = no_message_result.
Proof.
  unfold received. cbv zeta. intros H.
  apply bind_inv in H as (m & w1 & _ & H).
  apply bind_inv in H as (message & w2 & _ & H).
  destruct (negb (truthy message)).
  - apply bind_inv in H as (? & ? & _ & H). by injection H as <- _.
  - repeat (apply bind_inv in H as (? & ? & _ & H)). done.
Qed.

(** The handler returns, and what it returns is one of its results. *)
Lemma handler_returns update w :
  ∃ r w',
    Gateway.handle_telegram_webhook E self update w = (Ok r, w')
    ∧ structured r.
Proof.
  rewrite handler_phases. unfold phased, try_except.
  destruct ((received E update ≫= _) w) as [[r|e] w'] eqn:Hrun.
  - exists r, w'. split; [done|].
    apply bind_inv in Hrun as ([early|i] & w1 & Hrec & Hrun).
    + apply received_early in Hrec as ->. injection Hrun as <- _. by left.
    + destruct (refused self (in_user_id i)).
      * apply bind_inv in Hrun as (? & ? & _ & Hrun).
        injection Hrun as <- _. right. by left.
      * unfold past_gate in Hrun.
        apply bind_inv in Hrun as (t & w2 & _ & Hrun).
        apply bind_inv in Hrun as (resp & w3 & _ & Hrun).
        apply bind_inv in Hrun as (? & w4 & _ & Hrun).
        destruct (replied_run (turn_chat_id t) resp w4) as [l Hl].
        rewrite Hl in Hrun. right. right.
        destruct (bool_decide _); injection Hrun as <- _; [by left|].
        right. left. eauto.
  - eexists _, _. split; [reflexivity|]. repeat right. eauto.
Qed.

(** X4. The handler never raises: for every update and every world
    (whatever the store, the files and the agent do) it returns one of its
    five structured results, the last one being ok = false with the text
    of the exception. *)
Theorem handler_always_answers update w :
  ∃ r w',
    Gateway.handle_telegram_webhook E self update w = (Ok r, w')
    ∧ structured r.
Proof. apply handler_returns. Qed.

(** The handler on a run that got through Synced-In, Invoked and
    Synced-Out: it answers what the Replied step answers. *)
Lemma handler_at_reply update i t response w w2 w3 w4 r w' :
  inbound E update = Some i →
  refused self (in_user_id i) = false →
  synced_in E self i (set_log (log w ++ [(INFO, "Received message")]) w)
  = (Ok t, w2) →
  invoked self t w2 = (Ok response, w3) →
  synced_out E self t response w3 = (Ok (), w4) →
  replied E self (in_chat_id i) response w4 = (Ok r, w') →
  Gateway.handle_telegram_webhook E self update w = (Ok r, w').
Proof.
  intros Hi Hr Hin Hinv Hout Hrep.
  rewrite (handler_at_gate update i) by done.
  rewrite Hr. unfold try_except, past_gate.
  rewrite bind_run, Hin, bind_run, Hinv, bind_run, Hout.
  rewrite (synced_in_turn _ _ _ _ Hin). cbn [turn_chat_id].
  by rewrite Hrep.
Qed.

(** A send that is not answered: the request is recorded, one error is
    logged and nothing is raised. *)
Lemma send_message_fails tok chat_id text w :
  delivery_fails
    (httpx_post E ("https://api.telegram.org/bot" +:+ tok +:+ "/sendMessage")
       (dict_of [("chat_id", JStr chat_id); ("text", JStr text)])) = true →
  ∃ msg,
    Gateway.send_message E tok chat_id text w
    = (Ok (),
       set_log (log w ++ [(ERROR, msg)])
         (set_outbox
            (outbox w ++
               [("https://api.telegram.org/bot" +:+ tok +:+ "/sendMessage",
                 dict_of [("chat_id", JStr chat_id); ("text", JStr text)])])
            w))
    ∧ msg ∈ delivery_errors.
Proof.
  destruct w as [b f fsys t u o l0].
  unfold Gateway.send_message. cbv zeta.
  destruct (httpx_post E _ _) as [|code body|e|result] eqn:Hpost;
    intros Hfail; [| | |done];
    unfold try_except, modify; rewrite bind_run; cbv beta iota.
  - eexists. unfold raise. rewrite decide_True by done.
    split; [reflexivity|]. unfold delivery_errors. repeat constructor.
  - eexists. unfold raise. cbn [exn_cls].
    rewrite decide_False by done. rewrite decide_True by done.
    split; [reflexivity|]. unfold delivery_errors. repeat constructor.
  - unfold raise. destruct (decide (exn_cls e = TimeoutException));
      [|destruct (decide (exn_cls e = HTTPStatusError))];
      eexists; (split; [reflexivity|]); unfold delivery_errors;
      repeat constructor.
Qed.

(** C3. The authorization gate.  For an update that carries a message (one
    that gets as far as the check): when the allow-list is set and not
    empty and the sender's id is not on it, the handler returns
    ok = true, handled = false, error = "User not allowed", and nothing
    but the log changes: the bucket is as it was (no session write, no
    history append), the store is not even called, and the local files
    and the requests sent are as they were; when the allow-list is unset
    or empty no sender is refused, and the handler goes on with the steps
    after the check. *)
Theorem allow_list_gate update i w :
  inbound E update = Some i →
  (∀ allowed,
     allow_from (config self) = Some allowed → allowed ≠ [] →
     in_user_id i ∉ allowed →
     ∃ w',
       Gateway.handle_telegram_webhook E self update w
       = (Ok (dict_of [("ok", JBool true); ("handled", JBool false);
                       ("error", JStr "User not allowed")]), w')
       ∧ bucket w' = bucket w ∧ faults w' = faults w ∧ fs w' = fs w
       ∧ outbox w' = outbox w)
  ∧ (allow_from (config self) = None ∨ allow_from (config self) = Some [] →
     (∀ user_id, refused self user_id = false)
     ∧ Gateway.handle_telegram_webhook E self update w
       = try_except (past_gate E self i) on_error
           (set_log (log w ++ [(INFO, "Received message")]) w)).
Proof.
  intros Hi. split.
  - intros allowed Ha Hne Hnot. rewrite (handler_at_gate update i) by done.
    unfold refused. rewrite Ha. destruct allowed as [|a allowed]; [done|].
    cbn [Gateway.list_truthy andb default from_option id].
    rewrite bool_decide_eq_false_2 by done. cbn [negb].
    eexists. split; [reflexivity|]. by destruct w.
  - intros Hopen.
    assert (Hr : ∀ user_id, refused self user_id = false).
    { intros user_id. unfold refused. by destruct Hopen as [->| ->]. }
    split; [done|]. rewrite (handler_at_gate update i) by done.
    by rewrite Hr.
Qed.

(** C6. A reply that cannot be delivered.  For a message that got through
    Synced-In, Invoked and Synced-Out, with a bot token: when the request
    to the platform times out, is answered with an error status or raises,
    the handler still returns ok = true, handled = true and the text as
    response; the request is recorded, one error is logged, and the bucket
    and the local files are the ones Synced-Out left. *)
Theorem delivery_failure_is_swallowed update i t response w w2 w3 w4 :
  inbound E update = Some i →
  refused self (in_user_id i) = false →
  synced_in E self i (set_log (log w ++ [(INFO, "Received message")]) w)
  = (Ok t, w2) →
  invoked self t w2 = (Ok response, w3) →
  synced_out E self t response w3 = (Ok (), w4) →
  token (config self) ≠ "" →
  delivery_fails
    (httpx_post E
       ("https://api.telegram.org/bot" +:+ token (config self) +:+ "/sendMessage")
       (dict_of [("chat_id", JStr (in_chat_id i));
                 ("text", JStr (reply_text response))])) = true →
  ∃ w' msg,
    Gateway.handle_telegram_webhook E self update w
    = (Ok (dict_of [("ok", JBool true); ("handled", JBool true);
                    ("response", JStr (reply_text response))]), w')
    ∧ last (log w') = Some (ERROR, msg) ∧ msg ∈ delivery_errors
    ∧ bucket w' = bucket w4 ∧ fs w' = fs w4
    ∧ outbox w'
      = outbox w4
        ++ [("https://api.telegram.org/bot" +:+ token (config self)
             +:+ "/sendMessage",
             dict_of [("chat_id", JStr (in_chat_id i));
                      ("text", JStr (reply_text response))])].
Proof.
  intros Hi Hr Hin Hinv Hout Htok Hfail.
  assert (Hrep : ∃ w' msg,
    replied E self (in_chat_id i) response w4
    = (Ok (handled_result (reply_text response)), w')
    ∧ last (log w') = Some (ERROR, msg) ∧ msg ∈ delivery_errors
    ∧ bucket w' = bucket w4 ∧ fs w' = fs w4
    ∧ outbox w'
      = outbox w4
        ++ [("https://api.telegram.org/bot" +:+ token (config self)
             +:+ "/sendMessage",
             dict_of [("chat_id", JStr (in_chat_id i));
                      ("text", JStr (reply_text response))])]).
  { unfold replied, reply_text in *. cbv zeta. rewrite bind_run.
    rewrite bool_decide_eq_false_2 by done.
    destruct (Gateway.reply_blank response).
    - rewrite bind_run. unfold logger at 1. cbv beta iota.
      unfold mret at 1, M_ret at 1. cbv beta iota. rewrite bind_run.
      destruct (send_message_fails (token (config self)) (in_chat_id i)
                  fallback_message
                  (set_log (log w4 ++ [(WARNING, "No response generated")]) w4)
                  Hfail) as (msg & -> & Hmsg).
      eexists _, msg. split; [reflexivity|]. destruct w4. simpl.
      by rewrite last_snoc.
    - unfold mret at 1, M_ret at 1. cbv beta iota. rewrite bind_run.
      destruct (send_message_fails (token (config self)) (in_chat_id i)
                  (from_option id "" response) w4 Hfail) as (msg & -> & Hmsg).
      eexists _, msg. split; [reflexivity|]. destruct w4. simpl.
      by rewrite last_snoc. }
  destruct Hrep as (w' & msg & Hrep & Hrest).
  exists w', msg. split; [|done].
  by apply (handler_at_reply update i t response w w2 w3 w4).
Qed.

(** C7. The fallback reply.  For a message that got through Synced-In,
    Invoked and Synced-Out, with a bot token: the handler returns
    ok = true, handled = true, and as response the text it sends to the
    chat, in one request; that text is the fixed fallback message when the
    agent returned nothing, the empty string or white space only, and the
    agent's reply as it is otherwise. *)
Theorem blank_reply_gets_the_fallback update i t response w w2 w3 w4 :
  inbound E update = Some i →
  refused self (in_user_id i) = false →
  synced_in E self i (set_log (log w ++ [(INFO, "Received message")]) w)
  = (Ok t, w2) →
  invoked self t w2 = (Ok response, w3) →
  synced_out E self t response w3 = (Ok (), w4) →
  token (config self) ≠ "" →
  (∃ l,
     Gateway.handle_telegram_webhook E self update w
     = (Ok (dict_of [("ok", JBool true); ("handled", JBool true);
                     ("response", JStr (reply_text response))]),
        set_log (log w4 ++ l)
          (set_outbox
             (outbox w4
              ++ [("https://api.telegram.org/bot" +:+ token (config self)
                   +:+ "/sendMessage",
                   dict_of [("chat_id", JStr (in_chat_id i));
                            ("text", JStr (reply_text response))])])
             w4)))
  ∧ (response = None ∨ (∃ s, response = Some s ∧ Py.strip s = "") →
     reply_text response
     = "I received your message but couldn't generate a response.")
  ∧ (∀ s, response = Some s → Py.strip s ≠ "" → reply_text response = s).
Proof.
  intros Hi Hr Hin Hinv Hout Htok. split; [|split].
  - destruct (replied_run (in_chat_id i) response w4) as [l Hl].
    rewrite bool_decide_eq_false_2 in Hl by done.
    exists l. by apply (handler_at_reply update i t response w w2 w3 w4).
  - unfold reply_text. intros [->|(s & -> & Hs)]; [done|].
    cbn [Gateway.reply_blank]. rewrite (bool_decide_eq_true_2 (Py.strip s = "")) by done.
    by rewrite orb_true_r.
  - intros s -> Hs. unfold reply_text. cbn [Gateway.reply_blank].
    rewrite (bool_decide_eq_false_2 (Py.strip s = "")) by done.
    rewrite bool_decide_eq_false_2; [done|]. by intros ->.
Qed.

End handler.

Section delivery.
Context (E : env) (self : ServerlessGateway).

(** X5. The answer of the messaging platform is invisible outside the
    log: replacing it by any other answer (a timeout, an HTTP error, a
    transport error, any JSON) changes neither the handler's result nor
    the world it leaves, the log apart. *)
Theorem delivery_outcome_is_invisible post update w :
  let E' := with_httpx_post E post in
  result_of (Gateway.handle_telegram_webhook E' self update w)
  = result_of (Gateway.handle_telegram_webhook E self update w)
  ∧ set_log [] (world_of (Gateway.handle_telegram_webhook E' self update w))
    = set_log [] (world_of (Gateway.handle_telegram_webhook E self update w)).
Proof.
  intros E'. unfold result_of, world_of.
  rewrite !handler_phases. unfold phased, try_except.
  change (received E' update) with (received E update).
  rewrite !bind_run.
  destruct (received E update w) as [[[early|i]|e] w1]; [done| |done].
  destruct (refused self (in_user_id i)); [done|].
  unfold past_gate.
  change (synced_in E' self i) with (synced_in E self i).
  rewrite !bind_run.
  destruct (synced_in E self i w1) as [[t|e] w2]; [|done].
  rewrite !bind_run.
  destruct (invoked self t w2) as [[resp|e] w3]; [|done].
  change (synced_out E' self t resp) with (synced_out E self t resp).
  rewrite !bind_run.
  destruct (synced_out E self t resp w3) as [[[]|e] w4]; [|done].
  destruct (replied_run E' self (turn_chat_id t) resp w4) as [l' Hl'].
  destruct (replied_run E self (turn_chat_id t) resp w4) as [l Hl].
  rewrite Hl, Hl'.
  destruct (bool_decide _); destruct w4; done.
Qed.
End delivery.

(** User 7 writes to a gateway whose allow-list is [8]. *)
Lemma allow_list_gate_witness :
  (∀ allowed,
     allow_from (config (gateway_with (Some "hi there") (Some ["8"])))
     = Some allowed → allowed ≠ [] →
     in_user_id inbound_hello ∉ allowed →
     ∃ w',
       Gateway.handle_telegram_webhook ref_env
         (gateway_with (Some "hi there") (Some ["8"])) update_hello empty_world
       = (Ok (dict_of [("ok", JBool true); ("handled", JBool false);
                       ("error", JStr "User not allowed")]), w')
       ∧ bucket w' = bucket empty_world ∧ faults w' = faults empty_world
       ∧ fs w' = fs empty_world ∧ outbox w' = outbox empty_world)
  ∧ (allow_from (config (gateway_with (Some "hi there") (Some ["8"]))) = None
     ∨ allow_from (config (gateway_with (Some "hi there") (Some ["8"])))
       = Some [] →
     (∀ user_id,
        refused (gateway_with (Some "hi there") (Some ["8"])) user_id = false)
     ∧ Gateway.handle_telegram_webhook ref_env
         (gateway_with (Some "hi there") (Some ["8"])) update_hello empty_world
       = try_except
           (past_gate ref_env (gateway_with (Some "hi there") (Some ["8"]))
              inbound_hello)
           on_error
           (set_log (log empty_world ++ [(INFO, "Received message")])
              empty_world)).
Proof.
  apply (allow_list_gate ref_env (gateway_with (Some "hi there") (Some ["8"]))
           update_hello inbound_hello empty_world).
  vm_compute. reflexivity.
Defined.

(** The same update, run against the allow-list [8] and against an empty
    allow-list. *)
Example stranger_and_open_door :
  result_of (Gateway.handle_telegram_webhook ref_env
               (gateway_with (Some "hi there") (Some ["8"])) update_hello
               empty_world)
  = Ok (dict_of [("ok", JBool true); ("handled", JBool false);
                 ("error", JStr "User not allowed")])
  ∧ result_of (Gateway.handle_telegram_webhook ref_env
                 (gateway_with (Some "hi there") (Some [])) update_hello
                 empty_world)
    = Ok (dict_of [("ok", JBool true); ("handled", JBool true);
                   ("response", JStr "hi there")])
  ∧ result_of (Gateway.handle_telegram_webhook ref_env
                 (gateway_with (Some "hi there") None) update_hello
                 empty_world)
    = Ok (dict_of [("ok", JBool true); ("handled", JBool true);
                   ("response", JStr "hi there")]).
Proof. repeat split; vm_compute; reflexivity. Qed.

(** The scenario with a platform that times out. *)
Lemma delivery_failure_is_swallowed_witness :
  ∃ w' msg,
    Gateway.handle_telegram_webhook offline_env blank_gateway update_hello
      empty_world
    = (Ok (dict_of [("ok", JBool true); ("handled", JBool true);
                    ("response", JStr (reply_text (Some "  ")))]), w')
    ∧ last (log w') = Some (ERROR, msg) ∧ msg ∈ delivery_errors
    ∧ bucket w' = bucket hello_w4 ∧ fs w' = fs hello_w4
    ∧ outbox w'
      = outbox hello_w4
        ++ [("https://api.telegram.org/bot" +:+ token (config blank_gateway)
             +:+ "/sendMessage",
             dict_of [("chat_id", JStr (in_chat_id inbound_hello));
                      ("text", JStr (reply_text (Some "  ")))])].
Proof.
  apply (delivery_failure_is_swallowed offline_env blank_gateway update_hello
           inbound_hello turn_hello (Some "  ") empty_world
           hello_w2 hello_w3 hello_w4).
  - vm_compute. reflexivity.
  - vm_compute. reflexivity.
  - vm_compute. reflexivity.
  - vm_compute. reflexivity.
  - vm_compute. reflexivity.
  - vm_compute. discriminate.
  - vm_compute. reflexivity.
Defined.

(** The scenario with an agent whose reply is white space. *)
Lemma blank_reply_gets_the_fallback_witness :
  (∃ l,
     Gateway.handle_telegram_webhook ref_env blank_gateway update_hello
       empty_world
     = (Ok (dict_of [("ok", JBool true); ("handled", JBool true);
                     ("response", JStr (reply_text (Some "  ")))]),
        set_log (log hello_w4 ++ l)
          (set_outbox
             (outbox hello_w4
              ++ [("https://api.telegram.org/bot"
                   +:+ token (config blank_gateway) +:+ "/sendMessage",
                   dict_of [("chat_id", JStr (in_chat_id inbound_hello));
                            ("text", JStr (reply_text (Some "  ")))])])
             hello_w4)))
  ∧ (Some "  " = None ∨ (∃ s, Some "  " = Some s ∧ Py.strip s = "") →
     reply_text (Some "  ")
     = "I received your message but couldn't generate a response.")
  ∧ (∀ s, Some "  " = Some s → Py.strip s ≠ "" → reply_text (Some "  ") = s).
Proof.
  apply (blank_reply_gets_the_fallback ref_env blank_gateway update_hello
           inbound_hello turn_hello (Some "  ") empty_world
           hello_w2 hello_w3 hello_w4).
  - vm_compute. reflexivity.
  - vm_compute. reflexivity.
  - vm_compute. reflexivity.
  - vm_compute. reflexivity.
  - vm_compute. reflexivity.
  - vm_compute. discriminate.
Defined.

(** The scenario, run with a reply of white space, with no reply and with
    a platform that times out: the fallback message is the response each
    time. *)
Example fallback_runs :
  result_of (Gateway.handle_telegram_webhook ref_env blank_gateway
               update_hello empty_world)
  = Ok (dict_of [("ok", JBool true); ("handled", JBool true);
                 ("response",
                  JStr "I received your message but couldn't generate a response.")])
  ∧ result_of (Gateway.handle_telegram_webhook ref_env
                 (gateway_with None (Some ["7"])) update_hello empty_world)
    = Ok (dict_of [("ok", JBool true); ("handled", JBool true);
                   ("response",
                    JStr "I received your message but couldn't generate a response.")])
  ∧ result_of (Gateway.handle_telegram_webhook offline_env blank_gateway
                 update_hello empty_world)
    = Ok (dict_of [("ok", JBool true); ("handled", JBool true);
                   ("response",
                    JStr "I received your message but couldn't generate a response.")]).
Proof. repeat split; vm_compute; reflexivity. Qed.

(** User 7 is not on the list [8]; user 7 is on the list [7]. *)
Lemma authorization_gate_witness :
  (∀ allowed,
     allow_from (config (gateway_with (Some "hi there") (Some ["8"])))
     = Some allowed → allowed ≠ [] →
     in_user_id inbound_hello ∉ allowed →
     Gateway.handle_telegram_webhook ref_env
       (gateway_with (Some "hi there") (Some ["8"])) update_hello empty_world
     = (Ok not_allowed_result,
        set_log (log (set_log (log empty_world ++ [(INFO, "Received message")])
                        empty_world)
                 ++ [(WARNING, "User not in allowed list")])
          (set_log (log empty_world ++ [(INFO, "Received message")])
             empty_world)))
  ∧ (allow_from (config (gateway_with (Some "hi there") (Some ["8"]))) = None
     ∨ allow_from (config (gateway_with (Some "hi there") (Some ["8"])))
       = Some []
     ∨ in_user_id inbound_hello
       ∈ default [] (allow_from (config (gateway_with (Some "hi there")
                                           (Some ["8"])))) →
     Gateway.handle_telegram_webhook ref_env
       (gateway_with (Some "hi there") (Some ["8"])) update_hello empty_world
     = try_except
         (past_gate ref_env (gateway_with (Some "hi there") (Some ["8"]))
            inbound_hello)
         on_error
         (set_log (log empty_world ++ [(INFO, "Received message")])
            empty_world)).
Proof.
  apply (authorization_gate ref_env
           (gateway_with (Some "hi there") (Some ["8"]))
           update_hello inbound_hello empty_world).
  vm_compute. reflexivity.
Defined.

Lemma update_without_message_witness :
  Gateway.handle_telegram_webhook ref_env
    (gateway_with (Some "hi there") None) (JObj update_empty) empty_world
  = (Ok no_message_result,
     set_log (log empty_world
              ++ [(WARNING, "No message found in Telegram update")])
       empty_world).
Proof.
  apply (update_without_message ref_env
           (gateway_with (Some "hi there") None) update_empty empty_world).
  vm_compute. reflexivity.
Defined.

(** The scenario with an agent that answers white space: the fallback is
    sent and reported. *)
Lemma handled_run_witness :
  ∃ l,
    Gateway.handle_telegram_webhook ref_env blank_gateway update_hello
      empty_world
    = if bool_decide (token (config blank_gateway) = "")
      then (Ok no_token_result, set_log (log hello_w4 ++ l) hello_w4)
      else (Ok (handled_result
                  (if Gateway.reply_blank (Some "  ") then fallback_message
                   else default "" (Some "  "))),
            set_log (log hello_w4 ++ l)
              (set_outbox
                 (outbox hello_w4
                  ++ [send_request blank_gateway (in_chat_id inbound_hello)
                        (if Gateway.reply_blank (Some "  ")
                         then fallback_message
                         else default "" (Some "  "))])
                 hello_w4)).
Proof.
  apply (handled_run ref_env blank_gateway update_hello inbound_hello
           turn_hello (Some "  ") empty_world hello_w2 hello_w3 hello_w4).
  - vm_compute. reflexivity.
  - vm_compute. reflexivity.
  - vm_compute. reflexivity.
  - vm_compute. reflexivity.
  - vm_compute. reflexivity.
Defined.

(** ** Frames *)

Section frames.
Context (R : world → world → Prop) `{!PreOrder R}.

Lemma ensures_ret {A} (a : A) : ensures R (mret a).
Proof using Type*. intros w. reflexivity. Qed.

Lemma ensures_raise {A} e : ensures R (raise e : M A).
Proof using Type*. intros w. reflexivity. Qed.

Lemma ensures_bind {A B} (m : M A) (f : A → M B) :
  ensures R m → (∀ a, ensures R (f a)) → ensures R (m ≫= f).
Proof using Type*.
  intros Hm Hf w. unfold world_of. rewrite bind_run.
  specialize (Hm w). unfold world_of in Hm.
  destruct (m w) as [[a|e] w1]; simpl in *; [|done].
  etrans; [exact Hm|]. apply Hf.
Qed.

Lemma ensures_try {A} (m : M A) (h : exn → M A) :
  ensures R m → (∀ e, ensures R (h e)) → ensures R (try_except m h).
Proof using Type*.
  intros Hm Hh w. unfold world_of, try_except.
  specialize (Hm w). unfold world_of in Hm.
  destruct (m w) as [[a|e] w1]; simpl in *; [done|].
  etrans; [exact Hm|]. apply Hh.
Qed.

Lemma ensures_for_each {A} (xs : list A) (body : A → M unit) :
  (∀ x, ensures R (body x)) → ensures R (for_each xs body).
Proof using Type*.
  intros Hb. induction xs as [|x xs IH]; simpl.
  - apply ensures_ret.
  - apply ensures_bind; [apply Hb|]. intros _. apply IH.
Qed.

Lemma ensures_for_fold {A B} (xs : list A) (body : B → A → M B) : ∀ acc,
  (∀ b x, ensures R (body b x)) → ensures R (for_fold xs acc body).
Proof using Type*.
  induction xs as [|x xs IH]; intros acc Hb; simpl.
  - apply ensures_ret.
  - apply ensures_bind; [apply Hb|]. intros b. by apply IH.
Qed.

Lemma ensures_gets {A} (f : world → A) : ensures R (gets f).
Proof using Type*. intros w. reflexivity. Qed.

End frames.


Global Instance same_store_po : PreOrder same_store.
Proof.
  split; [by split|]. intros w1 w2 w3 [H1 H2] [H3 H4]. split; congruence.
Qed.

Global Instance same_bucket_po : PreOrder same_bucket.
Proof.
  split; [intros w; by unfold same_bucket|].
  unfold same_bucket. intros w1 w2 w3. congruence.
Qed.

Global Instance same_object_po name : PreOrder (same_object name).
Proof.
  split; [intros w; by unfold same_object|].
  unfold same_object. intros w1 w2 w3. congruence.
Qed.

Global Instance no_object_lost_po : PreOrder no_object_lost.
Proof.
  split; [intros w; by unfold no_object_lost|].
  unfold no_object_lost. intros w1 w2 w3. auto.
Qed.

Global Instance stays_healthy_po : PreOrder stays_healthy.
Proof.
  split; [intros w; by unfold stays_healthy|].
  unfold stays_healthy. intros w1 w2 w3. auto.
Qed.

(** A step that is not made of other steps: run it. *)
Ltac frame_prim :=
  let w := fresh "w" in
  intros w; destruct w;
  unfold same_store, same_bucket, same_object, no_object_lost, stays_healthy,
    world_of,
    GCS.blob_exists, GCS.download_as_text, GCS.upload_from_string,
    GCS.list_blobs, GCS.upload_from_filename, GCS.download_to_filename,
    GCS.call,
    FS.exists_, FS.is_file, FS.rglob, FS.mkdir_parents, FS.read_bytes,
    FS.open_wb, FS.write_bytes, FS.remove, FS.copy2,
    GCSFileStorage.utcnow, GCSFileStorage.new_uuid, GCSFileStorage.loads,
    GCSFileStorage.setitem, GCSFileStorage.unpack_merge, py_get,
    Gateway.slice50, Gateway.call_agent,
    gets, modify, logger, raise, mbind, M_bind, mret, M_ret;
  simpl;
  repeat (case_match; simpl in *; simplify_eq);
  try done.

(** Splits a computation into its steps. *)
Ltac frame :=
  repeat first
    [ apply ensures_ret; apply _
    | apply ensures_raise; apply _
    | apply ensures_gets; apply _
    | apply ensures_bind; [apply _| |intros ?]
    | apply ensures_try; [apply _| |intros ?]
    | apply ensures_for_each; [apply _|intros ?]
    | apply ensures_for_fold; [apply _|intros ? ?]
    | match goal with
      | |- ensures _ (if ?c then _ else _) => destruct c
      | |- ensures _ (match ?x with _ => _ end) => destruct x
      end ].

Section storage_frames.
Context (E : env).

Lemma get_session_same_store key :
  ensures same_store (GCSFileStorage.get_session E key).
Proof.
  unfold GCSFileStorage.get_session. cbv zeta. frame; frame_prim.
Qed.

Lemma get_chat_history_same_store key limit :
  ensures same_store (GCSFileStorage.get_chat_history E key limit).
Proof.
  unfold GCSFileStorage.get_chat_history. cbv zeta. frame; frame_prim.
Qed.

Lemma get_agent_actions_same_store key t limit :
  ensures same_store (GCSFileStorage.get_agent_actions E key t limit).
Proof.
  unfold GCSFileStorage.get_agent_actions. cbv zeta. frame; frame_prim.
Qed.
End storage_frames.

Lemma replace_idem old new s :
  old ≠ new → Py.replace old new (Py.replace old new s) = Py.replace old new s.
Proof.
  intros Hne. induction s as [|c s IH]; [done|]. simpl. rewrite IH. f_equal.
  destruct (decide (c = old)) as [->|Hc].
  - by rewrite decide_False.
  - by rewrite decide_False.
Qed.

Lemma replace_no_old old new s :
  old ≠ new → has_char old (Py.replace old new s) = false.
Proof.
  intros Hne. induction s as [|c s IH]; [done|]. simpl. rewrite IH.
  destruct (decide (c = old)) as [->|Hc].
  - by rewrite bool_decide_eq_false_2.
  - by rewrite bool_decide_eq_false_2.
Qed.

Lemma replace_fixed old new s :
  Py.replace old new s = s ↔ has_char old s = false ∨ old = new.
Proof.
  induction s as [|c s IH]; simpl; [by split; [left|]|].
  destruct (decide (c = old)) as [->|Hc].
  - rewrite bool_decide_eq_true_2 by done. simpl. split.
    + intros [= <- _]. by right.
    + intros [?| ->]; [done|]. f_equal. apply IH. by right.
  - rewrite bool_decide_eq_false_2 by done. simpl. split.
    + intros [= H]. by apply IH.
    + intros H. f_equal. by apply IH.
Qed.

Lemma has_char_app c s t : has_char c (s +:+ t) = has_char c s || has_char c t.
Proof.
  induction s as [|a s IH]; [done|].
  rewrite str_app_cons. simpl. rewrite IH. by rewrite orb_assoc.
Qed.

(** X6. [_get_session_path] is not injective: a key and the key with its
    colons replaced by underscores have the same path, the path holds no
    colon, and the two keys differ exactly when the key has a colon.  So
    "telegram:42" and "telegram_42" share their record, their logs and
    their files. *)
Theorem session_path_is_not_injective key :
  GCSFileStorage._get_session_path (Py.replace ":" "_" key)
  = GCSFileStorage._get_session_path key
  ∧ has_char ":" (GCSFileStorage._get_session_path key) = false
  ∧ (Py.replace ":" "_" key = key ↔ has_char ":" key = false).
Proof.
  unfold GCSFileStorage._get_session_path. cbv zeta. split; [|split].
  - by rewrite replace_idem.
  - rewrite has_char_app, replace_no_old by done. reflexivity.
  - rewrite replace_fixed. split; [by intros [?|?]|by left].
Qed.

Example colliding_sessions :
  "telegram:42" ≠ "telegram_42"
  ∧ session_path "telegram:42" = session_path "telegram_42"
  ∧ chat_history_path "telegram:42" = chat_history_path "telegram_42".
Proof. done. Qed.

Section storage_edges.
Context (E : env).

(** X7. [get_session] fails soft: in every world it returns normally and
    leaves the bucket and the files as they were; what it returns is None
    unless the session object exists and parses to the value returned. *)
Theorem get_session_fails_soft key w :
  ∃ v w',
    GCSFileStorage.get_session E key w = (Ok v, w')
    ∧ bucket w' = bucket w ∧ fs w' = fs w
    ∧ (v ≠ JNull →
       ∃ content, bucket w !! session_path key = Some content
                  ∧ json_loads E content = Some v).
Proof.
  pose proof (get_session_same_store E key w) as [Hb Hf].
  unfold world_of in Hb, Hf.
  destruct (GCSFileStorage.get_session E key w) as [r w'] eqn:Hrun.
  simpl in Hb, Hf.
  revert Hrun. unfold GCSFileStorage.get_session. cbv zeta.
  fold (session_path key). unfold try_except.
  destruct ((GCS.blob_exists (session_path key) ≫= _) w) as [[v|e] w1] eqn:Hbody.
  - intros [= <- <-]. exists v, w1. repeat split; try done.
    intros Hv. apply bind_inv in Hbody as (ex & w2 & Hex & Hbody).
    destruct ex; simpl in Hbody; [|by injection Hbody as <- _].
    apply bind_inv in Hbody as (content & w3 & Hdl & Hbody).
    exists content. unfold GCSFileStorage.loads in Hbody.
    destruct (json_loads E content) as [v'|] eqn:Hl; [|done].
    injection Hbody as <- _. split; [|done].
    unfold GCS.download_as_text in Hdl.
    apply bind_inv in Hdl as ([] & w4 & Hc & Hdl).
    apply bind_inv in Hdl as (o & w5 & Hg & Hdl).
    injection Hg as <- <-. destruct (bucket w4 !! session_path key) as [c|] eqn:Hc4; [|done].
    injection Hdl as <- _.
    assert (bucket w4 = bucket w2) as Hb42.
    { revert Hc. unfold GCS.call. destruct (faults w2) as [|[]]; intros [= <-]; by destruct w2. }
    assert (bucket w2 = bucket w) as Hb2.
    { unfold GCS.blob_exists in Hex. apply bind_inv in Hex as ([] & w6 & Hc6 & Hex).
      injection Hex as _ <-. revert Hc6. unfold GCS.call.
      destruct (faults w) as [|[]]; intros [= <-]; by destruct w. }
    by rewrite <- Hb2, <- Hb42.
  - intros [= <- <-]. exists JNull. eexists. split; [reflexivity|].
    repeat split; done.
Qed.

(** X8. A transient read failure resets a session: when the one call that
    [get_session] makes inside [create_or_update_session] raises, the
    existing record is taken for absent, and a fresh record (created_at =
    updated_at = now, only the metadata of this call) overwrites it. *)
Theorem read_fault_resets_session key u e content w :
  faults w = [Some e] →
  bucket w !! session_path key = Some content →
  let fresh := upsert_spec key (utcnow_isoformat E (ticks w)) u None in
  GCSFileStorage.create_or_update_session E key (up_user_id u) (up_metadata u) w
  = (Ok (session_json fresh),
     set_log (log w ++ [(ERROR, "Error getting session");
                        (DEBUG, "Saved session to GCS")])
       (set_bucket
          (<[session_path key := json_dumps_indent E (session_json fresh)]>
             (bucket w))
          (set_faults [] (set_ticks (S (ticks w)) w)))).
Proof.
  intros Hf Hb fresh. destruct w as [b f fsys t n o l]. simpl in *. subst f.
  unfold GCSFileStorage.create_or_update_session, GCSFileStorage.get_session.
  cbv zeta. fold (session_path key). run_monad.
  cbn [truthy]. run_monad.
  rewrite <- app_assoc. reflexivity.
Qed.

(** X9. [create_or_update_session] is the one writer that raises: when it
    does, the bucket is as it was and the error was logged last. *)
Theorem failed_upsert_writes_nothing key user_id metadata w e w' :
  GCSFileStorage.create_or_update_session E key user_id metadata w
  = (Raise e, w') →
  bucket w' = bucket w
  ∧ last (log w') = Some (ERROR, "Error creating/updating session").
Proof.
  unfold GCSFileStorage.create_or_update_session, try_except.
  destruct ((GCSFileStorage.get_session E key ≫= _) w) as [[v|e0] w1] eqn:Hbody;
    [done|].
  unfold logger, raise. rewrite bind_run. intros [= <- <-].
  split; [|simpl; by rewrite last_snoc]. simpl.
  revert Hbody. rewrite bind_run.
  pose proof (get_session_same_store E key w) as [Hb _]. unfold world_of in Hb.
  destruct (GCSFileStorage.get_session E key w) as [[session|e1] w2];
    simpl in Hb; [|by intros [= _ <-]].
  rewrite bind_run. unfold GCSFileStorage.utcnow at 1. cbv beta iota.
  rewrite bind_run.
  set (w3 := set_ticks _ w2).
  assert (Hb3 : bucket w3 = bucket w) by done.
  clearbody w3.
  match goal with |- context [(if truthy session then ?a else ?b) w3] =>
    assert (Hstep : ensures eq (if truthy session then a else b))
      by (frame; frame_prim);
    specialize (Hstep w3); unfold world_of in Hstep;
    destruct ((if truthy session then a else b) w3) as [[s|e2] w4]
  end; simpl in Hstep; subst w4; [|by intros [= _ <-]].
  rewrite bind_run. unfold GCS.upload_from_string. rewrite bind_run.
  unfold GCS.call.
  destruct (faults w3) as [|[e3|] rest]; cbv beta iota;
    unfold modify, logger, mbind, M_bind, mret, M_ret; simpl; try done.
  intros [= _ <-]. by destruct w3.
Qed.

(** X10. The two log readers never raise and never touch the store: in
    every world, with every limit and every type filter, they return a
    list and leave the bucket and the files as they were. *)
Theorem readers_never_raise key limit action_type w :
  (∃ records w',
     GCSFileStorage.get_chat_history E key limit w = (Ok records, w')
     ∧ bucket w' = bucket w ∧ fs w' = fs w)
  ∧ (∃ records w',
       GCSFileStorage.get_agent_actions E key action_type limit w
       = (Ok records, w')
       ∧ bucket w' = bucket w ∧ fs w' = fs w).
Proof.
  split.
  - pose proof (get_chat_history_same_store E key limit w) as [Hb Hf].
    unfold world_of in Hb, Hf. revert Hb Hf.
    unfold GCSFileStorage.get_chat_history at 3. unfold try_except.
    destruct (GCSFileStorage.get_chat_history E key limit w) as [r w'] eqn:Hrun.
    revert Hrun. unfold GCSFileStorage.get_chat_history, try_except. cbv zeta.
    match goal with |- context [let (_, _) := ?b w in _] =>
      destruct (b w) as [[v|e] w1] end.
    + intros [= <- <-]. eauto.
    + unfold logger. rewrite bind_run. intros [= <- <-]. eauto.
  - pose proof (get_agent_actions_same_store E key action_type limit w) as [Hb Hf].
    unfold world_of in Hb, Hf. revert Hb Hf.
    destruct (GCSFileStorage.get_agent_actions E key action_type limit w)
      as [r w'] eqn:Hrun.
    revert Hrun. unfold GCSFileStorage.get_agent_actions, try_except. cbv zeta.
    match goal with |- context [let (_, _) := ?b w in _] =>
      destruct (b w) as [[v|e] w1] end.
    + intros [= <- <-]. eauto.
    + unfold logger. rewrite bind_run. intros [= <- <-]. eauto.
Qed.

(** X11. A negative limit is not refused: [get_chat_history] with
    limit = -k, k > 0, returns the records read without the k oldest ones
    (the slice [messages[k:]]). *)
Theorem negative_limit_drops_oldest key (k : Z) content w :
  faults w = [] →
  bucket w !! chat_history_path key = Some content →
  (0 < k)%Z →
  result_of (GCSFileStorage.get_chat_history E key (Some (- k)%Z) w)
  = Ok (drop (Z.to_nat k) (read_records E (lines_of content))).
Proof.
  intros Hf Hb Hk. rewrite (get_chat_history_result E key _ content) by done.
  f_equal. unfold GCSFileStorage.limited.
  destruct (Z.eqb_spec (- k) 0); [lia|].
  unfold Py.slice_from. rewrite decide_False by lia. f_equal. lia.
Qed.
End storage_edges.

Lemma read_fault_resets_session_witness :
  GCSFileStorage.create_or_update_session ref_env "telegram:42"
    (up_user_id {| up_user_id := "7"; up_metadata := None |})
    (up_metadata {| up_user_id := "7"; up_metadata := None |}) faulty_once
  = (Ok (session_json
           (upsert_spec "telegram:42"
              (utcnow_isoformat ref_env (ticks faulty_once))
              {| up_user_id := "7"; up_metadata := None |} None)),
     set_log (log faulty_once ++ [(ERROR, "Error getting session");
                                  (DEBUG, "Saved session to GCS")])
       (set_bucket
          (<[session_path "telegram:42" :=
               json_dumps_indent ref_env
                 (session_json
                    (upsert_spec "telegram:42"
                       (utcnow_isoformat ref_env (ticks faulty_once))
                       {| up_user_id := "7"; up_metadata := None |} None))]>
             (bucket faulty_once))
          (set_faults [] (set_ticks (S (ticks faulty_once)) faulty_once)))).
Proof.
  apply (read_fault_resets_session ref_env "telegram:42"
           {| up_user_id := "7"; up_metadata := None |} unavailable
           (json_dumps_indent ref_env (session_json session_after_three))
           faulty_once).
  - reflexivity.
  - vm_compute. reflexivity.
Defined.

Lemma failed_upsert_writes_nothing_witness :
  bucket (world_of (GCSFileStorage.create_or_update_session ref_env
                      "telegram:42" "7" None faulty_second))
  = bucket faulty_second
  ∧ last (log (world_of (GCSFileStorage.create_or_update_session ref_env
                           "telegram:42" "7" None faulty_second)))
    = Some (ERROR, "Error creating/updating session").
Proof.
  apply (failed_upsert_writes_nothing ref_env "telegram:42" "7" None
           faulty_second unavailable).
  vm_compute. reflexivity.
Defined.

Lemma negative_limit_drops_oldest_witness :
  result_of (GCSFileStorage.get_chat_history ref_env "telegram:42"
               (Some (- 1)%Z) world_three_messages)
  = Ok (drop (Z.to_nat 1)
          (read_records ref_env
             (lines_of (jsonl (json_dumps ref_env
                                 <$> docs_from ref_env 0 [hello; hi_there; bye]))))).
Proof.
  apply (negative_limit_drops_oldest ref_env "telegram:42" 1
           (jsonl (json_dumps ref_env <$> docs_from ref_env 0 [hello; hi_there; bye]))
           world_three_messages).
  - reflexivity.
  - vm_compute. reflexivity.
  - lia.
Defined.

(** The same read, run: the oldest of the three records is missing. *)
Example negative_limit_example :
  result_of (GCSFileStorage.get_chat_history ref_env "telegram:42"
               (Some (- 1)%Z) world_three_messages)
  = Ok (drop 1 (docs_from ref_env 0 [hello; hi_there; bye])).
Proof. vm_compute. reflexivity. Qed.

(** ** The action log *)

Section action_facts.
Context (E : env).

Lemma typed_readable_cons l lines :
  typed_readable E (l :: lines) = true →
  aborts_read E l = false ∧ not_a_record E l = false
  ∧ typed_readable E lines = true.
Proof.
  unfold typed_readable. cbn [forallb].
  intros [[H1 H2]%andb_prop Hr]%andb_prop.
  by destruct (aborts_read E l), (not_a_record E l).
Qed.

Lemma typed_readable_tail l lines :
  typed_readable E (l :: lines) = false →
  aborts_read E l = false → not_a_record E l = false →
  typed_readable E lines = false.
Proof.
  unfold typed_readable. cbn [forallb]. intros H Ha Hn.
  by rewrite Ha, Hn in H.
Qed.

Lemma typed_readable_app l1 l2 :
  typed_readable E (l1 ++ l2) = typed_readable E l1 && typed_readable E l2.
Proof. apply forallb_app. Qed.

Lemma filter_loop t lines : ∀ acc w,
  typed_readable E (filter (λ l, Py.strip l ≠ "") lines) = true →
  for_fold lines acc (action_filter_step E t) w
  = (Ok (acc ++ of_type t (parsed E (filter (λ l, Py.strip l ≠ "") lines))),
     set_log (log w ++ warnings E "Failed to parse agent action line"
                          (filter (λ l, Py.strip l ≠ "") lines)) w).
Proof.
  induction lines as [|l lines IH]; intros acc w Hd.
  - simpl. unfold mret, M_ret. rewrite !app_nil_r. by destruct w.
  - simpl. rewrite bind_run. unfold action_filter_step at 1.
    destruct (decide (Py.strip l = "")) as [Hb|Hb].
    + rewrite bool_decide_eq_true_2 by done.
      rewrite filter_cons_False in Hd by (by intros ?).
      rewrite filter_cons_False by (by intros ?). by apply IH.
    + rewrite bool_decide_eq_false_2 by done.
      rewrite filter_cons_True in Hd by done.
      apply typed_readable_cons in Hd as (Hl & Hn & Hd).
      rewrite filter_cons_True by done.
      unfold try_except, GCSFileStorage.loads. rewrite bind_run.
      unfold parsed, warnings, of_type. simpl.
      destruct (json_loads E l) as [v|] eqn:Hv; simpl.
      * assert (Hdict : is_dict v = true).
        { unfold not_a_record in Hn.
          rewrite Hv, bool_decide_eq_false_2 in Hn by done.
          by destruct (is_dict v). }
        destruct v; try done. simpl.
        unfold of_type, parsed in IH.
        destruct (GCSFileStorage.eq_str _ t) eqn:Ht.
        -- rewrite filter_cons_True by (simpl; by rewrite lookup_total_alt || done).
           rewrite IH by done. by rewrite <- app_assoc.
        -- rewrite filter_cons_False.
           ++ by rewrite IH.
           ++ simpl. intros Hx. congruence.
      * unfold raise. rewrite decide_True by (by apply not_aborting).
        simpl. rewrite IH by done. f_equal. destruct w; unfold set_log; simpl.
        by rewrite <- app_assoc.
Qed.

Lemma not_a_record_spec l :
  not_a_record E l = true ↔
  Py.strip l ≠ "" ∧ ∃ v, json_loads E l = Some v ∧ is_dict v = false.
Proof.
  unfold not_a_record. rewrite andb_true_iff, negb_true_iff, bool_decide_eq_false.
  destruct (json_loads E l) as [v|].
  - rewrite negb_true_iff. split; [intros [??]; eauto|].
    intros (? & v' & ? & ?). by simplify_eq.
  - split; [by intros [??]|]. by intros (? & v' & ? & ?).
Qed.

(** A line that is no record stops a read with a type filter. *)
Lemma not_a_record_stops lines :
  existsb (not_a_record E) lines = true → typed_readable E lines = false.
Proof.
  induction lines as [|l lines IH]; [done|]. unfold typed_readable in *.
  cbn [existsb forallb]. destruct (not_a_record E l); simpl.
  - intros _. by rewrite andb_false_r.
  - intros H. rewrite (IH H). by rewrite andb_false_r.
Qed.

(** A line that aborts the read, or one that is no record, stops the
    filtered loop with an exception: what [json.loads] raised, or the
    AttributeError of [action.get]. *)
Lemma filter_loop_abort t lines :
  typed_readable E (filter (λ l, Py.strip l ≠ "") lines) = false →
  ∀ acc w, ∃ e l',
    for_fold lines acc (action_filter_step E t) w = (Raise e, set_log l' w).
Proof.
  induction lines as [|l lines IH]; intros Hr acc w; [done|].
  simpl. rewrite bind_run. unfold action_filter_step at 1.
  destruct (decide (Py.strip l = "")) as [Hb|Hb].
  - rewrite bool_decide_eq_true_2 by done.
    rewrite filter_cons_False in Hr by (by intros ?). by apply IH.
  - rewrite bool_decide_eq_false_2 by done.
    rewrite filter_cons_True in Hr by done.
    unfold try_except, GCSFileStorage.loads. rewrite bind_run.
    destruct (json_loads E l) as [v|] eqn:Hv; simpl.
    + destruct (is_dict v) eqn:Hd.
      * destruct v; try done. simpl. apply IH.
        apply (typed_readable_tail l); [done|by eapply parses_readable|].
        unfold not_a_record. rewrite Hv. simpl. by rewrite andb_false_r.
      * exists (Exn AttributeError
                  ("'" +:+ type_name v +:+ "' object has no attribute 'get'")),
               (log w).
        destruct w. by destruct v.
    + unfold raise.
      destruct (decide (exn_cls (json_loads_error E l) = JSONDecodeError))
        as [Hc|Hc]; simpl.
      * destruct (IH) with (acc := acc)
          (w := set_log (log w ++ [(WARNING, "Failed to parse agent action line")]) w)
          as (e & l' & Hrun).
        { apply (typed_readable_tail l); [done| |].
          - unfold aborts_read. rewrite Hv. by rewrite bool_decide_eq_true_2.
          - unfold not_a_record. rewrite Hv. by rewrite andb_false_r. }
        exists e, l'. rewrite Hrun. by destruct w.
      * exists (json_loads_error E l), (log w). by destruct w.
Qed.

(** A read with a type filter, on a store that answers, of a log none of
    whose lines stops it. *)
Lemma get_typed_actions_run key t limit content w :
  faults w = [] → bucket w !! agent_actions_path key = Some content →
  typed_readable E (lines_of content) = true →
  GCSFileStorage.get_agent_actions E key (Some t) limit w
  = (Ok (GCSFileStorage.limited limit (of_type t (parsed E (lines_of content)))),
     set_log (log w ++ warnings E "Failed to parse agent action line"
                          (lines_of content)) w).
Proof.
  intros Hf Hb Hd. unfold GCSFileStorage.get_agent_actions, try_except. cbv zeta.
  fold (agent_actions_path key).
  rewrite bind_run, blob_exists_ok by done.
  rewrite Hb, bool_decide_eq_true_2 by eauto. cbn [negb].
  rewrite bind_run, (download_as_text_ok _ content) by done.
  rewrite bind_run.
  change (for_fold ?l [] _) with (for_fold l [] (action_filter_step E t)).
  rewrite filter_loop by done. reflexivity.
Qed.

(** The same read of a log with a line that stops it. *)
Lemma get_typed_actions_abort key t limit content w :
  faults w = [] → bucket w !! agent_actions_path key = Some content →
  typed_readable E (lines_of content) = false →
  ∃ l', GCSFileStorage.get_agent_actions E key (Some t) limit w
        = (Ok [], set_log (l' ++ [(ERROR, "Error getting agent actions")]) w).
Proof.
  intros Hf Hb Hex. unfold GCSFileStorage.get_agent_actions, try_except. cbv zeta.
  fold (agent_actions_path key).
  rewrite bind_run, blob_exists_ok by done.
  rewrite Hb, bool_decide_eq_true_2 by eauto. cbn [negb].
  rewrite bind_run, (download_as_text_ok _ content) by done.
  rewrite bind_run.
  change (for_fold ?l [] _) with (for_fold l [] (action_filter_step E t)).
  destruct (filter_loop_abort t (Py.split LF (Py.strip content)) Hex)
    with (acc := @nil json) (w := w) as (e & l' & Hrun).
  rewrite Hrun. exists l'. by destruct w.
Qed.

(** A read of the action log, on a store that answers, of a log none of
    whose lines stops it: the records the filter keeps, one warning for
    each line that does not parse. *)
Lemma get_actions_run key action_type limit content w :
  faults w = [] → bucket w !! agent_actions_path key = Some content →
  readable_for E action_type (lines_of content) = true →
  GCSFileStorage.get_agent_actions E key action_type limit w
  = (Ok (GCSFileStorage.limited limit
           (selected action_type (parsed E (lines_of content)))),
     set_log (log w ++ warnings E "Failed to parse agent action line"
                          (lines_of content)) w).
Proof.
  intros Hf Hb Hr. destruct action_type as [t|]; simpl in *.
  - by apply (get_typed_actions_run key t limit content).
  - by apply (get_agent_actions_run E key limit content).
Qed.

(** The same read of a log with a line that stops it: an error is logged
    and nothing is returned. *)
Lemma get_actions_abort key action_type limit content w :
  faults w = [] → bucket w !! agent_actions_path key = Some content →
  readable_for E action_type (lines_of content) = false →
  ∃ w', GCSFileStorage.get_agent_actions E key action_type limit w
        = (Ok [], w')
        ∧ last (log w') = Some (ERROR, "Error getting agent actions").
Proof.
  intros Hf Hb Hr. destruct action_type as [t|]; simpl in *.
  - destruct (get_typed_actions_abort key t limit content w) as (l' & ->);
      [done..|].
    eexists. split; [reflexivity|]. destruct w. simpl. apply last_snoc.
  - by apply (get_agent_actions_abort E key limit content).
Qed.

(** What a read of the action log returns, whatever the lines are. *)
Lemma get_actions_result key action_type limit content w :
  faults w = [] → bucket w !! agent_actions_path key = Some content →
  result_of (GCSFileStorage.get_agent_actions E key action_type limit w)
  = Ok (GCSFileStorage.limited limit
          (read_actions E action_type (lines_of content))).
Proof.
  intros Hf Hb. unfold read_actions.
  destruct (readable_for E action_type (lines_of content)) eqn:Hr.
  - by rewrite (get_actions_run key action_type limit content).
  - destruct (get_actions_abort key action_type limit content w)
      as (w' & -> & _); [done..|]. by rewrite limited_nil.
Qed.

(** One action append on a store that answers. *)
Lemma save_agent_action_run key a w :
  faults w = [] →
  GCSFileStorage.save_agent_action E key (ac_type a) (ac_data a) (ac_metadata a) w
  = (Ok (uuid4 E (uuids w)),
     set_log (log w ++ [(DEBUG, "Saved agent action")])
       (set_bucket
          (<[agent_actions_path key :=
               from_option id "" (bucket w !! agent_actions_path key)
               +:+ (json_dumps E (action_doc a (uuid4 E (uuids w))
                                     (utcnow_isoformat E (ticks w)))
                    +:+ NL)]>
             (bucket w))
          (set_ticks (S (ticks w)) (set_uuids (S (uuids w)) w)))).
Proof.
  intros Hf. destruct w as [b f fsys t u o l]. simpl in Hf. subst f.
  unfold GCSFileStorage.save_agent_action. cbv zeta.
  fold (agent_actions_path key). run_monad.
  destruct (b !! agent_actions_path key) as [old|] eqn:Hb.
  - rewrite bool_decide_eq_true_2 by eauto. run_monad.
    rewrite Hb. reflexivity.
  - rewrite bool_decide_eq_false_2 by (by intros [??]). reflexivity.
Qed.

Lemma action_docs_from_cons u t a acts :
  action_docs_from E u t (a :: acts)
  = action_doc a (uuid4 E u) (utcnow_isoformat E t)
    :: action_docs_from E (S u) (S t) acts.
Proof.
  unfold action_docs_from. rewrite imap_cons. f_equal; [by rewrite !Nat.add_0_r|].
  apply imap_ext. intros i x _. simpl. f_equal; f_equal; lia.
Qed.

(** A run of action appends on a store that answers: the ids are those
    drawn, the log grows by the lines of the records, in order, and
    nothing else in the bucket changes. *)
Lemma append_actions_run key acts : ∀ w pre ids,
  faults w = [] →
  from_option id "" (bucket w !! agent_actions_path key) = jsonl pre →
  ∃ w',
    for_fold acts ids (λ ids a,
      action_id ← GCSFileStorage.save_agent_action E key
                    (ac_type a) (ac_data a) (ac_metadata a);
      mret (ids ++ [action_id])) w
    = (Ok (ids ++ (uuid4 E <$> seq (uuids w) (length acts))), w') ∧
    faults w' = [] ∧
    (acts ≠ [] → bucket w' !! agent_actions_path key
     = Some (jsonl (pre ++ (json_dumps E <$>
                              action_docs_from E (uuids w) (ticks w) acts)))) ∧
    (acts = [] → w' = w) ∧
    (∀ name, name ≠ agent_actions_path key →
             bucket w' !! name = bucket w !! name).
Proof.
  induction acts as [|a acts IH]; intros w pre ids Hf Hb.
  - exists w. simpl. rewrite app_nil_r. by repeat split.
  - simpl for_fold.
    rewrite bind_run, bind_run, save_agent_action_run by done.
    set (w1 := set_log _ _).
    change ((mret (ids ++ [uuid4 E (uuids w)]) : M _) w1)
      with (Ok (ids ++ [uuid4 E (uuids w)]), w1).
    destruct (IH w1 (pre ++ [json_dumps E
                               (action_doc a (uuid4 E (uuids w))
                                  (utcnow_isoformat E (ticks w)))])
                (ids ++ [uuid4 E (uuids w)]))
      as (w' & Hrun & Hf' & Hb' & Hnil & Hoth).
    { done. }
    { subst w1. simpl. rewrite lookup_insert_eq. simpl.
      by rewrite Hb, jsonl_snoc. }
    exists w'. split; [|split; [done|split; [|split; [done|]]]].
    + rewrite Hrun. subst w1. simpl. by rewrite <- app_assoc.
    + intros _. rewrite action_docs_from_cons, fmap_cons.
      destruct (decide (acts = [])) as [->|Hne].
      * rewrite (Hnil eq_refl). subst w1. simpl. rewrite lookup_insert_eq.
        by rewrite Hb, jsonl_snoc.
      * rewrite Hb' by done. subst w1; simpl. by rewrite <- app_assoc.
    + intros name Hname. rewrite Hoth by done. subst w1; simpl.
      by rewrite lookup_insert_ne.
Qed.

Lemma has_type_action_doc t a i ts :
  has_type t (action_doc a i ts) = bool_decide (ac_type a = t).
Proof.
  unfold has_type, action_doc, dict_of. simpl.
  rewrite lookup_insert_ne by done. by rewrite lookup_insert_eq.
Qed.

Lemma action_docs_are_dicts u t acts :
  Forall (λ d, is_dict d = true) (action_docs_from E u t acts).
Proof.
  unfold action_docs_from. apply Forall_lookup. intros i d.
  rewrite list_lookup_imap. destruct (acts !! i); [|done].
  simpl. by intros [= <-].
Qed.

Lemma get_agent_actions_absent key action_type limit w :
  faults w = [] → bucket w !! agent_actions_path key = None →
  GCSFileStorage.get_agent_actions E key action_type limit w = (Ok [], w).
Proof.
  intros Hf Hb. unfold GCSFileStorage.get_agent_actions, try_except. cbv zeta.
  fold (agent_actions_path key).
  rewrite bind_run, blob_exists_ok by done.
  rewrite Hb, bool_decide_eq_false_2 by (by intros [??]). reflexivity.
Qed.

(** X12. Append-then-read round trip of the action log: on a store that
    answers, starting from a session without an action log, a run of
    [save_agent_action] calls with valid records returns the ids drawn, in
    order; reading with no type and no limit then returns exactly the
    records, in append order, and reading with the type [t] returns those
    of them whose action_type is [t], in append order. *)
Theorem action_log_roundtrip key acts w :
  faults w = [] →
  bucket w !! agent_actions_path key = None →
  Forall (valid_record E) (action_docs_from E (uuids w) (ticks w) acts) →
  ∃ w',
    append_actions E key acts w
      = (Ok (uuid4 E <$> seq (uuids w) (length acts)), w') ∧
    result_of (GCSFileStorage.get_agent_actions E key None None w')
      = Ok (action_docs_from E (uuids w) (ticks w) acts) ∧
    ∀ t, result_of (GCSFileStorage.get_agent_actions E key (Some t) None w')
         = Ok (of_type t (action_docs_from E (uuids w) (ticks w) acts)).
Proof.
  intros Hf Hb Hvalid.
  destruct (append_actions_run key acts w [] [])
    as (w' & Hrun & Hf' & Hb' & Hnil & _); [done|by rewrite Hb|].
  exists w'. split; [done|].
  destruct (decide (acts = [])) as [->|Hne].
  - rewrite (Hnil eq_refl). split; [|intros t];
      by rewrite get_agent_actions_absent.
  - specialize (Hb' Hne). simpl in Hb'.
    set (docs := action_docs_from E (uuids w) (ticks w) acts) in *.
    assert (Hlines : lines_of (jsonl (json_dumps E <$> docs))
                     = json_dumps E <$> docs).
    { apply lines_of_jsonl. apply Forall_fmap.
      eapply Forall_impl; [exact Hvalid|]. by intros d [? _]. }
    split; [|intros t].
    + rewrite (get_agent_actions_run _ _ _ _ _ Hf' Hb').
      * unfold result_of; simpl. by rewrite Hlines, parsed_dumps.
      * rewrite Hlines. by apply readable_dumps.
    + rewrite (get_typed_actions_run _ _ _ _ _ Hf' Hb').
      * unfold result_of; simpl. by rewrite Hlines, parsed_dumps.
      * rewrite Hlines. unfold typed_readable. apply forallb_forall.
        intros l [d [<- Hd%list_elem_of_In]]%in_map_iff.
        pose proof (proj1 (Forall_forall _ _) Hvalid d Hd) as [_ Hdd].
        rewrite (parses_readable _ _ _ Hdd). unfold not_a_record.
        rewrite Hdd.
        rewrite (proj1 (Forall_forall _ _)
                   (action_docs_are_dicts (uuids w) (ticks w) acts) d Hd).
        by rewrite andb_false_r.
Qed.

(** X13. One line that is valid JSON but no object empties every typed
    read: when the action log has such a line, [get_agent_actions] with a
    type returns the empty list for every type, an error logged and the
    bucket as it was (the AttributeError of [action.get] is not the
    JSONDecodeError the loop catches), while the read without a type
    returns the records it reads, that line's included. *)
Theorem non_record_line_empties_typed_read key t limit content w :
  faults w = [] →
  bucket w !! agent_actions_path key = Some content →
  existsb (not_a_record E) (lines_of content) = true →
  (∃ w', GCSFileStorage.get_agent_actions E key (Some t) limit w = (Ok [], w')
         ∧ bucket w' = bucket w
         ∧ last (log w') = Some (ERROR, "Error getting agent actions"))
  ∧ result_of (GCSFileStorage.get_agent_actions E key None limit w)
    = Ok (GCSFileStorage.limited limit (read_records E (lines_of content))).
Proof.
  intros Hf Hb Hex. split.
  - destruct (get_typed_actions_abort key t limit content w Hf Hb) as [l' Hrun].
    { by apply not_a_record_stops. }
    eexists. split; [exact Hrun|]. destruct w. simpl. split; [done|].
    by rewrite last_snoc.
  - by rewrite (get_agent_actions_result _ _ _ _ _ Hf Hb).
Qed.
End action_facts.

(** ** Reads of a log: the limit 0, and lines that do not parse *)

Section read_claims.
Context (E : env).

(** A line that [json.loads] refuses with a JSONDecodeError counts for
    nothing among the lines of a log. *)
Lemma skipped_line A B bad :
  json_loads E bad = None →
  exn_cls (json_loads_error E bad) = JSONDecodeError →
  let lines := A ++ filter (λ l, Py.strip l ≠ "") [bad] ++ B in
  parsed E lines = parsed E (A ++ B)
  ∧ readable E lines = readable E (A ++ B)
  ∧ typed_readable E lines = typed_readable E (A ++ B).
Proof.
  intros Hbad Hcls lines. subst lines.
  destruct (decide (Py.strip bad = "")) as [Hs|Hs].
  { by rewrite filter_cons_False by (by intros ?). }
  rewrite filter_cons_True by done. rewrite filter_nil.
  assert (Ha : aborts_read E bad = false).
  { unfold aborts_read. by rewrite Hbad, bool_decide_eq_true_2. }
  assert (Hn : not_a_record E bad = false).
  { unfold not_a_record. by rewrite Hbad, andb_false_r. }
  split; [|split].
  - unfold parsed. rewrite !omap_app. cbn [omap list_omap]. by rewrite Hbad.
  - rewrite !readable_app. unfold readable at 2. cbn [app forallb].
    by rewrite Ha.
  - rewrite !typed_readable_app. unfold typed_readable at 2. cbn [app forallb].
    by rewrite Ha, Hn.
Qed.

(** Such a line, put between two parts of a log, changes nothing in the
    records a read returns. *)
Lemma read_injected pre bad post :
  Py.strip pre ≠ "" → Py.strip post ≠ "" →
  has_char LF bad = false → json_loads E bad = None →
  exn_cls (json_loads_error E bad) = JSONDecodeError →
  read_records E (lines_of (pre +:+ NL +:+ bad +:+ NL +:+ post))
  = read_records E (lines_of (pre +:+ NL +:+ post))
  ∧ ∀ action_type,
      read_actions E action_type (lines_of (pre +:+ NL +:+ bad +:+ NL +:+ post))
      = read_actions E action_type (lines_of (pre +:+ NL +:+ post)).
Proof.
  intros Hpre Hpost Hlf Hbad Hcls.
  destruct (lines_of_injected pre bad post Hpre Hpost Hlf) as [-> ->].
  destruct (skipped_line
              (filter (λ l, Py.strip l ≠ "") (Py.split LF (Py.lstrip pre)))
              (filter (λ l, Py.strip l ≠ "") (Py.split LF (Py.rstrip post)))
              bad Hbad Hcls) as (Hp & Hr & Ht).
  split; [|intros [t|]]; unfold read_actions, read_records, readable_for.
  - by rewrite Hp, Hr.
  - by rewrite Hp, Ht.
  - by rewrite Hp, Hr.
Qed.

(** C9. A limit of 0 is read as no limit.  [get_chat_history] and
    [get_agent_actions] called with [limit = 0] do, in every world,
    exactly what they do with [limit = None]; and on a store that answers
    they return all the records read from the log (for the actions, all
    those the type filter keeps), in order, not the last 0 of them. *)
Theorem limit_zero_means_no_limit key w :
  (GCSFileStorage.get_chat_history E key (Some 0%Z) w
   = GCSFileStorage.get_chat_history E key None w
   ∧ ∀ action_type,
       GCSFileStorage.get_agent_actions E key action_type (Some 0%Z) w
       = GCSFileStorage.get_agent_actions E key action_type None w)
  ∧ (faults w = [] →
     (∀ content,
        bucket w !! chat_history_path key = Some content →
        result_of (GCSFileStorage.get_chat_history E key (Some 0%Z) w)
        = Ok (read_records E (lines_of content)))
     ∧ (∀ content action_type,
          bucket w !! agent_actions_path key = Some content →
          result_of
            (GCSFileStorage.get_agent_actions E key action_type (Some 0%Z) w)
          = Ok (read_actions E action_type (lines_of content)))).
Proof.
  split; [split; [|intros t]; reflexivity|].
  intros Hf. split.
  - intros content Hb.
    by rewrite (get_chat_history_result E key (Some 0%Z) content).
  - intros content action_type Hb.
    by rewrite (get_actions_result E key action_type (Some 0%Z) content).
Qed.

(** C4. Lines of a log that do not parse, on read.  On a store that
    answers, whatever the limit and the type filter: when every line that
    [json.loads] refuses is refused with a JSONDecodeError (and, under a
    type filter, every line that loads is an object), the read returns
    the parse of every line of the stripped content that is not blank and
    parses, in order, filtered and limited as asked, and logs one warning
    for each line that does not parse; and such a line, put between two
    parts of the log, changes nothing in the records returned.  A line on
    which [json.loads] raises anything else (a RecursionError, a
    ValueError) is not skipped: the read logs an error and returns the
    empty list, the valid records around the line lost. *)
Theorem malformed_lines_on_read key content limit w :
  faults w = [] →
  (bucket w !! chat_history_path key = Some content →
   (readable E (lines_of content) = true →
    GCSFileStorage.get_chat_history E key limit w
    = (Ok (GCSFileStorage.limited limit (parsed E (lines_of content))),
       set_log (log w ++ warnings E "Failed to parse chat history line"
                            (lines_of content)) w))
   ∧ (readable E (lines_of content) = false →
      ∃ w', GCSFileStorage.get_chat_history E key limit w = (Ok [], w')
            ∧ last (log w') = Some (ERROR, "Error getting chat history"))
   ∧ ∀ pre bad post,
       content = pre +:+ NL +:+ bad +:+ NL +:+ post →
       Py.strip pre ≠ "" → Py.strip post ≠ "" →
       has_char LF bad = false → json_loads E bad = None →
       exn_cls (json_loads_error E bad) = JSONDecodeError →
       result_of (GCSFileStorage.get_chat_history E key limit w)
       = result_of (GCSFileStorage.get_chat_history E key limit
           (set_bucket (<[chat_history_path key := pre +:+ NL +:+ post]>
                          (bucket w)) w)))
  ∧
  (bucket w !! agent_actions_path key = Some content →
   ∀ action_type,
   (readable_for E action_type (lines_of content) = true →
    GCSFileStorage.get_agent_actions E key action_type limit w
    = (Ok (GCSFileStorage.limited limit
             (selected action_type (parsed E (lines_of content)))),
       set_log (log w ++ warnings E "Failed to parse agent action line"
                            (lines_of content)) w))
   ∧ (readable_for E action_type (lines_of content) = false →
      ∃ w', GCSFileStorage.get_agent_actions E key action_type limit w
            = (Ok [], w')
            ∧ last (log w') = Some (ERROR, "Error getting agent actions"))
   ∧ ∀ pre bad post,
       content = pre +:+ NL +:+ bad +:+ NL +:+ post →
       Py.strip pre ≠ "" → Py.strip post ≠ "" →
       has_char LF bad = false → json_loads E bad = None →
       exn_cls (json_loads_error E bad) = JSONDecodeError →
       result_of (GCSFileStorage.get_agent_actions E key action_type limit w)
       = result_of (GCSFileStorage.get_agent_actions E key action_type limit
           (set_bucket (<[agent_actions_path key := pre +:+ NL +:+ post]>
                          (bucket w)) w))).
Proof.
  intros Hf. split.
  - intros Hb. split; [|split].
    + intros Hr. by apply (get_chat_history_run E key limit content).
    + intros Hr. by apply (get_chat_history_abort E key limit content).
    + intros pre bad post -> Hpre Hpost Hlf Hbad Hcls.
      rewrite (get_chat_history_result E key limit _ w Hf Hb).
      erewrite (get_chat_history_result E key limit);
        [|done|simpl; apply lookup_insert_eq].
      do 2 f_equal. by apply read_injected.
  - intros Hb action_type. split; [|split].
    + intros Hr. by apply (get_actions_run E key action_type limit content).
    + intros Hr. by apply (get_actions_abort E key action_type limit content).
    + intros pre bad post -> Hpre Hpost Hlf Hbad Hcls.
      rewrite (get_actions_result E key action_type limit _ w Hf Hb).
      erewrite (get_actions_result E key action_type limit);
        [|done|simpl; apply lookup_insert_eq].
      do 2 f_equal. by apply read_injected.
Qed.

End read_claims.

(** Three messages read back with the limit 0. *)
Lemma limit_zero_means_no_limit_witness :
  result_of (GCSFileStorage.get_chat_history ref_env "telegram:42" (Some 0%Z)
               world_three_messages)
  = Ok (read_records ref_env
          (lines_of (jsonl (json_dumps ref_env
                              <$> docs_from ref_env 0 [hello; hi_there; bye])))).
Proof.
  destruct (limit_zero_means_no_limit ref_env "telegram:42"
              world_three_messages) as [_ H].
  destruct (H eq_refl) as [Hchat _].
  apply Hchat. vm_compute. reflexivity.
Defined.

(** The same read, run: the three records come back, from the chat history
    and from an action log, with and without a type. *)
Example limit_zero_reads_everything :
  result_of (GCSFileStorage.get_chat_history ref_env "telegram:42" (Some 0%Z)
               world_three_messages)
  = Ok (docs_from ref_env 0 [hello; hi_there; bye])
  ∧ result_of (GCSFileStorage.get_agent_actions ref_env "telegram:42" None
                 (Some 0%Z)
                 (world_of (append_actions ref_env "telegram:42" three_actions
                              empty_world)))
    = Ok (action_docs_from ref_env 0 0 three_actions)
  ∧ result_of (GCSFileStorage.get_agent_actions ref_env "telegram:42"
                 (Some "file_operation") (Some 0%Z)
                 (world_of (append_actions ref_env "telegram:42" three_actions
                              empty_world)))
    = Ok (of_type "file_operation" (action_docs_from ref_env 0 0 three_actions)).
Proof. repeat split; vm_compute; reflexivity. Qed.

(** A log with a line of 1200 opening brackets, read through both
    readers. *)
Lemma malformed_lines_on_read_witness :
  (bucket world_with_deep_line !! chat_history_path "telegram:42"
   = Some log_with_deep_line →
   (readable ref_env (lines_of log_with_deep_line) = true →
    GCSFileStorage.get_chat_history ref_env "telegram:42" None
      world_with_deep_line
    = (Ok (GCSFileStorage.limited None
             (parsed ref_env (lines_of log_with_deep_line))),
       set_log (log world_with_deep_line
                ++ warnings ref_env "Failed to parse chat history line"
                     (lines_of log_with_deep_line)) world_with_deep_line))
   ∧ (readable ref_env (lines_of log_with_deep_line) = false →
      ∃ w', GCSFileStorage.get_chat_history ref_env "telegram:42" None
              world_with_deep_line = (Ok [], w')
            ∧ last (log w') = Some (ERROR, "Error getting chat history"))
   ∧ ∀ pre bad post,
       log_with_deep_line = pre +:+ NL +:+ bad +:+ NL +:+ post →
       Py.strip pre ≠ "" → Py.strip post ≠ "" →
       has_char LF bad = false → json_loads ref_env bad = None →
       exn_cls (json_loads_error ref_env bad) = JSONDecodeError →
       result_of (GCSFileStorage.get_chat_history ref_env "telegram:42" None
                    world_with_deep_line)
       = result_of (GCSFileStorage.get_chat_history ref_env "telegram:42" None
           (set_bucket (<[chat_history_path "telegram:42" :=
                            pre +:+ NL +:+ post]>
                          (bucket world_with_deep_line)) world_with_deep_line)))
  ∧
  (bucket world_with_deep_line !! agent_actions_path "telegram:42"
   = Some log_with_deep_line →
   ∀ action_type,
   (readable_for ref_env action_type (lines_of log_with_deep_line) = true →
    GCSFileStorage.get_agent_actions ref_env "telegram:42" action_type None
      world_with_deep_line
    = (Ok (GCSFileStorage.limited None
             (selected action_type
                (parsed ref_env (lines_of log_with_deep_line)))),
       set_log (log world_with_deep_line
                ++ warnings ref_env "Failed to parse agent action line"
                     (lines_of log_with_deep_line)) world_with_deep_line))
   ∧ (readable_for ref_env action_type (lines_of log_with_deep_line) = false →
      ∃ w', GCSFileStorage.get_agent_actions ref_env "telegram:42" action_type
              None world_with_deep_line = (Ok [], w')
            ∧ last (log w') = Some (ERROR, "Error getting agent actions"))
   ∧ ∀ pre bad post,
       log_with_deep_line = pre +:+ NL +:+ bad +:+ NL +:+ post →
       Py.strip pre ≠ "" → Py.strip post ≠ "" →
       has_char LF bad = false → json_loads ref_env bad = None →
       exn_cls (json_loads_error ref_env bad) = JSONDecodeError →
       result_of (GCSFileStorage.get_agent_actions ref_env "telegram:42"
                    action_type None world_with_deep_line)
       = result_of (GCSFileStorage.get_agent_actions ref_env "telegram:42"
           action_type None
           (set_bucket (<[agent_actions_path "telegram:42" :=
                            pre +:+ NL +:+ post]>
                          (bucket world_with_deep_line)) world_with_deep_line))).
Proof.
  apply (malformed_lines_on_read ref_env "telegram:42" log_with_deep_line None
           world_with_deep_line).
  reflexivity.
Defined.

(** A log with a line that is not JSON, run: the two records around the
    bad line come back and one warning is logged. *)
Example bad_line_is_skipped :
  GCSFileStorage.get_chat_history ref_env "telegram:42" None world_with_bad_line
  = (Ok [message_doc hello "t0"; message_doc hi_there "t1"],
     set_log [(WARNING, "Failed to parse chat history line")]
       world_with_bad_line)
  ∧ result_of (GCSFileStorage.get_chat_history ref_env "telegram:42" None
       (set_bucket {[ chat_history_path "telegram:42" := log_without_bad_line ]}
          empty_world))
    = Ok [message_doc hello "t0"; message_doc hi_there "t1"].
Proof. split; vm_compute; reflexivity. Qed.

(** The log with the line of 1200 opening brackets, run: [json.loads]
    raises a RecursionError on the line, the two records around it parse,
    and both readers log an error and return nothing. *)
Example deep_line_aborts_read :
  json_loads ref_env deep_line = None
  ∧ exn_cls (json_loads_error ref_env deep_line) = RecursionError
  ∧ parsed ref_env (lines_of log_with_deep_line)
    = [message_doc hello "t0"; message_doc hi_there "t1"]
  ∧ GCSFileStorage.get_chat_history ref_env "telegram:42" None
      world_with_deep_line
    = (Ok [], set_log [(ERROR, "Error getting chat history")]
                world_with_deep_line)
  ∧ GCSFileStorage.get_agent_actions ref_env "telegram:42" None None
      world_with_deep_line
    = (Ok [], set_log [(ERROR, "Error getting agent actions")]
                world_with_deep_line).
Proof. repeat split; vm_compute; reflexivity. Qed.

Lemma action_log_roundtrip_witness :
  ∃ w',
    append_actions ref_env "telegram:42" three_actions empty_world
      = (Ok (uuid4 ref_env <$> seq (uuids empty_world) (length three_actions)), w') ∧
    result_of (GCSFileStorage.get_agent_actions ref_env "telegram:42" None None w')
      = Ok (action_docs_from ref_env (uuids empty_world) (ticks empty_world)
              three_actions) ∧
    ∀ t, result_of (GCSFileStorage.get_agent_actions ref_env "telegram:42"
                      (Some t) None w')
         = Ok (of_type t (action_docs_from ref_env (uuids empty_world)
                            (ticks empty_world) three_actions)).
Proof.
  apply (action_log_roundtrip ref_env "telegram:42" three_actions empty_world).
  - reflexivity.
  - reflexivity.
  - repeat constructor; vm_compute; reflexivity.
Defined.

Lemma non_record_line_empties_typed_read_witness :
  (∃ w', GCSFileStorage.get_agent_actions ref_env "telegram:42" (Some "search")
           None world_with_number = (Ok [], w')
         ∧ bucket w' = bucket world_with_number
         ∧ last (log w') = Some (ERROR, "Error getting agent actions"))
  ∧ result_of (GCSFileStorage.get_agent_actions ref_env "telegram:42" None None
                 world_with_number)
    = Ok (GCSFileStorage.limited None
            (read_records ref_env (lines_of log_with_number))).
Proof.
  apply (non_record_line_empties_typed_read ref_env "telegram:42" "search" None
           log_with_number world_with_number).
  - reflexivity.
  - vm_compute. reflexivity.
  - vm_compute. reflexivity.
Defined.

(** The typed read of the three actions: the first and the third. *)
Example typed_read_of_three :
  result_of (GCSFileStorage.get_agent_actions ref_env "telegram:42"
               (Some "file_operation") None
               (world_of (append_actions ref_env "telegram:42" three_actions
                            empty_world)))
  = Ok [ action_doc {| ac_type := "file_operation";
                       ac_data := {[ "files_count" := JNum 1 ]};
                       ac_metadata := None |}
           (uuid4 ref_env 0) (utcnow_isoformat ref_env 0);
         action_doc {| ac_type := "file_operation";
                       ac_data := {[ "files_count" := JNum 2 ]};
                       ac_metadata := Some {[ "note" := JStr "second" ]} |}
           (uuid4 ref_env 2) (utcnow_isoformat ref_env 2) ].
Proof. vm_compute. reflexivity. Qed.

(** ** Files and the workspace sync *)

(** Runs the file operations and the client's calls. *)
Ltac run_all :=
  unfold GCSFileStorage.upload_file, GCSFileStorage.download_file,
    GCSFileStorage.list_files, GCSFileStorage.delete_file,
    GCS.blob_exists, GCS.download_as_text, GCS.upload_from_string,
    GCS.list_blobs, GCS.upload_from_filename, GCS.download_to_filename,
    GCS.delete, GCS.call,
    FS.exists_, FS.is_file, FS.rglob, FS.mkdir_parents, FS.read_bytes,
    FS.open_wb, FS.write_bytes, FS.remove,
    gets, modify, logger, raise, try_except, mbind, M_bind, mret, M_ret;
  cbn [faults bucket ticks log fs uuids outbox
       set_ticks set_bucket set_log set_faults set_fs set_uuids set_outbox
       fst snd result_of world_of negb].

Ltac proj_all :=
  cbn [faults bucket ticks log fs uuids outbox
       set_ticks set_bucket set_log set_faults set_fs set_uuids set_outbox
       fst snd result_of world_of negb] in *.

Section file_facts.
Context (E : env).

(** X14. [upload_file] stores or raises: in every world the local files
    stay as they are, and either it returns "gs://<bucket>/<remote_path>",
    the local path is a file and the bucket is the old one with the
    object [remote_path] holding that file's content, or it raises, the
    bucket is as it was and the error was logged last. *)
Theorem upload_file_stores_or_raises local_path remote_path w :
  fs (world_of (GCSFileStorage.upload_file E local_path remote_path w)) = fs w
  ∧ ((∃ data w',
        GCSFileStorage.upload_file E local_path remote_path w
        = (Ok ("gs://" +:+ bucket_name E +:+ "/" +:+ remote_path), w')
        ∧ FS.node_at (fs w) local_path = Some (File data)
        ∧ bucket w' = <[remote_path := data]> (bucket w))
     ∨ (∃ e w',
          GCSFileStorage.upload_file E local_path remote_path w = (Raise e, w')
          ∧ bucket w' = bucket w
          ∧ last (log w') = Some (ERROR, "Error uploading file to GCS"))).
Proof.
  destruct w as [b f fsys t u o l]. run_all.
  destruct (FS.node_at fsys local_path) as [[data|]|] eqn:Hn; run_all.
  - destruct f as [|[e|] f]; run_all.
    + split; [done|]. left. eauto 10.
    + split; [done|]. right. do 2 eexists. split; [done|]. split; [done|].
      simpl; by rewrite last_snoc.
    + split; [done|]. left. eauto 10.
  - split; [done|]. right. do 2 eexists. split; [done|]. split; [done|].
    simpl; by rewrite last_snoc.
  - split; [done|]. right. do 2 eexists. split; [done|]. split; [done|].
    simpl; by rewrite last_snoc.
Qed.

(** X15. [delete_file] never raises and touches one object at most: it
    leaves the local files and every other object as they were; when it
    returns True the object was there and is gone, and when it returns
    False the bucket is as it was. *)
Theorem delete_file_outcome remote_path w :
  ∃ ok w',
    GCSFileStorage.delete_file remote_path w = (Ok ok, w')
    ∧ fs w' = fs w
    ∧ (∀ name, name ≠ remote_path → bucket w' !! name = bucket w !! name)
    ∧ (ok = true → is_Some (bucket w !! remote_path)
                   ∧ bucket w' !! remote_path = None)
    ∧ (ok = false → bucket w' = bucket w).
Proof.
  assert (Hgone : ∀ (b : gmap string string) d,
            b !! remote_path = Some d →
            (∀ name, name ≠ remote_path →
                     base.delete remote_path b !! name = b !! name)
            ∧ (true = true → is_Some (b !! remote_path)
                             ∧ base.delete remote_path b !! remote_path = None)
            ∧ (true = false → base.delete remote_path b = b)).
  { intros b d Hb. split; [|split].
    - intros n Hn. by rewrite lookup_delete_ne.
    - intros _. split; [eauto|]. by rewrite lookup_delete_eq.
    - done. }
  destruct w as [b f fsys t u o l]. run_all.
  destruct (b !! remote_path) as [d|] eqn:Hb.
  - pose proof (Hgone b d Hb) as Hg. rewrite Hb in Hg.
    destruct f as [|[e|] [|[e'|] f]]; run_all;
      rewrite ?bool_decide_eq_true_2 by eauto; run_all; rewrite ?Hb; run_all;
      do 2 eexists; (split; [reflexivity|]); simpl;
      (split; [done|]); first [by repeat split | exact Hg].
  - destruct f as [|[e|] f]; run_all;
      rewrite ?Hb; rewrite ?bool_decide_eq_false_2 by (by intros [??]); run_all;
      do 2 eexists; (split; [reflexivity|]); simpl; by repeat split.
Qed.

(** What a download does. *)
Lemma download_file_runs remote_path local_path w :
  ∃ ok w',
    GCSFileStorage.download_file remote_path local_path w = (Ok ok, w')
    ∧ bucket w' = bucket w
    ∧ (ok = true → ∃ data, bucket w !! remote_path = Some data
                           ∧ fs w' !! local_path = Some (File data))
    ∧ (faults w = [] → bucket w !! remote_path = None →
       ok = false ∧ fs w' = fs w
       ∧ log w' = log w ++ [(WARNING, "File not found in GCS")]).
Proof.
  destruct w as [b f fsys t u o l]. run_all.
  destruct (b !! remote_path) as [d|] eqn:Hb.
  - destruct f as [|[e|] [|[e'|] f]]; run_all;
      rewrite ?bool_decide_eq_true_2 by eauto; run_all;
      repeat (case_match; run_all; proj_all; simplify_eq);
      proj_all; simplify_eq;
      do 2 eexists; (split; [reflexivity|]); simpl;
      (split; [done|]); (split; [|intros _ ?; congruence]);
      first [ done | intros _; eexists; split; [done|]; by rewrite lookup_insert_eq ].
  - destruct f as [|[e|] f]; run_all;
      rewrite ?Hb; rewrite ?bool_decide_eq_false_2 by (by intros [??]); run_all;
      do 2 eexists; (split; [reflexivity|]); simpl; by repeat split.
Qed.

(** X16. [download_file] never raises and never changes the bucket; when
    it returns True the object existed and the local path now is a file
    with the object's content; on a store that answers, an object that is
    not there gives False, a warning, and the local files as they were. *)
Theorem download_file_outcome remote_path local_path w :
  ∃ ok w',
    GCSFileStorage.download_file remote_path local_path w = (Ok ok, w')
    ∧ bucket w' = bucket w
    ∧ (ok = true → ∃ data, bucket w !! remote_path = Some data
                           ∧ fs w' !! local_path = Some (File data))
    ∧ (faults w = [] → bucket w !! remote_path = None →
       ok = false ∧ fs w' = fs w
       ∧ log w' = log w ++ [(WARNING, "File not found in GCS")]).
Proof. apply download_file_runs. Qed.

(** What a listing gives. *)
Lemma list_files_runs prefix w :
  ∃ names w',
    GCSFileStorage.list_files prefix w = (Ok names, w')
    ∧ bucket w' = bucket w ∧ fs w' = fs w
    ∧ (∀ name, name ∈ names →
               is_Some (bucket w !! name) ∧ Py.startswith prefix name = true)
    ∧ (faults w = [] →
       NoDup names
       ∧ ∀ name, is_Some (bucket w !! name) → Py.startswith prefix name = true →
                 name ∈ names).
Proof.
  assert (Hin : ∀ (b : gmap string string) name,
            name ∈ merge_sort String.le
                     (filter (λ n, Py.startswith prefix n = true)
                             (map_to_list b).*1)
            ↔ is_Some (b !! name) ∧ Py.startswith prefix name = true).
  { intros b name. rewrite merge_sort_Permutation, list_elem_of_filter.
    rewrite list_elem_of_fmap. split.
    - intros [Hp ([n v] & -> & Hv%elem_of_map_to_list)]. eauto.
    - intros [[v Hv] Hp]. split; [done|]. exists (name, v).
      split; [done|]. by apply elem_of_map_to_list. }
  assert (Hnd : ∀ (b : gmap string string),
            NoDup (merge_sort String.le
                     (filter (λ n, Py.startswith prefix n = true)
                             (map_to_list b).*1))).
  { intros b. rewrite merge_sort_Permutation. apply NoDup_filter.
    apply NoDup_fst_map_to_list. }
  destruct w as [b f fsys t u o l]. run_all.
  destruct f as [|[e|] f]; run_all;
    do 2 eexists; (split; [reflexivity|]); simpl; (do 2 (split; [done|])).
  - split; [by intros n ?%Hin|]. intros _. split; [apply Hnd|]. intros n ??.
    by apply Hin.
  - split; [|done]. by intros n ?%elem_of_nil.
  - split; [by intros n ?%Hin|]. done.
Qed.

(** X17. [list_files] never raises and changes neither the bucket nor the
    local files; every name it returns is an object whose name starts with
    the prefix; on a store that answers it returns every such object,
    once. *)
Theorem list_files_lists prefix w :
  ∃ names w',
    GCSFileStorage.list_files prefix w = (Ok names, w')
    ∧ bucket w' = bucket w ∧ fs w' = fs w
    ∧ (∀ name, name ∈ names →
               is_Some (bucket w !! name) ∧ Py.startswith prefix name = true)
    ∧ (faults w = [] →
       NoDup names
       ∧ ∀ name, is_Some (bucket w !! name) → Py.startswith prefix name = true →
                 name ∈ names).
Proof. apply list_files_runs. Qed.

End file_facts.

Global Instance same_files_po : PreOrder same_files.
Proof.
  unfold same_files. split; [by intros ?|]. intros x y z ??. congruence.
Qed.

Global Instance outside_po prefix : PreOrder (outside prefix).
Proof.
  unfold outside. split; [by intros ?|]. intros x y z H1 H2 n Hn.
  by rewrite H2, H1.
Qed.

Lemma startswith_app p s : Py.startswith p (p +:+ s) = true.
Proof.
  induction p as [|a p IH]; [done|]. rewrite str_app_cons. simpl.
  by rewrite bool_decide_eq_true_2, IH.
Qed.

(** Checks a frame of one file operation by running it. *)
Ltac frame_file :=
  let w := fresh "w" in
  intros w; destruct w;
  unfold same_files, outside, same_bucket, no_object_lost, world_of;
  run_all;
  repeat (case_match; run_all; proj_all; simplify_eq);
  proj_all; simplify_eq; try done.

Section sync_facts.
Context (E : env).

Lemma try_logger_ok (m : M unit) l msg w :
  ∃ w', try_except m (λ _, logger l msg) w = (Ok (), w').
Proof.
  unfold try_except, logger. destruct (m w) as [[[]|e] w1]; eauto.
Qed.

Lemma upload_file_same_files p r : ensures same_files (GCSFileStorage.upload_file E p r).
Proof. frame_file. Qed.

Lemma upload_file_additive p r : ensures no_object_lost (GCSFileStorage.upload_file E p r).
Proof.
  frame_file; intros name Hn;
    (destruct (decide (name = r)) as [->|?];
     [rewrite lookup_insert_eq; eauto|by rewrite lookup_insert_ne]).
Qed.

Lemma upload_file_outside prefix p s :
  ensures (outside prefix) (GCSFileStorage.upload_file E p (prefix +:+ s)).
Proof.
  frame_file; intros name Hn; rewrite lookup_insert_ne; try done;
    intros <-; by rewrite startswith_app in Hn.
Qed.

Lemma push_frame R `{!PreOrder R} ws key :
  (∀ p s, ensures R (GCSFileStorage.upload_file E p (files_prefix key +:+ s))) →
  (∀ l msg, ensures R (logger l msg)) →
  ensures R (GCSFileStorage.sync_workspace_to_gcs E ws key).
Proof.
  intros Hup Hlog. unfold GCSFileStorage.sync_workspace_to_gcs. cbv zeta.
  fold (files_prefix key).
  apply ensures_try; [apply _| |intros ?; apply Hlog].
  apply ensures_bind; [apply _|apply ensures_gets; apply _|intros ex].
  destruct (negb ex); [apply ensures_ret; apply _|].
  apply ensures_bind; [apply _|apply ensures_gets; apply _|intros files].
  apply ensures_bind; [apply _| |intros ?; apply Hlog].
  apply ensures_for_each; [apply _|intros p].
  apply ensures_bind; [apply _|apply ensures_gets; apply _|intros isf].
  destruct isf; [|apply ensures_ret; apply _].
  apply ensures_bind; [apply _|apply Hup|intros ?; apply ensures_ret; apply _].
Qed.

(** X18. [sync_workspace_to_gcs] never raises, whatever the store and the
    workspace are; it leaves the local files as they were, it removes no
    object from the bucket (a file deleted locally stays stored), and it
    leaves every object outside "<session path>/files/" as it was (the
    session record, the logs, other sessions). *)
Theorem push_is_additive_and_confined ws key w :
  ∃ w',
    GCSFileStorage.sync_workspace_to_gcs E ws key w = (Ok (), w')
    ∧ fs w' = fs w
    ∧ (∀ name, is_Some (bucket w !! name) → is_Some (bucket w' !! name))
    ∧ (∀ name, Py.startswith (files_prefix key) name = false →
               bucket w' !! name = bucket w !! name).
Proof.
  destruct (try_logger_ok
              (ex ← FS.exists_ ws;
               if negb ex then mret ()
               else
                 files ← FS.rglob ws;
                 for_each files (λ file_path,
                   is_file ← FS.is_file file_path;
                   if is_file : bool then
                     _ ← GCSFileStorage.upload_file E file_path
                           (files_prefix key
                            +:+ FS.path_str (drop (length ws) file_path));
                     mret ()
                   else mret ());;
                 logger INFO "Synced workspace to GCS")
              ERROR "Error syncing workspace to GCS" w) as [w' Hrun].
  change (GCSFileStorage.sync_workspace_to_gcs E ws key w = (Ok (), w')) in Hrun.
  exists w'. split; [done|].
  pose proof (push_frame same_files ws key
                (λ p s, upload_file_same_files p _) ltac:(intros; frame_file) w) as H1.
  pose proof (push_frame no_object_lost ws key
                (λ p s, upload_file_additive p _) ltac:(intros; frame_file) w) as H2.
  pose proof (push_frame (outside (files_prefix key)) ws key
                (λ p s, upload_file_outside _ p s) ltac:(intros; frame_file) w) as H3.
  unfold world_of in *. rewrite Hrun in *. by repeat split.
Qed.

Lemma download_file_same_bucket r p :
  ensures same_bucket (GCSFileStorage.download_file r p).
Proof.
  intros w. unfold same_bucket, world_of.
  by destruct (download_file_runs r p w) as (ok & w' & -> & Hb & _).
Qed.

Lemma list_files_same_store prefix :
  ensures same_store (GCSFileStorage.list_files prefix).
Proof.
  intros w. unfold same_store, world_of.
  by destruct (list_files_runs prefix w) as (ns & w' & -> & Hb & Hf & _).
Qed.

(** X19. [sync_gcs_to_workspace] never raises and never changes the
    bucket, whatever the store and the local files are. *)
Theorem pull_never_touches_bucket ws key w :
  ∃ w',
    GCSFileStorage.sync_gcs_to_workspace ws key w = (Ok (), w')
    ∧ bucket w' = bucket w.
Proof.
  destruct (try_logger_ok
              (files ← GCSFileStorage.list_files (files_prefix key);
               for_each files (λ remote_path,
                 _ ← GCSFileStorage.download_file remote_path
                       (FS.path_join ws
                          (Py.drop (String.length (files_prefix key)) remote_path));
                 mret ());;
               logger INFO "Synced GCS to workspace")
              ERROR "Error syncing GCS to workspace" w) as [w' Hrun].
  change (GCSFileStorage.sync_gcs_to_workspace ws key w = (Ok (), w')) in Hrun.
  exists w'. split; [done|].
  assert (ensures same_bucket (GCSFileStorage.sync_gcs_to_workspace ws key)) as H.
  { unfold GCSFileStorage.sync_gcs_to_workspace. cbv zeta.
    apply ensures_try; [apply _| |intros ?; frame_file].
    apply ensures_bind; [apply _| |intros files].
    { intros w0. by destruct (list_files_same_store (files_prefix key) w0). }
    apply ensures_bind; [apply _| |intros ?; frame_file].
    apply ensures_for_each; [apply _|intros r].
    apply ensures_bind; [apply _|apply download_file_same_bucket|].
    intros ?; apply ensures_ret; apply _. }
  specialize (H w). unfold world_of in H. by rewrite Hrun in H.
Qed.

End sync_facts.

(** ** Configuration and requests *)

Lemma getenv_set_truthy environ name s :
  Config.getenv_set environ name = Some s → truthy (JStr s) = true.
Proof.
  unfold Config.getenv_set. destruct (environ !! name) as [[|a s']|]; try done.
  by intros [= <-].
Qed.

Lemma lookup_dict key kvs :
  (list_to_map kvs : gmap string json) !! key = assoc key kvs.
Proof.
  induction kvs as [|[k v] kvs IH]; [done|]. simpl.
  destruct (String.eqb_spec key k) as [->|Hne].
  - by rewrite lookup_insert_eq.
  - by rewrite lookup_insert_ne.
Qed.

Lemma py_get_dict kvs key d w :
  py_get (dict_of kvs) key d w = (Ok (from_option id d (assoc key kvs)), w).
Proof. unfold py_get, dict_of. by rewrite lookup_dict. Qed.

(** Reads a key of a dictionary literal. *)
Ltac dict_get :=
  rewrite bind_run, py_get_dict;
  match goal with
  | |- context [assoc ?k ?l] =>
      let r := eval cbv [assoc String.eqb Ascii.eqb Bool.eqb] in (assoc k l) in
      change (assoc k l) with r
  end;
  cbn [from_option id].

(** The validation of a loaded configuration. *)
Lemma validate_loaded environ w :
  Config.validate_config (Config.load_config_from_env environ) environ w
  = (Ok (verdict environ), w).
Proof.
  unfold Config.validate_config, Config.load_config_from_env, verdict.
  cbv zeta.
  destruct (Config.getenv_set environ "NANOBOT_OPENROUTER_API_KEY")
    as [key|] eqn:Hkey.
  2:{ rewrite bool_decide_eq_true_2 by done. dict_get. cbn [truthy].
      rewrite bool_decide_eq_true_2 by done. cbn [negb]. reflexivity. }
  rewrite bool_decide_eq_false_2 by done.
  set (openrouter := match Config.getenv_set environ "NANOBOT_OPENROUTER_API_BASE" with
                     | Some _ => _ | None => _ end).
  set (tools := match Config.getenv_set environ "BRAVE_SEARCH_API_KEY" with
                | Some _ => _ | None => _ end).
  set (model := default _ _).
  dict_get.
  assert (Hp : truthy (JObj ({[ "openrouter" := JObj openrouter ]})) = true).
  { cbn [truthy]. rewrite bool_decide_eq_false_2; [done|]. apply insert_non_empty. }
  rewrite Hp. cbn [negb].
  dict_get.
  destruct (Config.getenv_set environ "TELEGRAM_BOT_TOKEN") as [token|] eqn:Htok.
  - rewrite bool_decide_eq_false_2 by done.
    dict_get. dict_get. dict_get. dict_get.
    cbn [truthy negb andb].
    unfold Config.telegram_requirements.
    rewrite bind_run. dict_get. dict_get.
    rewrite (getenv_set_truthy _ _ _ Htok). cbn [negb].
    dict_get.
    destruct (Config.allowed_users _) as [|u us] eqn:Hallow.
    + rewrite bool_decide_eq_true_2 by done. reflexivity.
    + rewrite bool_decide_eq_false_2 by done. cbn [fmap list_fmap truthy negb].
      rewrite bool_decide_eq_false_2 by done. cbn [negb].
      unfold mret, M_ret.
      destruct (Config.getenv_set environ "GCS_BUCKET_NAME") as [b|] eqn:Hb.
      * rewrite bool_decide_eq_false_2 by done. reflexivity.
      * rewrite bool_decide_eq_true_2 by done. reflexivity.
  - rewrite bool_decide_eq_true_2 by done.
    dict_get. dict_get. dict_get. dict_get. reflexivity.
Qed.

(** X20. What the validation says of the configuration loaded from the
    environment, for every environment: it never raises, and it fails
    with the first of these messages: no provider unless
    NANOBOT_OPENROUTER_API_KEY is set and not empty, no channel unless
    TELEGRAM_BOT_TOKEN is, TELEGRAM_ALLOWED_USERS required unless it has
    an entry that is not blank, GCS_BUCKET_NAME required unless it is set
    and not empty.  The message about a missing token of an enabled
    channel is never given. *)
Theorem loaded_config_verdict environ w :
  Config.validate_config (Config.load_config_from_env environ) environ w
  = (Ok (verdict environ), w).
Proof. apply validate_loaded. Qed.

Lemma status_of_response E code body :
  status_of (Handlers.response E code body) = Some code.
Proof.
  unfold status_of, Handlers.response, dict_of. by rewrite lookup_dict.
Qed.

Section requests.
Context (E : env) (environ : gmap string string).
Context (initialize : json → path → M ServerlessGateway).

(** X21. With the gateway at hand, the webhook request handler never
    raises, whatever the imports of nanobot would do.  The status is 200
    when [json.loads] loads the body, with the structured result of the
    gateway in the body, a failed run (ok = false) included; it is 400
    "Invalid JSON" when [json.loads] raises a JSONDecodeError; and it is
    500 "Internal server error" when [json.loads] raises anything else (a
    RecursionError on deep nesting, a ValueError on an integer literal
    with too many digits).  The gateway is not called in the last two
    cases. *)
Theorem warm_gateway_answers import_failure self body headers w :
  ∃ resp w',
    Handlers.handle_telegram_webhook_request E environ import_failure
      initialize (Some self) body headers w = (Ok resp, w')
    ∧ status_of resp
      = Some (match json_loads E body with
              | Some _ => 200
              | None =>
                  if decide (exn_cls (json_loads_error E body) = JSONDecodeError)
                  then 400 else 500
              end)%Z
    ∧ match json_loads E body with
      | Some update =>
          ∃ r, structured r
               ∧ resp = Handlers.response E 200 r
               ∧ Gateway.handle_telegram_webhook E self update w = (Ok r, w')
      | None =>
          if decide (exn_cls (json_loads_error E body) = JSONDecodeError)
          then
            resp = Handlers.response E 400
                     (dict_of [("ok", JBool false);
                               ("error", JStr "Invalid JSON")])
            ∧ w' = set_log (log w ++ [(ERROR, "Invalid JSON in request body")]) w
          else
            resp = Handlers.response E 500
                     (dict_of [("ok", JBool false);
                               ("error", JStr "Internal server error")])
            ∧ w' = set_log (log w ++ [(ERROR, "Error handling Telegram webhook")]) w
      end.
Proof.
  unfold Handlers.handle_telegram_webhook_request, try_except,
    GCSFileStorage.loads, Adapter.handle_telegram_update,
    Adapter.get_gateway_instance.
  rewrite bind_run.
  destruct (json_loads E body) as [update|] eqn:Hb.
  - rewrite bind_run. cbn [mret M_ret]. rewrite !bind_run.
    unfold mret at 1 2, M_ret at 1 2.
    destruct (handler_returns E self update w) as (r & w' & Hrun & Hr).
    rewrite Hrun. do 2 eexists. split; [done|].
    split; [apply status_of_response|]. eauto.
  - unfold raise. simpl.
    destruct (decide (exn_cls (json_loads_error E body) = JSONDecodeError));
      simpl; unfold logger; do 2 eexists; (split; [done|]);
      (split; [apply status_of_response|done]).
Qed.

Lemma get_gateway_instance_invalid msg w :
  verdict environ = (false, msg) →
  Adapter.get_gateway_instance E environ None initialize None w
  = (Raise (Exn ValueError
              ("Invalid configuration: " +:+ from_option id "None" msg)),
     set_log (log w ++ [(ERROR, "Failed to initialize gateway")]) w).
Proof.
  intros Hv. unfold Adapter.get_gateway_instance, try_except. cbv zeta.
  unfold Adapter.import_nanobot.
  rewrite !bind_run. cbn [mret M_ret].
  rewrite bind_run, validate_loaded, Hv. reflexivity.
Qed.

Lemma get_gateway_instance_unimportable e w :
  exn_cls e = ImportError →
  Adapter.get_gateway_instance E environ (Some e) initialize None w
  = (Raise (Exn RuntimeError
              ("nanobot-ai package not found or import failed. "
               +:+ "Error: " +:+ exn_str e
               +:+ ". Install it with: pip install nanobot-ai")),
     set_log (log w ++ [(ERROR, "Failed to import nanobot")]) w).
Proof.
  intros He. unfold Adapter.get_gateway_instance, try_except. cbv zeta.
  unfold Adapter.import_nanobot. rewrite !bind_run. unfold raise.
  by rewrite decide_True by done.
Qed.

(** X22. A cold start with a configuration the validation refuses.  When
    the imports of nanobot succeed, a request whose body is JSON is
    answered 500 "Internal server error" and the health check is answered
    503 with the status "unhealthy" and the validation's message.  When
    the imports raise an ImportError, the configuration is not looked at:
    the request is answered 500 as well, and the health check 503 with the
    status "unhealthy" and the message that the nanobot-ai package was not
    found, the ImportError's text in it.  In each case the world is left
    as it was, the log apart: nothing is initialized and no file is
    written. *)
Theorem invalid_configuration_answers msg update body headers w :
  verdict environ = (false, msg) →
  json_loads E body = Some update →
  (Handlers.handle_telegram_webhook_request E environ None initialize None
     body headers w
   = (Ok (Handlers.response E 500
            (dict_of [("ok", JBool false);
                      ("error", JStr "Internal server error")])),
      set_log (log w ++ [(ERROR, "Failed to initialize gateway");
                         (ERROR, "Error handling Telegram webhook")]) w)
   ∧ Handlers.handle_health_check_request E environ None initialize None w
     = (Ok (Handlers.response E 503
              (dict_of [("status", JStr "unhealthy");
                        ("error",
                         JStr ("Invalid configuration: "
                               +:+ from_option id "None" msg))])),
        set_log (log w ++ [(ERROR, "Failed to initialize gateway");
                           (ERROR, "Health check error")]) w))
  ∧ ∀ e, exn_cls e = ImportError →
      Handlers.handle_telegram_webhook_request E environ (Some e) initialize
        None body headers w
      = (Ok (Handlers.response E 500
               (dict_of [("ok", JBool false);
                         ("error", JStr "Internal server error")])),
         set_log (log w ++ [(ERROR, "Failed to import nanobot");
                            (ERROR, "Error handling Telegram webhook")]) w)
      ∧ Handlers.handle_health_check_request E environ (Some e) initialize
          None w
        = (Ok (Handlers.response E 503
                 (dict_of [("status", JStr "unhealthy");
                           ("error",
                            JStr ("nanobot-ai package not found or import failed. "
                                  +:+ "Error: " +:+ exn_str e
                                  +:+ ". Install it with: pip install nanobot-ai"))])),
           set_log (log w ++ [(ERROR, "Failed to import nanobot");
                              (ERROR, "Health check error")]) w).
Proof.
  intros Hv Hb. split; [split|intros e He; split].
  - unfold Handlers.handle_telegram_webhook_request, try_except,
      GCSFileStorage.loads, Adapter.handle_telegram_update.
    rewrite bind_run, Hb, bind_run. cbn [mret M_ret].
    rewrite !bind_run, (get_gateway_instance_invalid msg) by done.
    rewrite bind_run. unfold logger, set_log. destruct w. cbn -[dict_of].
    by rewrite <- app_assoc.
  - unfold Handlers.handle_health_check_request, Adapter.get_health_status,
      try_except.
    rewrite !bind_run, (get_gateway_instance_invalid msg) by done.
    rewrite bind_run. unfold logger. cbn [mret M_ret].
    rewrite bind_run, py_get_dict.
    unfold set_log. destruct w. cbn -[dict_of].
    by rewrite <- app_assoc.
  - unfold Handlers.handle_telegram_webhook_request, try_except,
      GCSFileStorage.loads, Adapter.handle_telegram_update.
    rewrite bind_run, Hb, bind_run. cbn [mret M_ret].
    rewrite !bind_run, (get_gateway_instance_unimportable e) by done.
    rewrite bind_run. unfold logger, set_log. destruct w. cbn -[dict_of].
    by rewrite <- app_assoc.
  - unfold Handlers.handle_health_check_request, Adapter.get_health_status,
      try_except.
    rewrite !bind_run, (get_gateway_instance_unimportable e) by done.
    rewrite bind_run. unfold logger. cbn [mret M_ret].
    rewrite bind_run, py_get_dict.
    unfold set_log. destruct w. cbn -[dict_of String.append].
    by rewrite <- app_assoc.
Qed.

(** X23. With the gateway at hand, the health check request is answered
    200 "healthy" exactly when the workspace path exists, and 503
    "degraded" otherwise; it leaves the world as it was and calls the
    store at no point, so a store that fails does not show. *)
Theorem health_request_reports_workspace import_failure self w :
  let present := bool_decide (is_Some (FS.node_at (fs w) (workspace self))) in
  Handlers.handle_health_check_request E environ import_failure initialize
    (Some self) w
  = (Ok (Handlers.response E (if present then 200 else 503)
           (dict_of [("status", JStr (if present then "healthy"
                                      else "degraded"));
                     ("checks",
                      dict_of [("bus", JBool true);
                               ("agent_loop", JBool true);
                               ("session_manager", JBool true);
                               ("config", JBool true);
                               ("workspace", JBool present);
                               ("storage_manager", JBool true);
                               ("gcs", JBool true)])])),
     w).
Proof.
  intros present.
  unfold Handlers.handle_health_check_request, Adapter.get_health_status,
    Adapter.get_gateway_instance, Adapter.health_check, try_except, FS.exists_,
    gets.
  rewrite !bind_run. cbn [mret M_ret]. rewrite !bind_run. fold present.
  cbn [mret M_ret]. rewrite bind_run, py_get_dict.
  destruct present; reflexivity.
Qed.

End requests.

Lemma invalid_configuration_answers_witness :
  (Handlers.handle_telegram_webhook_request ref_env open_environ None
     (λ _ _, mret blank_gateway) None "{}" ∅ empty_world
   = (Ok (Handlers.response ref_env 500
            (dict_of [("ok", JBool false);
                      ("error", JStr "Internal server error")])),
      set_log (log empty_world
               ++ [(ERROR, "Failed to initialize gateway");
                   (ERROR, "Error handling Telegram webhook")]) empty_world)
   ∧ Handlers.handle_health_check_request ref_env open_environ None
       (λ _ _, mret blank_gateway) None empty_world
     = (Ok (Handlers.response ref_env 503
              (dict_of [("status", JStr "unhealthy");
                        ("error",
                         JStr ("Invalid configuration: "
                               +:+ from_option id "None"
                                     (Some ("TELEGRAM_ALLOWED_USERS is required "
                                            +:+ "when Telegram is enabled"))))])),
        set_log (log empty_world
                 ++ [(ERROR, "Failed to initialize gateway");
                     (ERROR, "Health check error")]) empty_world))
  ∧ ∀ e, exn_cls e = ImportError →
      Handlers.handle_telegram_webhook_request ref_env open_environ (Some e)
        (λ _ _, mret blank_gateway) None "{}" ∅ empty_world
      = (Ok (Handlers.response ref_env 500
               (dict_of [("ok", JBool false);
                         ("error", JStr "Internal server error")])),
         set_log (log empty_world
                  ++ [(ERROR, "Failed to import nanobot");
                      (ERROR, "Error handling Telegram webhook")]) empty_world)
      ∧ Handlers.handle_health_check_request ref_env open_environ (Some e)
          (λ _ _, mret blank_gateway) None empty_world
        = (Ok (Handlers.response ref_env 503
                 (dict_of [("status", JStr "unhealthy");
                           ("error",
                            JStr ("nanobot-ai package not found or import failed. "
                                  +:+ "Error: " +:+ exn_str e
                                  +:+ ". Install it with: pip install nanobot-ai"))])),
           set_log (log empty_world
                    ++ [(ERROR, "Failed to import nanobot");
                        (ERROR, "Health check error")]) empty_world).
Proof.
  apply (invalid_configuration_answers ref_env open_environ
           (λ _ _, mret blank_gateway)
           (Some ("TELEGRAM_ALLOWED_USERS is required "
                  +:+ "when Telegram is enabled"))
           (JObj ∅) "{}" ∅ empty_world).
  - vm_compute. reflexivity.
  - vm_compute. reflexivity.
Defined.

(** The two failures of a cold start, run: the configuration without an
    allow-list, with nanobot importable and not. *)
Example cold_start_health_errors :
  result_of (Handlers.handle_health_check_request ref_env open_environ None
               (λ _ _, mret blank_gateway) None empty_world)
  = Ok (Handlers.response ref_env 503
          (dict_of [("status", JStr "unhealthy");
                    ("error",
                     JStr ("Invalid configuration: TELEGRAM_ALLOWED_USERS is "
                           +:+ "required when Telegram is enabled"))]))
  ∧ result_of (Handlers.handle_health_check_request ref_env open_environ
                 (Some (Exn ImportError "No module named 'nanobot'"))
                 (λ _ _, mret blank_gateway) None empty_world)
    = Ok (Handlers.response ref_env 503
            (dict_of [("status", JStr "unhealthy");
                      ("error",
                       JStr ("nanobot-ai package not found or import failed. "
                             +:+ "Error: No module named 'nanobot'. "
                             +:+ "Install it with: pip install nanobot-ai"))])).
Proof. split; vm_compute; reflexivity. Qed.

(** Bodies that [json.loads] refuses, sent to a gateway at hand: a text
    that is not JSON is answered 400, a run of 1200 opening brackets
    500. *)
Example refused_bodies :
  status_of_result
    (Handlers.handle_telegram_webhook_request ref_env good_environ None
       (λ _ _, mret blank_gateway) (Some blank_gateway) "{not json" ∅
       empty_world) = Some 400%Z
  ∧ status_of_result
      (Handlers.handle_telegram_webhook_request ref_env good_environ None
         (λ _ _, mret blank_gateway) (Some blank_gateway) deep_line ∅
         empty_world) = Some 500%Z.
Proof. split; vm_compute; reflexivity. Qed.

(** The allow-list of the example environment, and its verdict. *)
Example allowed_users_example :
  Config.allowed_users "7, 8 ,,9" = ["7"; "8"; "9"]
  ∧ verdict good_environ = (true, None).
Proof. split; vm_compute; reflexivity. Qed.

(** ** The chat history of a run *)

Global Instance keeps_po name : PreOrder (keeps name).
Proof.
  unfold keeps, stays_healthy, same_object. split.
  - by intros ?.
  - intros x y z [H1 H2] [H3 H4]. split; [tauto|]. by rewrite H4, H2.
Qed.

Lemma str_app_inj_l p a b : p +:+ a = p +:+ b → a = b.
Proof.
  induction p as [|c p IH]; [done|]. rewrite !str_app_cons.
  intros [= H]. by apply IH.
Qed.

Lemma session_ne_history key : session_path key ≠ chat_history_path key.
Proof. by intros H%str_app_inj_l. Qed.

Lemma actions_ne_history key : agent_actions_path key ≠ chat_history_path key.
Proof. by intros H%str_app_inj_l. Qed.

Lemma startswith_app_both p a b :
  Py.startswith (p +:+ a) (p +:+ b) = Py.startswith a b.
Proof.
  induction p as [|c p IH]; [done|]. rewrite !str_app_cons. simpl.
  by rewrite bool_decide_eq_true_2, IH.
Qed.

Lemma history_outside_files key :
  Py.startswith (files_prefix key) (chat_history_path key) = false.
Proof.
  unfold files_prefix, chat_history_path. by rewrite startswith_app_both.
Qed.

(** Checks that one step keeps the history. *)
Ltac keeps_prim :=
  let w := fresh "w" in
  intros w; destruct w;
  unfold keeps, stays_healthy, same_object, world_of,
    GCS.blob_exists, GCS.download_as_text, GCS.upload_from_string,
    GCS.list_blobs, GCS.upload_from_filename, GCS.download_to_filename,
    GCS.call,
    FS.exists_, FS.is_file, FS.rglob, FS.mkdir_parents, FS.read_bytes,
    FS.open_wb, FS.write_bytes, FS.remove, FS.copy2,
    GCSFileStorage.utcnow, GCSFileStorage.new_uuid, GCSFileStorage.loads,
    GCSFileStorage.setitem, GCSFileStorage.unpack_merge, py_get,
    Gateway.slice50, Gateway.call_agent,
    gets, modify, logger, raise, mbind, M_bind, mret, M_ret;
  simpl;
  repeat (case_match; simpl in *; simplify_eq);
  try done;
  try (split; [done|]);
  try (rewrite lookup_insert_ne by
         first [apply session_ne_history | apply actions_ne_history]);
  try done.

Section history.
Context (E : env) (self : ServerlessGateway).

Lemma get_session_keeps key name :
  ensures (keeps name) (GCSFileStorage.get_session E key).
Proof. unfold GCSFileStorage.get_session. cbv zeta. frame; keeps_prim. Qed.

Lemma create_keeps key user_id metadata :
  ensures (keeps (chat_history_path key))
          (GCSFileStorage.create_or_update_session E key user_id metadata).
Proof.
  unfold GCSFileStorage.create_or_update_session. cbv zeta.
  fold (session_path key).
  apply ensures_try; [apply _| |intros ?; frame; keeps_prim].
  apply ensures_bind; [apply _|apply get_session_keeps|intros ?].
  frame; keeps_prim.
Qed.

Lemma get_chat_history_keeps key limit name :
  ensures (keeps name) (GCSFileStorage.get_chat_history E key limit).
Proof. unfold GCSFileStorage.get_chat_history. cbv zeta. frame; keeps_prim. Qed.

Lemma download_file_keeps r p name :
  ensures (keeps name) (GCSFileStorage.download_file r p).
Proof. unfold GCSFileStorage.download_file. frame; keeps_prim. Qed.

Lemma pull_keeps ws key name :
  ensures (keeps name) (GCSFileStorage.sync_gcs_to_workspace ws key).
Proof.
  unfold GCSFileStorage.sync_gcs_to_workspace, GCSFileStorage.list_files.
  cbv zeta.
  apply ensures_try; [apply _| |intros ?; frame; keeps_prim].
  apply ensures_bind; [apply _| frame; keeps_prim |intros files].
  apply ensures_bind; [apply _| |intros ?; frame; keeps_prim].
  apply ensures_for_each; [apply _|intros r].
  apply ensures_bind; [apply _|apply download_file_keeps|].
  intros ?; apply ensures_ret; apply _.
Qed.

Lemma copy_files_keeps files src dst name :
  ensures (keeps name) (Gateway.copy_files files src dst).
Proof. unfold Gateway.copy_files. frame; keeps_prim. Qed.

Lemma files_ne_history key s : files_prefix key +:+ s ≠ chat_history_path key.
Proof.
  intros H. pose proof (history_outside_files key) as Ho.
  by rewrite <- H, startswith_app in Ho.
Qed.

Lemma upload_file_keeps key p s :
  ensures (keeps (chat_history_path key))
          (GCSFileStorage.upload_file E p (files_prefix key +:+ s)).
Proof.
  unfold GCSFileStorage.upload_file. cbv zeta. frame; keeps_prim;
    by rewrite lookup_insert_ne by apply files_ne_history.
Qed.

Lemma save_agent_action_keeps key ty data metadata :
  ensures (keeps (chat_history_path key))
          (GCSFileStorage.save_agent_action E key ty data metadata).
Proof.
  unfold GCSFileStorage.save_agent_action. cbv zeta.
  fold (agent_actions_path key). frame; keeps_prim.
Qed.

Lemma ran {A} R (m : M A) w a w' :
  ensures R m → m w = (Ok a, w') → R w w'.
Proof. intros H Hr. specialize (H w). unfold world_of in H. by rewrite Hr in H. Qed.

(** The chat history object after Synced-In and after Synced-Out, for a
    run that got through both and the agent call on a store that
    answers. *)
Lemma history_of_a_run i t response w w2 w3 w4 :
  faults w = [] →
  synced_in E self i w = (Ok t, w2) →
  invoked self t w2 = (Ok response, w3) →
  synced_out E self t response w3 = (Ok (), w4) →
  let hist := chat_history_path ("telegram:" +:+ in_chat_id i) in
  let old := default "" (bucket w !! hist) in
  ∃ user_record,
    (∃ mid ts tmid,
       user_record
       = message_doc {| cm_id := mid; cm_role := "user";
                        cm_content := in_text i;
                        cm_metadata :=
                          Some {[ "telegram_message_id" := tmid ]} |} ts)
    ∧ bucket w2 !! hist = Some (old +:+ (json_dumps E user_record +:+ NL))
    ∧ if Gateway.reply_truthy response
      then ∃ mid ts,
             bucket w4 !! hist
             = Some ((old +:+ (json_dumps E user_record +:+ NL))
                     +:+ (json_dumps E
                            (message_doc
                               {| cm_id := mid; cm_role := "assistant";
                                  cm_content := JStr (default "" response);
                                  cm_metadata := None |} ts)
                          +:+ NL))
      else bucket w4 !! hist = bucket w2 !! hist.
Proof.
  intros Hf Hin Hinv Hout hist old.
  pose proof (synced_in_turn E self _ _ _ _ Hin) as Ht.
  set (key := "telegram:" +:+ in_chat_id i) in *.
  unfold synced_in in Hin. cbv zeta in Hin. fold key in Hin.
  apply bind_inv in Hin as (session & wa & H1 & Hin).
  apply (ran (keeps hist)) in H1; [|apply get_session_keeps].
  apply bind_inv in Hin as (? & wb & H2 & Hin).
  apply (ran (keeps hist)) in H2.
  2:{ destruct (negb (truthy session)); [|apply ensures_ret; apply _].
      apply ensures_bind; [apply _|keeps_prim|intros ?].
      apply ensures_bind; [apply _|apply create_keeps|intros ?].
      apply ensures_ret; apply _. }
  apply bind_inv in Hin as (? & wc & H3 & Hin).
  apply (ran (keeps hist)) in H3; [|keeps_prim].
  apply bind_inv in Hin as (? & wd & H4 & Hin).
  apply (ran (keeps hist)) in H4; [|apply pull_keeps].
  apply bind_inv in Hin as (chat_history & we & H5 & Hin).
  apply (ran (keeps hist)) in H5; [|apply get_chat_history_keeps].
  apply bind_inv in Hin as (? & wf & H6 & Hin).
  apply (ran (keeps hist)) in H6; [|keeps_prim].
  apply bind_inv in Hin as (? & wg & H7 & Hin).
  apply (ran (keeps hist)) in H7.
  2:{ apply ensures_bind; [apply _|keeps_prim|intros [|]].
      - apply ensures_bind; [apply _|keeps_prim|intros ?].
        apply copy_files_keeps.
      - apply ensures_ret; apply _. }
  apply bind_inv in Hin as (mid & wh & H8 & Hin).
  apply (ran (keeps hist)) in H8; [|keeps_prim].
  apply bind_inv in Hin as (tmid & wi & H9 & Hin).
  apply (ran (keeps hist)) in H9; [|keeps_prim].
  assert (Hk : keeps hist w wi).
  { repeat (etrans; [eassumption|]). reflexivity. }
  destruct Hk as [Hh Ho]. specialize (Hh Hf). unfold same_object in Ho.
  apply bind_inv in Hin as ([] & wj & H10 & Hin).
  unfold PersistentStorageManager.save_chat_message in H10.
  pose proof (save_chat_message_run E key
                {| cm_id := mid; cm_role := "user"; cm_content := in_text i;
                   cm_metadata := Some {[ "telegram_message_id" := tmid ]} |}
                wi Hh) as Hsave.
  cbn [cm_id cm_role cm_content cm_metadata] in Hsave.
  rewrite Hsave in H10. injection H10 as <-.
  apply bind_inv in Hin as (? & wk & H11 & Hin).
  apply (ran (keeps hist)) in H11.
  2:{ destruct (bool_decide _); [apply ensures_ret; apply _|keeps_prim]. }
  injection Hin as _ <-.
  destruct H11 as [Hh11 Ho11]. unfold same_object in Ho11.
  eexists. split; [eauto|].
  assert (Hw2 : bucket wk !! hist
                = Some (old +:+ (json_dumps E
                                   (message_doc
                                      {| cm_id := mid; cm_role := "user";
                                         cm_content := in_text i;
                                         cm_metadata :=
                                           Some {[ "telegram_message_id" := tmid ]} |}
                                      (utcnow_isoformat E (ticks wi)))
                                 +:+ NL))).
  { rewrite Ho11. simpl. rewrite lookup_insert_eq. fold hist. by rewrite Ho. }
  split; [exact Hw2|].
  assert (Hfk : faults wk = []) by (apply Hh11; by destruct wi).
  clear Hsave Ho11 Hh11 H1 H2 H3 H4 H5 H6 H7 H8 H9.
  subst t. unfold invoked, Gateway.call_agent in Hinv.
  cbn [turn_text turn_session_key] in Hinv.
  destruct (process_direct _ _ _ _) as [r f'] in Hinv. injection Hinv as -> <-.
  unfold synced_out in Hout. cbv zeta in Hout.
  cbn [turn_session_key turn_workspace] in Hout. fold key in Hout.
  apply bind_inv in Hout as ([] & wl & Ha & Hout).
  apply (ran (keeps hist)) in Hout as [_ Hrest].
  2:{ apply ensures_bind; [apply _|keeps_prim|intros ?].
      apply ensures_bind; [apply _|apply copy_files_keeps|intros ?].
      apply ensures_bind; [apply _| |intros ?].
      { apply push_frame; [apply _|intros; apply upload_file_keeps|].
        intros; keeps_prim. }
      apply ensures_bind; [apply _|keeps_prim|intros [|]];
        [|apply ensures_ret; apply _].
      apply ensures_bind; [apply _|keeps_prim|intros ?].
      apply ensures_bind; [apply _|keeps_prim|intros ?].
      destruct (bool_decide _); [apply ensures_ret; apply _|].
      apply ensures_bind; [apply _|apply save_agent_action_keeps|intros ?].
      apply ensures_ret; apply _. }
  unfold same_object in Hrest. rewrite Hrest.
  destruct (Gateway.reply_truthy response).
  - apply bind_inv in Ha as (mid' & wu & Hu & Ha).
    unfold GCSFileStorage.new_uuid in Hu. injection Hu as <- <-.
    unfold PersistentStorageManager.save_chat_message in Ha.
    pose proof (save_chat_message_run E key
                  {| cm_id := uuid4 E (uuids wk);
                     cm_role := "assistant";
                     cm_content := JStr (default "" response);
                     cm_metadata := None |}
                  (set_uuids (S (uuids wk)) (set_fs f' wk))) as Hsave.
    cbn [cm_id cm_role cm_content cm_metadata] in Hsave.
    rewrite Hsave in Ha by (by destruct wk). injection Ha as <-.
    do 2 eexists. simpl. rewrite lookup_insert_eq. fold hist.
    by rewrite Hw2.
  - injection Ha as <-. by destruct wk.
Qed.

(** X24. The chat history of a run that got through Synced-In, Invoked
    and Synced-Out on a store that answers: after Synced-In the history
    object is the old text followed by the line of one user record with
    the text of the message; after Synced-Out it is that, followed by the
    line of one assistant record exactly when the agent's reply is a
    string that is not empty, and the content of that record is the
    agent's reply itself.  So the fallback message is never stored, and a
    reply of white space is stored although the fallback message is what
    is sent. *)
Theorem history_after_a_run i t response w w2 w3 w4 :
  faults w = [] →
  synced_in E self i w = (Ok t, w2) →
  invoked self t w2 = (Ok response, w3) →
  synced_out E self t response w3 = (Ok (), w4) →
  let hist := chat_history_path ("telegram:" +:+ in_chat_id i) in
  let old := default "" (bucket w !! hist) in
  ∃ user_record,
    (∃ mid ts tmid,
       user_record
       = message_doc {| cm_id := mid; cm_role := "user";
                        cm_content := in_text i;
                        cm_metadata :=
                          Some {[ "telegram_message_id" := tmid ]} |} ts)
    ∧ bucket w2 !! hist = Some (old +:+ (json_dumps E user_record +:+ NL))
    ∧ if Gateway.reply_truthy response
      then ∃ mid ts,
             bucket w4 !! hist
             = Some ((old +:+ (json_dumps E user_record +:+ NL))
                     +:+ (json_dumps E
                            (message_doc
                               {| cm_id := mid; cm_role := "assistant";
                                  cm_content := JStr (default "" response);
                                  cm_metadata := None |} ts)
                          +:+ NL))
      else bucket w4 !! hist = bucket w2 !! hist.
Proof. exact (history_of_a_run i t response w w2 w3 w4). Qed.

(** C10. The fallback message is never stored.  For a run that got through
    Synced-In, Invoked and Synced-Out on a store that answers, what the
    run appends to the chat history is the line of one user record with
    the text of the message, followed by the line of one assistant record
    exactly when the agent returned a string that is not empty, and the
    content of that record is the string the agent returned, white space
    included: the fallback substitution comes after the append and
    changes nothing of it.  A run whose agent returns nothing or the
    empty string appends the user record only. *)
Theorem fallback_is_never_stored i t response w w2 w3 w4 :
  faults w = [] →
  synced_in E self i w = (Ok t, w2) →
  invoked self t w2 = (Ok response, w3) →
  synced_out E self t response w3 = (Ok (), w4) →
  let hist := chat_history_path ("telegram:" +:+ in_chat_id i) in
  let old := default "" (bucket w !! hist) in
  ∃ user_line,
    (∃ mid ts tmid,
       user_line
       = json_dumps E
           (message_doc {| cm_id := mid; cm_role := "user";
                           cm_content := in_text i;
                           cm_metadata :=
                             Some {[ "telegram_message_id" := tmid ]} |} ts)
         +:+ NL)
    ∧ (∀ reply, response = Some reply → reply ≠ "" →
       ∃ mid ts,
         bucket w4 !! hist
         = Some ((old +:+ user_line)
                 +:+ (json_dumps E
                        (message_doc {| cm_id := mid; cm_role := "assistant";
                                        cm_content := JStr reply;
                                        cm_metadata := None |} ts)
                      +:+ NL)))
    ∧ (response = None ∨ response = Some "" →
       bucket w4 !! hist = Some (old +:+ user_line)).
Proof.
  intros Hf Hin Hinv Hout hist old.
  destruct (history_of_a_run i t response w w2 w3 w4 Hf Hin Hinv Hout)
    as (user_record & (mid & ts & tmid & ->) & H2 & H4).
  fold hist in H2, H4. fold old in H2, H4.
  eexists. split; [by eexists _, _, _|]. split.
  - intros reply -> Hne. cbn [Gateway.reply_truthy] in H4.
    rewrite bool_decide_eq_false_2 in H4 by done. exact H4.
  - intros [->| ->]; cbn [Gateway.reply_truthy] in H4;
      rewrite ?bool_decide_eq_true_2 in H4 by done; cbn [negb] in H4;
      by rewrite H4, H2.
Qed.

End history.

Lemma history_after_a_run_witness :
  ∃ user_record,
    (∃ mid ts tmid,
       user_record
       = message_doc {| cm_id := mid; cm_role := "user";
                        cm_content := in_text inbound_hello;
                        cm_metadata :=
                          Some {[ "telegram_message_id" := tmid ]} |} ts)
    ∧ bucket hello_w2
        !! chat_history_path ("telegram:" +:+ in_chat_id inbound_hello)
      = Some (default ""
                (bucket hello_w1
                   !! chat_history_path
                        ("telegram:" +:+ in_chat_id inbound_hello))
              +:+ (json_dumps ref_env user_record +:+ NL))
    ∧ if Gateway.reply_truthy (Some "  ")
      then ∃ mid ts,
             bucket hello_w4
               !! chat_history_path ("telegram:" +:+ in_chat_id inbound_hello)
             = Some ((default ""
                        (bucket hello_w1
                           !! chat_history_path
                                ("telegram:" +:+ in_chat_id inbound_hello))
                      +:+ (json_dumps ref_env user_record +:+ NL))
                     +:+ (json_dumps ref_env
                            (message_doc
                               {| cm_id := mid; cm_role := "assistant";
                                  cm_content := JStr (default "" (Some "  "));
                                  cm_metadata := None |} ts)
                          +:+ NL))
      else bucket hello_w4
             !! chat_history_path ("telegram:" +:+ in_chat_id inbound_hello)
           = bucket hello_w2
               !! chat_history_path ("telegram:" +:+ in_chat_id inbound_hello).
Proof.
  apply (history_after_a_run ref_env blank_gateway inbound_hello turn_hello
           (Some "  ") hello_w1 hello_w2 hello_w3 hello_w4).
  - reflexivity.
  - vm_compute. reflexivity.
  - vm_compute. reflexivity.
  - vm_compute. reflexivity.
Defined.

(** The history of the scenario: the reply of white space is there. *)
Example blank_reply_is_stored :
  role_and_content
    <$> parsed ref_env
          (lines_of (default "" (bucket hello_w4
                                   !! chat_history_path "telegram:42")))
  = [(Some (JStr "user"), Some (JStr "hello"));
     (Some (JStr "assistant"), Some (JStr "  "))].
Proof. vm_compute. reflexivity. Qed.

(** The scenario with an agent whose reply is white space. *)
Lemma fallback_is_never_stored_witness :
  ∃ user_line,
    (∃ mid ts tmid,
       user_line
       = json_dumps ref_env
           (message_doc {| cm_id := mid; cm_role := "user";
                           cm_content := in_text inbound_hello;
                           cm_metadata :=
                             Some {[ "telegram_message_id" := tmid ]} |} ts)
         +:+ NL)
    ∧ (∀ reply, Some "  " = Some reply → reply ≠ "" →
       ∃ mid ts,
         bucket hello_w4
           !! chat_history_path ("telegram:" +:+ in_chat_id inbound_hello)
         = Some ((default ""
                    (bucket hello_w1
                       !! chat_history_path
                            ("telegram:" +:+ in_chat_id inbound_hello))
                  +:+ user_line)
                 +:+ (json_dumps ref_env
                        (message_doc {| cm_id := mid; cm_role := "assistant";
                                        cm_content := JStr reply;
                                        cm_metadata := None |} ts)
                      +:+ NL)))
    ∧ (Some "  " = None ∨ Some "  " = Some "" →
       bucket hello_w4
         !! chat_history_path ("telegram:" +:+ in_chat_id inbound_hello)
       = Some (default ""
                 (bucket hello_w1
                    !! chat_history_path
                         ("telegram:" +:+ in_chat_id inbound_hello))
               +:+ user_line)).
Proof.
  apply (fallback_is_never_stored ref_env blank_gateway inbound_hello
           turn_hello (Some "  ") hello_w1 hello_w2 hello_w3 hello_w4).
  - reflexivity.
  - vm_compute. reflexivity.
  - vm_compute. reflexivity.
  - vm_compute. reflexivity.
Defined.

(** The histories the scenario leaves, run with an agent that returns the
    empty string, nothing, white space and a text: the fallback message,
    which is the response the first three times, is in none of them. *)
Example histories_of_runs :
  (role_and_content
     <$> parsed ref_env
           (lines_of
              (default ""
                 (bucket (world_of (Gateway.handle_telegram_webhook ref_env
                                      (gateway_with (Some "") (Some ["7"]))
                                      update_hello empty_world))
                    !! chat_history_path "telegram:42"))))
  = [(Some (JStr "user"), Some (JStr "hello"))]
  ∧ (role_and_content
       <$> parsed ref_env
             (lines_of
                (default ""
                   (bucket (world_of (Gateway.handle_telegram_webhook ref_env
                                        (gateway_with None (Some ["7"]))
                                        update_hello empty_world))
                      !! chat_history_path "telegram:42"))))
    = [(Some (JStr "user"), Some (JStr "hello"))]
  ∧ (role_and_content
       <$> parsed ref_env
             (lines_of
                (default ""
                   (bucket (world_of (Gateway.handle_telegram_webhook ref_env
                                        blank_gateway update_hello empty_world))
                      !! chat_history_path "telegram:42"))))
    = [(Some (JStr "user"), Some (JStr "hello"));
       (Some (JStr "assistant"), Some (JStr "  "))]
  ∧ (role_and_content
       <$> parsed ref_env
             (lines_of
                (default ""
                   (bucket (world_of (Gateway.handle_telegram_webhook ref_env
                                        (gateway_with (Some "hi there")
                                           (Some ["7"]))
                                        update_hello empty_world))
                      !! chat_history_path "telegram:42"))))
    = [(Some (JStr "user"), Some (JStr "hello"));
       (Some (JStr "assistant"), Some (JStr "hi there"))].
Proof. repeat split; vm_compute; reflexivity. Qed.

(** ** Push and pull of a workspace *)

Section paths.

Lemma join_cons sep p q ps :
  Py.join sep (p :: q :: ps) = p +:+ sep +:+ Py.join sep (q :: ps).
Proof. reflexivity. Qed.

Lemma split_join_sep c ls :
  ls ≠ [] → Forall (λ l, has_char c l = false) ls →
  Py.split c (Py.join (String c "") ls) = ls.
Proof.
  induction ls as [|l ls IH]; [done|]. intros _ Hall.
  apply Forall_cons in Hall as [Hl Hall].
  destruct ls as [|l' ls].
  - simpl. by apply split_no_sep.
  - rewrite join_cons. rewrite str_app_cons, str_app_nil_l.
    rewrite split_app_sep, split_no_sep by done.
    by rewrite IH.
Qed.

Lemma startswith_no_char c s t :
  s ≠ "" → has_char c s = false → Py.startswith (String c "") (s +:+ t) = false.
Proof.
  destruct s as [|a s]; [done|]. intros _. rewrite str_app_cons.
  cbn [has_char Py.startswith].
  intros [Ha _]%orb_false_elim. apply bool_decide_eq_false in Ha.
  rewrite bool_decide_eq_false_2; [done|]. by intros ->.
Qed.

Lemma simple_component_spec c :
  simple_component c = true ↔ c ≠ "" ∧ c ≠ "." ∧ has_char "/" c = false.
Proof.
  unfold simple_component.
  rewrite !andb_true_iff, !negb_true_iff, !bool_decide_eq_false. tauto.
Qed.

Lemma join_head sep p ps : ∃ t, Py.join sep (p :: ps) = p +:+ t.
Proof.
  destruct ps as [|q ps]; [exists ""; simpl; by rewrite str_app_nil_r|].
  rewrite join_cons. eauto.
Qed.

(** Joining the components of a relative path and joining the text to a
    base gives the path below the base. *)
Lemma path_join_str ws rel :
  rel ≠ [] → Forall (λ c, simple_component c = true) rel →
  FS.path_join ws (FS.path_str rel) = ws ++ rel.
Proof.
  intros Hne Hs. unfold FS.path_join, FS.path_str. cbv zeta.
  assert (Hno : Forall (λ l, has_char "/" l = false) rel).
  { eapply Forall_impl; [exact Hs|]. by intros c (_ & _ & ?)%simple_component_spec. }
  rewrite split_join_sep by done.
  rewrite filter_all.
  2:{ eapply Forall_impl; [exact Hs|].
      intros c (? & ? & _)%simple_component_spec. done. }
  destruct rel as [|c rel]; [done|].
  apply Forall_cons in Hs as [(Hc & _ & Hsl)%simple_component_spec _].
  destruct (join_head "/" c rel) as [t ->].
  by rewrite startswith_no_char.
Qed.

Lemma str_drop_app p s : Py.drop (String.length p) (p +:+ s) = s.
Proof. induction p as [|a p IH]; [by destruct s|]. done. Qed.

End paths.

Section mkdir.

Lemma prefix_snoc_inv {A} (pre : list A) c rest q :
  pre `prefix_of` q → q `prefix_of` pre ++ c :: rest → q ≠ pre →
  (pre ++ [c]) `prefix_of` q.
Proof.
  intros [k ->] [k' Hk'] Hne.
  destruct k as [|a k]; [by rewrite app_nil_r in Hne|].
  rewrite <- app_assoc in Hk'. apply app_inv_head in Hk'.
  simpl in Hk'. injection Hk' as -> _.
  exists k. by rewrite <- app_assoc.
Qed.

Lemma mkdir_go_spec rest : ∀ pre f,
  (∀ q d, pre `prefix_of` q → q `prefix_of` pre ++ rest → q ≠ pre →
          f !! q ≠ Some (File d)) →
  ∃ f1, FS.mkdir_go pre rest f = Some f1
        ∧ (∀ q, pre `prefix_of` q → q `prefix_of` pre ++ rest → q ≠ pre →
                f1 !! q = Some Dir)
        ∧ (∀ q, ¬ (pre `prefix_of` q ∧ q `prefix_of` pre ++ rest ∧ q ≠ pre) →
                f1 !! q = f !! q).
Proof.
  induction rest as [|c rest IH]; intros pre f Hok.
  - exists f. split; [done|]. split; [|done].
    intros q Hp Hq Hne. rewrite app_nil_r in Hq.
    destruct Hne. by apply (anti_symm prefix).
  - simpl.
    assert (Hq0 : pre `prefix_of` pre ++ [c]
                  ∧ pre ++ [c] `prefix_of` pre ++ c :: rest
                  ∧ pre ++ [c] ≠ pre).
    { split; [by apply prefix_app_r|]. split.
      - exists rest. by rewrite <- app_assoc.
      - intros H. apply (f_equal length) in H. rewrite length_app in H.
        simpl in H. lia. }
    destruct Hq0 as (Hq1 & Hq2 & Hq3).
    assert (Hcase : FS.mkdir_go pre (c :: rest) f
                    = FS.mkdir_go (pre ++ [c]) rest (<[pre ++ [c] := Dir]> f)).
    { simpl. destruct (f !! (pre ++ [c])) as [[d|]|] eqn:Hf; try done.
      by destruct (Hok (pre ++ [c]) d). }
    simpl in Hcase. rewrite Hcase.
    destruct (IH (pre ++ [c]) (<[pre ++ [c] := Dir]> f)) as (f1 & Hrun & Hd & Ho).
    { intros q d Hp Hq Hne. rewrite lookup_insert_ne by done.
      apply Hok.
      - by etrans.
      - by rewrite <- app_assoc in Hq.
      - intros ->. apply Hq3. by apply (anti_symm prefix). }
    exists f1. split; [done|]. split.
    + intros q Hp Hq Hne.
      destruct (decide (q = pre ++ [c])) as [->|Hne'].
      * rewrite Ho by tauto. by rewrite lookup_insert_eq.
      * apply Hd; [|by rewrite <- app_assoc|done].
        by eapply prefix_snoc_inv.
    + intros q Hq. rewrite Ho.
      * rewrite lookup_insert_ne; [done|]. intros <-. tauto.
      * intros (Hp1 & Hp2 & Hp3). apply Hq. split; [by etrans|].
        split; [by rewrite <- app_assoc in Hp2|].
        intros ->. apply Hq3. by apply (anti_symm prefix).
Qed.

End mkdir.

Section pull.
Context (ws : path) (key : string) (Rel : path → string → Prop).
Hypothesis Rel_simple : ∀ rel d,
  Rel rel d → rel ≠ [] ∧ Forall (λ c, simple_component c = true) rel.
Hypothesis Rel_tree : ∀ rel rel' d d',
  Rel rel d → Rel rel' d' → rel `prefix_of` rel' → rel = rel'.
Hypothesis Rel_fun : ∀ rel d d', Rel rel d → Rel rel d' → d = d'.

Lemma removelast_prefix {A} (l : list A) : removelast l `prefix_of` l.
Proof.
  induction l as [|a [|b l] IH]; simpl; [done|by exists [a]|].
  by apply prefix_cons.
Qed.

Lemma removelast_length {A} (l : list A) :
  l ≠ [] → S (length (removelast l)) = length l.
Proof.
  induction l as [|a [|b l] IH]; simpl; [done|done|].
  intros _. f_equal. by apply IH.
Qed.

Lemma removelast_app_ne {A} (l k : list A) :
  k ≠ [] → removelast (l ++ k) = l ++ removelast k.
Proof. intros. by apply removelast_app. Qed.

Lemma prefix_app_inv {A} (l k1 k2 : list A) :
  l ++ k1 `prefix_of` l ++ k2 → k1 `prefix_of` k2.
Proof. intros [x Hx]. exists x. rewrite <- app_assoc in Hx. by apply app_inv_head in Hx. Qed.

Lemma download_restores rel d done w :
  faults w = [] → Rel rel d → bucket w !! remote_name key rel = Some d →
  restored ws Rel done (fs w) →
  ∃ w', GCSFileStorage.download_file (remote_name key rel) (ws ++ rel) w
        = (Ok true, w')
        ∧ faults w' = [] ∧ bucket w' = bucket w
        ∧ restored ws Rel (rel :: done) (fs w').
Proof using Type*.
  intros Hf HR Hb (HA & HB & HB2 & HC).
  destruct (Rel_simple _ _ HR) as [Hne Hsimple].
  destruct w as [b fl f t u o l]. simpl in *. subst fl.
  assert (Hparent : FS.parent (ws ++ rel) = ws ++ removelast rel).
  { unfold FS.parent. by apply removelast_app. }
  assert (Hnotpre : ∀ rel', Rel rel' d → False → True) by done.
  destruct (mkdir_go_spec (ws ++ removelast rel) [] f) as (f1 & Hmk & Hd & Ho).
  { intros q d0 _ Hq Hq0. simpl in Hq.
    destruct (prefix_weak_total q ws (ws ++ removelast rel)) as [Hqw|Hwq];
      [done|by apply prefix_app_r| |].
    - by apply HB2.
    - intros Hfile. destruct (HB q d0 Hwq Hfile) as (rel' & Hin & ->).
      destruct (HA rel' Hin) as (d' & HR' & _).
      apply prefix_app_inv in Hq.
      assert (rel' = rel) as ->.
      { eapply Rel_tree; [done..|]. etrans; [done|apply removelast_prefix]. }
      apply prefix_length in Hq. pose proof (removelast_length rel Hne). lia. }
  simpl in Hd, Ho.
  run_all. rewrite bool_decide_eq_true_2 by eauto. run_all.
  rewrite Hparent, Hmk. run_all.
  assert (Hlocal_ne : ws ++ rel ≠ []).
  { intros [_ ?]%app_eq_nil. done. }
  assert (Hlocal_out : ¬ ([] `prefix_of` ws ++ rel
                          ∧ ws ++ rel `prefix_of` ws ++ removelast rel
                          ∧ ws ++ rel ≠ [])).
  { intros (_ & Hp%prefix_app_inv & _). apply prefix_length in Hp.
    pose proof (removelast_length rel Hne). lia. }
  assert (Hpar : FS.node_at f1 (ws ++ removelast rel) = Some Dir).
  { unfold FS.node_at. destruct (ws ++ removelast rel) as [|c q] eqn:Hq; [done|].
    apply Hd; [apply prefix_nil|done|done]. }
  assert (Hloc : FS.node_at f1 (ws ++ rel) = f !! (ws ++ rel)).
  { unfold FS.node_at. destruct (ws ++ rel) as [|c q] eqn:Hq; [done|].
    by apply Ho. }
  assert (Hnodir : f !! (ws ++ rel) ≠ Some Dir).
  { intros Hdir. destruct (HC (ws ++ rel)) as (rel' & Hin & Hp & Hnq).
    - by apply prefix_app_r.
    - intros H. apply (f_equal length) in H. rewrite length_app in H.
      destruct rel; [done|simpl in H; lia].
    - done.
    - destruct (HA rel' Hin) as (d' & HR' & _).
      apply prefix_app_inv in Hp.
      apply Hnq. f_equal. by eapply Rel_tree. }
  rewrite Hpar, Hloc.
  assert (Hopen : ∀ (X : res () * world) (Y : res () * world),
            match f !! (ws ++ rel) with
            | Some Dir => X
            | _ => Y
            end = Y).
  { intros X Y. by destruct (f !! (ws ++ rel)) as [[?|]|]. }
  rewrite Hopen. run_all. rewrite Hb. run_all.
  eexists. split; [reflexivity|]. split; [done|]. split; [done|].
  simpl. rewrite insert_insert_eq.
  assert (Hkeep : ∀ rel', rel' ∈ done →
            f1 !! (ws ++ rel') = f !! (ws ++ rel')).
  { intros rel' Hin. apply Ho. intros (_ & Hp%prefix_app_inv & _).
    destruct (HA rel' Hin) as (d' & HR' & _).
    assert (rel' = rel) as ->.
    { eapply Rel_tree; [done..|]. etrans; [done|apply removelast_prefix]. }
    apply prefix_length in Hp. pose proof (removelast_length rel Hne). lia. }
  split; [|split; [|split]].
  - intros rel' [->|Hin]%elem_of_cons.
    + exists d. by rewrite lookup_insert_eq.
    + destruct (HA rel' Hin) as (d' & HR' & Hl).
      destruct (decide (rel' = rel)) as [->|Hnr].
      * exists d. by rewrite lookup_insert_eq.
      * exists d'. split; [done|].
        rewrite lookup_insert_ne by (by intros ?%app_inv_head).
        by rewrite Hkeep.
  - intros q d0 Hwq Hq.
    destruct (decide (q = ws ++ rel)) as [->|Hnq].
    + exists rel. split; [apply elem_of_cons; by left|done].
    + rewrite lookup_insert_ne in Hq by done.
      destruct (decide ([] `prefix_of` q ∧ q `prefix_of` ws ++ removelast rel
                        ∧ q ≠ [])) as [(H1 & H2 & H3)|Hout].
      * by rewrite Hd in Hq.
      * rewrite Ho in Hq by done.
        destruct (HB q d0 Hwq Hq) as (rel' & Hin & ->).
        exists rel'. split; [apply elem_of_cons; by right|done].
  - intros q d0 Hqw Hq.
    assert (q ≠ ws ++ rel).
    { intros ->. apply prefix_length in Hqw. rewrite length_app in Hqw.
      destruct rel; [done|simpl in Hqw; lia]. }
    rewrite lookup_insert_ne in Hq by done.
    destruct (decide ([] `prefix_of` q ∧ q `prefix_of` ws ++ removelast rel
                      ∧ q ≠ [])) as [(H1 & H2 & H3)|Hout].
    + by rewrite Hd in Hq.
    + rewrite Ho in Hq by done. by eapply HB2.
  - intros q Hwq Hqne Hq.
    destruct (decide (q = ws ++ rel)) as [->|Hnq].
    { by rewrite lookup_insert_eq in Hq. }
    rewrite lookup_insert_ne in Hq by done.
    destruct (decide ([] `prefix_of` q ∧ q `prefix_of` ws ++ removelast rel
                      ∧ q ≠ [])) as [(H1 & H2 & H3)|Hout].
    + exists rel. split; [apply elem_of_cons; by left|]. split; [|done].
      etrans; [done|]. apply prefix_app, removelast_prefix.
    + rewrite Ho in Hq by done.
      destruct (HC q Hwq Hqne Hq) as (rel' & Hin & Hp & Hn).
      exists rel'. split; [apply elem_of_cons; by right|done].
Qed.

Lemma pull_loop names : ∀ done w,
  faults w = [] →
  (∀ n, n ∈ names → ∃ rel d, Rel rel d ∧ n = remote_name key rel
                            ∧ bucket w !! n = Some d) →
  restored ws Rel done (fs w) →
  ∃ w' done',
    for_each names (λ remote_path,
      _ ← GCSFileStorage.download_file remote_path
            (FS.path_join ws
               (Py.drop (String.length (files_prefix key)) remote_path));
      mret ()) w
    = (Ok (), w')
    ∧ faults w' = [] ∧ bucket w' = bucket w
    ∧ restored ws Rel done' (fs w')
    ∧ (∀ n, n ∈ names → ∃ rel, rel ∈ done' ∧ n = remote_name key rel)
    ∧ (∀ rel, rel ∈ done → rel ∈ done').
Proof using Type*.
  induction names as [|n names IH]; intros done w Hf Hn Hinv.
  - exists w, done. split; [done|]. split; [done|]. split; [done|].
    split; [done|]. split; [|done]. by intros n ?%elem_of_nil.
  - destruct (Hn n) as (rel & d & HR & -> & Hb); [apply elem_of_cons; by left|].
    destruct (Rel_simple _ _ HR) as [Hne Hsimple].
    cbn [for_each]. rewrite bind_run, bind_run.
    unfold remote_name at 2. rewrite str_drop_app, path_join_str by done.
    destruct (download_restores rel d done w) as (w1 & -> & Hf1 & Hb1 & Hinv1);
      [done..|].
    cbn [mret M_ret].
    destruct (IH (rel :: done) w1) as (w' & done' & Hrun & Hf' & Hb' & Hinv' & Hall & Hsub).
    + done.
    + intros n' Hin. rewrite Hb1. apply Hn. apply elem_of_cons. by right.
    + done.
    + cbn [mret M_ret] in Hrun. rewrite Hrun.
      exists w', done'. split; [done|]. split; [done|].
      split; [by rewrite Hb', Hb1|]. split; [done|]. split.
      * intros n' [->|Hin]%elem_of_cons; [|by apply Hall].
        exists rel. split; [|done]. apply Hsub, elem_of_cons. by left.
      * intros rel' Hin. apply Hsub, elem_of_cons. by right.
Qed.
End pull.

Section push.
Context (E : env) (ws : path) (key : string).

Lemma upload_file_ok p r d w :
  faults w = [] → FS.node_at (fs w) p = Some (File d) →
  GCSFileStorage.upload_file E p r w
  = (Ok ("gs://" +:+ bucket_name E +:+ "/" +:+ r),
     set_log (log w ++ [(INFO, "Uploaded file to GCS")])
       (set_bucket (<[r := d]> (bucket w)) w)).
Proof.
  intros Hf Hn. destruct w as [b fl f t u o l]. simpl in *. subst fl.
  run_all. rewrite Hn. reflexivity.
Qed.

Lemma push_loop files : ∀ w,
  faults w = [] →
  ∃ w',
    for_each files (λ file_path,
      is_file ← FS.is_file file_path;
      if is_file : bool then
        _ ← GCSFileStorage.upload_file E file_path
              (files_prefix key
               +:+ FS.path_str (drop (length ws) file_path));
        mret ()
      else mret ()) w
    = (Ok (), w')
    ∧ faults w' = [] ∧ fs w' = fs w
    ∧ bucket w' = foldl (push_step ws key (fs w)) (bucket w) files.
Proof.
  induction files as [|p files IH]; intros w Hf.
  - exists w. by repeat split.
  - cbn [for_each foldl]. rewrite bind_run, bind_run.
    unfold FS.is_file at 1, gets at 1, FS.is_file_in, push_step at 2.
    destruct (FS.node_at (fs w) p) as [[d|]|] eqn:Hn.
    + rewrite bind_run, (upload_file_ok p _ d) by done.
      set (w1 := set_log _ _).
      destruct (IH w1) as (w' & Hrun & Hf' & Hfs & Hb); [done|].
      cbn [mret M_ret] in *. rewrite Hrun. exists w'.
      split; [done|]. split; [done|]. split; [by rewrite Hfs|].
      by rewrite Hb.
    + destruct (IH w) as (w' & Hrun & Hf' & Hfs & Hb); [done|].
      cbn [mret M_ret] in *. rewrite Hrun. eauto.
    + destruct (IH w) as (w' & Hrun & Hf' & Hfs & Hb); [done|].
      cbn [mret M_ret] in *. rewrite Hrun. eauto.
Qed.

Lemma push_run w :
  faults w = [] →
  ∃ w',
    GCSFileStorage.sync_workspace_to_gcs E ws key w = (Ok (), w')
    ∧ faults w' = [] ∧ fs w' = fs w
    ∧ bucket w' = foldl (push_step ws key (fs w)) (bucket w)
                    (FS.below (fs w) ws).
Proof.
  intros Hf. unfold GCSFileStorage.sync_workspace_to_gcs, try_except. cbv zeta.
  fold (files_prefix key).
  rewrite bind_run. unfold FS.exists_ at 1, gets at 1.
  destruct (FS.node_at (fs w) ws) as [n|] eqn:Hn.
  - rewrite bool_decide_eq_true_2 by eauto. cbn [negb].
    rewrite bind_run. unfold FS.rglob at 1, gets at 1. rewrite bind_run.
    destruct (push_loop (FS.below (fs w) ws) w Hf) as (w' & Hrun & Hf' & Hfs & Hb).
    rewrite Hrun. unfold logger.
    eexists. split; [reflexivity|]. by destruct w'.
  - rewrite bool_decide_eq_false_2 by (by intros [??]). cbn [negb].
    exists w. split; [done|]. split; [done|]. split; [done|].
    unfold FS.below. by rewrite Hn.
Qed.

Lemma fold_keeps f files : ∀ b name d,
  b !! name = Some d →
  (∀ p d', p ∈ files → FS.node_at f p = Some (File d') →
           pushed_name ws key p = name → d' = d) →
  foldl (push_step ws key f) b files !! name = Some d.
Proof.
  induction files as [|p files IH]; intros b name d Hb Hsame; [done|].
  simpl. apply IH.
  - unfold push_step. destruct (FS.node_at f p) as [[d'|]|] eqn:Hn; try done.
    destruct (decide (pushed_name ws key p = name)) as [<-|Hne].
    + rewrite lookup_insert_eq. f_equal. eapply Hsame; [|done..].
      apply elem_of_cons. by left.
    + by rewrite lookup_insert_ne.
  - intros p' d' Hin. apply Hsame. apply elem_of_cons. by right.
Qed.

Lemma fold_stores f files : ∀ b p d,
  p ∈ files → FS.node_at f p = Some (File d) →
  (∀ p' d', p' ∈ files → FS.node_at f p' = Some (File d') →
            pushed_name ws key p' = pushed_name ws key p → d' = d) →
  foldl (push_step ws key f) b files !! pushed_name ws key p = Some d.
Proof.
  induction files as [|p0 files IH]; intros b p d Hin Hn Hsame.
  { by apply elem_of_nil in Hin. }
  apply elem_of_cons in Hin as [->|Hin].
  - simpl. apply fold_keeps.
    + unfold push_step. rewrite Hn. by rewrite lookup_insert_eq.
    + intros p' d' Hin'. apply Hsame. apply elem_of_cons. by right.
  - simpl. apply IH; [done..|].
    intros p' d' Hin'. apply Hsame. apply elem_of_cons. by right.
Qed.

Lemma fold_origin f files : ∀ b name d,
  foldl (push_step ws key f) b files !! name = Some d →
  b !! name = Some d
  ∨ ∃ p, p ∈ files ∧ FS.node_at f p = Some (File d)
         ∧ pushed_name ws key p = name.
Proof.
  induction files as [|p files IH]; intros b name d Hl; [by left|].
  simpl in Hl. apply IH in Hl as [Hl|(p' & Hin & Hn & Hname)].
  - unfold push_step in Hl.
    destruct (FS.node_at f p) as [[d'|]|] eqn:Hn; try by left.
    destruct (decide (pushed_name ws key p = name)) as [<-|Hne].
    + rewrite lookup_insert_eq in Hl. injection Hl as ->.
      right. exists p. split; [apply elem_of_cons; by left|done].
    + rewrite lookup_insert_ne in Hl by done. by left.
  - right. exists p'. split; [apply elem_of_cons; by right|done].
Qed.

End push.

Lemma elem_of_listing prefix (b : gmap string string) name :
  name ∈ merge_sort String.le
           (filter (λ n, Py.startswith prefix n = true) (map_to_list b).*1)
  ↔ is_Some (b !! name) ∧ Py.startswith prefix name = true.
Proof.
  rewrite merge_sort_Permutation, list_elem_of_filter.
  rewrite list_elem_of_fmap. split.
  - intros [Hp ([n v] & -> & Hv%elem_of_map_to_list)]. eauto.
  - intros [[v Hv] Hp]. split; [done|]. exists (name, v).
    split; [done|]. by apply elem_of_map_to_list.
Qed.

Section pull_run.
Context (ws : path) (key : string) (Rel : path → string → Prop).
Hypothesis Rel_simple : ∀ rel d,
  Rel rel d → rel ≠ [] ∧ Forall (λ c, simple_component c = true) rel.
Hypothesis Rel_tree : ∀ rel rel' d d',
  Rel rel d → Rel rel' d' → rel `prefix_of` rel' → rel = rel'.
Hypothesis Rel_fun : ∀ rel d d', Rel rel d → Rel rel d' → d = d'.

Lemma pull_run w :
  faults w = [] →
  (∀ n d, bucket w !! n = Some d → Py.startswith (files_prefix key) n = true →
          ∃ rel, Rel rel d ∧ n = remote_name key rel) →
  restored ws Rel [] (fs w) →
  ∃ w' done',
    GCSFileStorage.sync_gcs_to_workspace ws key w = (Ok (), w')
    ∧ restored ws Rel done' (fs w')
    ∧ (∀ n, is_Some (bucket w !! n) →
            Py.startswith (files_prefix key) n = true →
            ∃ rel, rel ∈ done' ∧ n = remote_name key rel).
Proof using Type*.
  intros Hf Hnames Hinv.
  unfold GCSFileStorage.sync_gcs_to_workspace, try_except. cbv zeta.
  fold (files_prefix key).
  rewrite bind_run.
  assert (Hlist : GCSFileStorage.list_files (files_prefix key) w
                  = (Ok (merge_sort String.le
                           (filter (λ n, Py.startswith (files_prefix key) n = true)
                                   (map_to_list (bucket w)).*1)), w)).
  { destruct w as [b fl f t u o l]. simpl in Hf. subst fl. reflexivity. }
  rewrite Hlist. rewrite bind_run.
  set (names := merge_sort _ _).
  destruct (pull_loop ws key Rel Rel_simple Rel_tree Rel_fun names [] w)
    as (w' & done' & Hrun & Hf' & Hb' & Hinv' & Hall & _).
  - done.
  - intros n [[d Hd] Hp]%elem_of_listing.
    destruct (Hnames n d Hd Hp) as (rel & HR & ->). eauto.
  - done.
  - rewrite Hrun. unfold logger. eexists _, done'. split; [reflexivity|].
    split; [by destruct w'|].
    intros n Hn Hp. apply Hall. by apply elem_of_listing.
Qed.

End pull_run.

Section round_trip.
Context (E : env) (ws : path) (key : string).

Lemma elem_of_below f p :
  p ∈ FS.below f ws ↔
  FS.node_at f ws = Some Dir ∧ is_Some (f !! p) ∧ ws `prefix_of` p ∧ p ≠ ws.
Proof.
  unfold FS.below. destruct (FS.node_at f ws) as [[d|]|].
  - split; [by intros ?%elem_of_nil|]. by intros [? _].
  - rewrite list_elem_of_filter, list_elem_of_fmap. split.
    + intros [[Hp Hne] ([q n] & -> & Hq%elem_of_map_to_list)]. eauto.
    + intros (_ & [n Hn] & Hp & Hne). split; [done|].
      exists (p, n). split; [done|]. by apply elem_of_map_to_list.
  - split; [by intros ?%elem_of_nil|]. by intros [? _].
Qed.

Lemma node_at_below rel f : rel ≠ [] → FS.node_at f (ws ++ rel) = f !! (ws ++ rel).
Proof.
  intros Hne. unfold FS.node_at.
  destruct (ws ++ rel) as [|c q] eqn:Hq; [|done].
  by apply app_eq_nil in Hq as [_ ?].
Qed.

Lemma remote_name_inj rel rel' :
  rel ≠ [] → Forall (λ c, simple_component c = true) rel →
  rel' ≠ [] → Forall (λ c, simple_component c = true) rel' →
  remote_name key rel = remote_name key rel' → rel = rel'.
Proof using ws.
  intros H1 H2 H3 H4 Heq%str_app_inj_l.
  apply (app_inv_head ws).
  by rewrite <- (path_join_str ws rel), <- (path_join_str ws rel'), Heq.
Qed.

(** A push of [ws] followed by a pull into [ws'], on a store that answers
    and holds no file of the session: both return, and the files below
    [ws'] are then the files that were below [ws], at the same relative
    paths and with the same content. *)
Lemma push_then_pull ws' w f0 :
  faults w = [] →
  no_files_stored key (bucket w) →
  tidy_workspace ws (fs w) →
  tree_like (fs w) →
  fresh_for ws' f0 →
  ∃ w1 w2,
    GCSFileStorage.sync_workspace_to_gcs E ws key w = (Ok (), w1)
    ∧ GCSFileStorage.sync_gcs_to_workspace ws' key (set_fs f0 w1) = (Ok (), w2)
    ∧ ∀ rel d,
        fs w2 !! (ws' ++ rel) = Some (File d)
        ↔ ws ++ rel ∈ FS.below (fs w) ws ∧ fs w !! (ws ++ rel) = Some (File d).
Proof.
  intros Hf Hnone Htidy Htree Hfresh.
  destruct (push_run E ws key w Hf) as (w1 & Hpush & Hf1 & Hfs1 & Hb1).
  set (Rel := λ rel d, ws ++ rel ∈ FS.below (fs w) ws
                       ∧ fs w !! (ws ++ rel) = Some (File d)).
  assert (Rel_ne : ∀ rel d, Rel rel d → rel ≠ []).
  { intros rel d [(_ & _ & _ & Hne)%elem_of_below _] ->.
    by rewrite app_nil_r in Hne. }
  assert (Rel_simple : ∀ rel d, Rel rel d →
            rel ≠ [] ∧ Forall (λ c, simple_component c = true) rel).
  { intros rel d HR. split; [by eapply Rel_ne|].
    destruct HR as [Hin Hl].
    pose proof (proj1 (Forall_forall _ _) Htidy _ Hin) as Ht.
    cbv beta in Ht. rewrite drop_app_length in Ht. apply Ht.
    unfold FS.is_file_in. rewrite node_at_below, Hl; [done|].
    eapply Rel_ne. by split. }
  assert (Rel_tree : ∀ rel rel' d d',
            Rel rel d → Rel rel' d' → rel `prefix_of` rel' → rel = rel').
  { intros rel rel' d d' [_ Hl] [_ Hl'] Hp.
    apply (app_inv_head ws).
    eapply (Htree _ _ Hl); [done|exact Hl'|done|by apply prefix_app]. }
  assert (Rel_fun : ∀ rel d d', Rel rel d → Rel rel d' → d = d').
  { intros rel d d' [_ Hl] [_ Hl']. congruence. }
  assert (Hstored : ∀ rel d, Rel rel d →
            bucket w1 !! remote_name key rel = Some d).
  { intros rel d HR. pose proof HR as [Hin Hl].
    destruct (Rel_simple _ _ HR) as [Hne Hs].
    rewrite Hb1.
    replace (remote_name key rel) with (pushed_name ws key (ws ++ rel))
      by (unfold pushed_name; by rewrite drop_app_length).
    apply fold_stores; [done|by rewrite node_at_below| ].
    intros p' d' Hin' Hn' Heq.
    pose proof Hin' as (_ & _ & [rel' ->] & Hne')%elem_of_below.
    assert (rel' ≠ []) by (intros ->; by rewrite app_nil_r in Hne').
    rewrite node_at_below in Hn' by done.
    assert (HR' : Rel rel' d') by done.
    destruct (Rel_simple _ _ HR') as [_ Hs'].
    unfold pushed_name in Heq. rewrite !drop_app_length in Heq.
    assert (rel' = rel) as -> by (by apply remote_name_inj).
    by eapply Rel_fun. }
  assert (Horigin : ∀ n d, bucket w1 !! n = Some d →
            Py.startswith (files_prefix key) n = true →
            ∃ rel, Rel rel d ∧ n = remote_name key rel).
  { intros n d Hn Hp. rewrite Hb1 in Hn.
    apply fold_origin in Hn as [Hn|(p & Hin & Hnode & <-)].
    { apply Hnone in Hn. congruence. }
    pose proof Hin as (_ & _ & [rel ->] & Hne)%elem_of_below.
    assert (rel ≠ []) by (intros ->; by rewrite app_nil_r in Hne).
    rewrite node_at_below in Hnode by done.
    exists rel. split; [done|].
    unfold pushed_name. by rewrite drop_app_length. }
  destruct (pull_run ws' key Rel Rel_simple Rel_tree Rel_fun (set_fs f0 w1))
    as (w2 & done' & Hpull & (HA & HB & _) & Hall).
  - by destruct w1.
  - intros n d. destruct w1. apply Horigin.
  - destruct w1. simpl. split; [by intros rel ?%elem_of_nil|].
    split; [|split].
    + intros q d0 Hwq Hq. destruct (Hfresh q _ Hq) as [Hn Hd].
      destruct (decide (q = ws')) as [->|Hne]; [|by destruct Hn].
      by specialize (Hd (reflexivity _)).
    + intros q d0 Hqw Hq. destruct (Hfresh q _ Hq) as [_ Hd].
      by specialize (Hd Hqw).
    + intros q Hwq Hne Hq. destruct (Hfresh q _ Hq) as [Hn _]. by destruct Hn.
  - exists w1, w2. split; [done|]. split; [done|].
    intros rel d. split.
    + intros Hl. destruct (HB (ws' ++ rel) d (prefix_app_r _ _ _ (reflexivity _)) Hl)
        as (rel0 & Hin & Heq).
      apply app_inv_head in Heq as ->.
      destruct (HA rel0 Hin) as (d' & HR & Hl').
      assert (d' = d) as -> by congruence. exact HR.
    + intros [Hin Hl].
      assert (HR : Rel rel d) by done.
      destruct (Rel_simple _ _ HR) as [Hne Hs].
      destruct (Hall (remote_name key rel)) as (rel' & Hin' & Heq).
      * cbn [bucket set_fs]. rewrite (Hstored rel d HR). eauto.
      * apply startswith_app.
      * destruct (HA rel' Hin') as (d' & HR' & Hl').
        destruct (Rel_simple _ _ HR') as [Hne' Hs'].
        assert (rel' = rel) as -> by (symmetry; by apply remote_name_inj).
        by rewrite (Rel_fun _ _ _ HR HR').
Qed.

(** X25. Push then pull restores a workspace: on a store that answers,
    with no object stored under the session's files prefix, for a
    workspace whose files have plain component names and none of whose
    files lies below another file, [sync_workspace_to_gcs] followed by
    [sync_gcs_to_workspace] into local files where the workspace is
    missing or empty both return, and afterwards the files below the
    workspace are exactly the files that were below it before the push,
    at the same paths and with the same content. *)
Theorem push_then_pull_restores w f0 :
  faults w = [] →
  no_files_stored key (bucket w) →
  tidy_workspace ws (fs w) →
  tree_like (fs w) →
  fresh_for ws f0 →
  ∃ w1 w2,
    GCSFileStorage.sync_workspace_to_gcs E ws key w = (Ok (), w1)
    ∧ GCSFileStorage.sync_gcs_to_workspace ws key (set_fs f0 w1) = (Ok (), w2)
    ∧ ∀ p d, ws `prefix_of` p →
             (fs w2 !! p = Some (File d)
              ↔ p ∈ FS.below (fs w) ws ∧ fs w !! p = Some (File d)).
Proof.
  intros Hf Hnone Htidy Htree Hfresh.
  destruct (push_then_pull ws w f0 Hf Hnone Htidy Htree Hfresh)
    as (w1 & w2 & Hpush & Hpull & Hfiles).
  exists w1, w2. split; [done|]. split; [done|].
  intros p d [rel ->]. apply Hfiles.
Qed.

(** C8. The workspace round trip.  On a store that answers and holds no
    object under the session's files prefix, for a local directory [ws]
    whose files have plain component names and none of whose files lies
    below another file, and for every session key:
    [sync_workspace_to_gcs] of [ws] followed by [sync_gcs_to_workspace]
    into a fresh local directory [ws'] (missing or empty, no prefix of its
    path a file) both return normally, and afterwards there is a file
    with the content [d] at a relative path below [ws'] exactly when
    there was a file with the content [d] at the same relative path below
    [ws]. *)
Theorem push_pull_round_trip ws' w f0 :
  faults w = [] →
  no_files_stored key (bucket w) →
  tidy_workspace ws (fs w) →
  tree_like (fs w) →
  fresh_for ws' f0 →
  ∃ w1 w2,
    GCSFileStorage.sync_workspace_to_gcs E ws key w = (Ok (), w1)
    ∧ GCSFileStorage.sync_gcs_to_workspace ws' key (set_fs f0 w1) = (Ok (), w2)
    ∧ ∀ rel d,
        fs w2 !! (ws' ++ rel) = Some (File d)
        ↔ ws ++ rel ∈ FS.below (fs w) ws ∧ fs w !! (ws ++ rel) = Some (File d).
Proof. apply push_then_pull. Qed.

End round_trip.

Lemma push_then_pull_restores_witness :
  ∃ w1 w2,
    GCSFileStorage.sync_workspace_to_gcs ref_env example_workspace
      "telegram:42" world_with_files = (Ok (), w1)
    ∧ GCSFileStorage.sync_gcs_to_workspace example_workspace "telegram:42"
        (set_fs ∅ w1) = (Ok (), w2)
    ∧ ∀ p d, example_workspace `prefix_of` p →
             (fs w2 !! p = Some (File d)
              ↔ p ∈ FS.below (fs world_with_files) example_workspace
                ∧ fs world_with_files !! p = Some (File d)).
Proof.
  apply (push_then_pull_restores ref_env example_workspace "telegram:42"
           world_with_files ∅).
  - reflexivity.
  - unfold no_files_stored. apply (bool_decide_unpack _). vm_compute. exact I.
  - unfold tidy_workspace. apply (bool_decide_unpack _). vm_compute. exact I.
  - unfold tree_like. apply (bool_decide_unpack _). vm_compute. exact I.
  - unfold fresh_for. apply (bool_decide_unpack _). vm_compute. exact I.
Defined.

(** The example workspace comes back as it was, its directories
    included. *)
Example restored_files :
  fs (world_of (GCSFileStorage.sync_gcs_to_workspace example_workspace
                  "telegram:42"
                  (set_fs ∅
                     (world_of (GCSFileStorage.sync_workspace_to_gcs ref_env
                                  example_workspace "telegram:42"
                                  world_with_files)))))
  = example_files.
Proof. vm_compute. reflexivity. Qed.

(** The example workspace pushed, and pulled into another directory. *)
Lemma push_pull_round_trip_witness :
  ∃ w1 w2,
    GCSFileStorage.sync_workspace_to_gcs ref_env example_workspace
      "telegram:42" world_with_files = (Ok (), w1)
    ∧ GCSFileStorage.sync_gcs_to_workspace ["home"; "copy"] "telegram:42"
        (set_fs ∅ w1) = (Ok (), w2)
    ∧ ∀ rel d,
        fs w2 !! (["home"; "copy"] ++ rel) = Some (File d)
        ↔ example_workspace ++ rel
            ∈ FS.below (fs world_with_files) example_workspace
          ∧ fs world_with_files !! (example_workspace ++ rel) = Some (File d).
Proof.
  apply (push_pull_round_trip ref_env example_workspace "telegram:42"
           ["home"; "copy"] world_with_files ∅).
  - reflexivity.
  - unfold no_files_stored. apply (bool_decide_unpack _). vm_compute. exact I.
  - unfold tidy_workspace. apply (bool_decide_unpack _). vm_compute. exact I.
  - unfold tree_like. apply (bool_decide_unpack _). vm_compute. exact I.
  - unfold fresh_for. apply (bool_decide_unpack _). vm_compute. exact I.
Defined.

(** The same, run: the two files are below the other directory, with
    their content. *)
Example copied_files :
  fs (world_of (GCSFileStorage.sync_gcs_to_workspace ["home"; "copy"]
                  "telegram:42"
                  (set_fs ∅
                     (world_of (GCSFileStorage.sync_workspace_to_gcs ref_env
                                  example_workspace "telegram:42"
                                  world_with_files)))))
  = {[ ["home"] := Dir;
       ["home"; "copy"] := Dir;
       ["home"; "copy"; "notes.txt"] := File "hello";
       ["home"; "copy"; "data"] := Dir;
       ["home"; "copy"; "data"; "a.csv"] := File "1,2" ]}.
Proof. vm_compute. reflexivity. Qed.

(** ** The session record under the handler *)

Lemma history_ne_session key : chat_history_path key ≠ session_path key.
Proof. by intros H%str_app_inj_l. Qed.

Lemma actions_ne_session key : agent_actions_path key ≠ session_path key.
Proof. by intros H%str_app_inj_l. Qed.

Lemma files_ne_session key s : files_prefix key +:+ s ≠ session_path key.
Proof.
  intros H.
  assert (Ho : Py.startswith (files_prefix key) (session_path key) = false).
  { unfold files_prefix, session_path. by rewrite startswith_app_both. }
  by rewrite <- H, startswith_app in Ho.
Qed.

(** Checks that one step keeps an object other than those it writes. *)
Ltac keeps_other :=
  keeps_prim;
  try (rewrite lookup_insert_ne by
         first [ apply history_ne_session | apply actions_ne_session
               | apply files_ne_session ]);
  try done.

Section session_frame.
Context (E : env) (self : ServerlessGateway).

Lemma save_chat_message_keeps_session key mid role content md :
  ensures (keeps (session_path key))
          (GCSFileStorage.save_chat_message E key mid role content md).
Proof.
  unfold GCSFileStorage.save_chat_message. cbv zeta.
  fold (chat_history_path key). frame; keeps_other.
Qed.

Lemma save_agent_action_keeps_session key ty data md :
  ensures (keeps (session_path key))
          (GCSFileStorage.save_agent_action E key ty data md).
Proof.
  unfold GCSFileStorage.save_agent_action. cbv zeta.
  fold (agent_actions_path key). frame; keeps_other.
Qed.

Lemma upload_file_keeps_session key p s :
  ensures (keeps (session_path key))
          (GCSFileStorage.upload_file E p (files_prefix key +:+ s)).
Proof.
  unfold GCSFileStorage.upload_file. cbv zeta. frame; keeps_other.
Qed.

Lemma send_message_keeps tok chat_id text name :
  ensures (keeps name) (Gateway.send_message E tok chat_id text).
Proof.
  unfold Gateway.send_message. cbv zeta. frame; keeps_prim.
Qed.

Lemma get_session_parses key content v w :
  faults w = [] → bucket w !! session_path key = Some content →
  json_loads E content = Some v →
  GCSFileStorage.get_session E key w = (Ok v, w).
Proof.
  intros Hf Hb Hv. destruct w as [b f fsys t n o l]. simpl in *. subst f.
  unfold GCSFileStorage.get_session. cbv zeta. fold (session_path key).
  run_monad. rewrite Hb, bool_decide_eq_true_2 by eauto. run_monad. rewrite Hb.
  unfold GCSFileStorage.loads. by rewrite Hv.
Qed.

(** X26. The handler never updates a session that exists: on a store that
    answers, when the session object of the chat parses to a record that
    is not empty, the object is the same after the handler has run,
    whatever the run does and however it ends.  So [updated_at] stays at
    its first value and the merge of metadata is never reached from the
    webhook. *)
Theorem existing_session_is_left_alone update i content v w :
  inbound E update = Some i →
  faults w = [] →
  bucket w !! session_path ("telegram:" +:+ in_chat_id i) = Some content →
  json_loads E content = Some v →
  truthy v = true →
  bucket (world_of (Gateway.handle_telegram_webhook E self update w))
    !! session_path ("telegram:" +:+ in_chat_id i)
  = Some content.
Proof.
  intros Hi Hf Hb Hv Ht.
  rewrite (handler_at_gate E self update i) by done.
  set (key := "telegram:" +:+ in_chat_id i) in *.
  set (w1 := set_log _ w).
  assert (Hf1 : faults w1 = []) by (by destruct w).
  assert (Hb1 : bucket w1 !! session_path key = Some content) by (by destruct w).
  clearbody w1. clear Hf Hb.
  destruct (refused self (in_user_id i)).
  { unfold try_except, logger. rewrite bind_run. by destruct w1. }
  unfold try_except at 1, past_gate. rewrite bind_run.
  assert (Hsync : ∃ m, synced_in E self i w1 = m w1
                       ∧ ensures (keeps (session_path key)) m).
  { unfold synced_in. cbv zeta. fold key.
    unfold PersistentStorageManager.get_session.
    rewrite bind_run, (get_session_parses key content v w1) by done.
    rewrite Ht. cbn [negb].
    eexists. split; [reflexivity|].
    unfold PersistentStorageManager.sync_files_from_storage,
      PersistentStorageManager.get_chat_history,
      PersistentStorageManager.save_chat_message.
    frame; keeps_other. }
  destruct Hsync as (m & Hm & Hens).
  destruct (synced_in E self i w1) as [[t|e] w2] eqn:Hin.
  - pose proof (synced_in_turn E self _ _ _ _ Hin) as ->.
    symmetry in Hm. apply (ran _ _ _ _ _ Hens) in Hm as [_ Ho1].
    match goal with
    | |- context [match ?g w2 with _ => _ end] =>
        assert (Hens2 : ensures (keeps (session_path key))
                          (try_except g on_error))
    end.
    { unfold PersistentStorageManager.sync_files_to_storage,
        PersistentStorageManager.save_chat_message,
        PersistentStorageManager.save_agent_action,
        invoked, synced_out, replied, on_error.
      cbv zeta. cbn [turn_text turn_chat_id turn_session_key turn_workspace].
      fold key.
      frame; keeps_other. }
    destruct (Hens2 w2) as [_ Ho2].
    unfold same_object, world_of, try_except in Ho1, Ho2.
    unfold world_of. rewrite Ho2, Ho1. exact Hb1.
  - assert (Hk : keeps (session_path key) w1 w2).
    { specialize (Hens w1). unfold world_of in Hens. by rewrite <- Hm in Hens. }
    destruct Hk as [_ Ho1]. unfold same_object in Ho1.
    unfold on_error, logger. rewrite bind_run.
    destruct w2. simpl in *. by rewrite Ho1.
Qed.

End session_frame.

Lemma existing_session_is_left_alone_witness :
  bucket (world_of (Gateway.handle_telegram_webhook ref_env blank_gateway
                      update_hello world_after_three))
    !! session_path ("telegram:" +:+ in_chat_id inbound_hello)
  = Some (json_dumps_indent ref_env (session_json session_after_three)).
Proof.
  apply (existing_session_is_left_alone ref_env blank_gateway update_hello
           inbound_hello
           (json_dumps_indent ref_env (session_json session_after_three))
           (session_json session_after_three) world_after_three).
  - vm_compute. reflexivity.
  - vm_compute. reflexivity.
  - vm_compute. reflexivity.
  - vm_compute. reflexivity.
  - vm_compute. reflexivity.
Defined.

Section first_contact.
Context (E : env) (self : ServerlessGateway).

Lemma get_session_absent key w :
  faults w = [] → bucket w !! session_path key = None →
  GCSFileStorage.get_session E key w = (Ok JNull, w).
Proof.
  intros Hf Hb. destruct w as [b f fsys t n o l]. simpl in *. subst f.
  unfold GCSFileStorage.get_session. cbv zeta. fold (session_path key).
  run_monad. by rewrite Hb, bool_decide_eq_false_2 by (by intros [??]).
Qed.

(** X27. The first contact creates the session: on a store that answers,
    when the chat has no session object and the sender gets through the
    authorization check, the session object after the handler has run is
    the record of that first contact (the chat's key, the sender's id,
    created_at = updated_at = the clock reading at the start, the chat
    type as only metadata), whatever the rest of the run does and however
    it ends. *)
Theorem first_contact_creates_session update i w :
  inbound E update = Some i →
  refused self (in_user_id i) = false →
  faults w = [] →
  bucket w !! session_path ("telegram:" +:+ in_chat_id i) = None →
  bucket (world_of (Gateway.handle_telegram_webhook E self update w))
    !! session_path ("telegram:" +:+ in_chat_id i)
  = Some (json_dumps_indent E (session_json (first_session E i (ticks w)))).
Proof.
  intros Hi Hr Hf Hb.
  rewrite (handler_at_gate E self update i) by done. rewrite Hr.
  pose proof Hi as (um & mm & cm & fm & _ & _ & _ & _ & _ & _ & Hieq)%inbound_inv.
  assert (Hchat : in_chat i = JObj cm) by (by rewrite Hieq).
  unfold first_session, chat_type_of. rewrite Hchat.
  set (key := "telegram:" +:+ in_chat_id i) in *.
  set (w1 := set_log _ w).
  assert (Hf1 : faults w1 = []) by (by destruct w).
  assert (Hb1 : bucket w1 !! session_path key = None) by (by destruct w).
  assert (Ht1 : ticks w1 = ticks w) by (by destruct w).
  rewrite <- Ht1. clearbody w1. clear Hf Hb Ht1.
  set (u := {| up_user_id := in_user_id i;
               up_metadata :=
                 Some {[ "chat_type" := default (JStr "unknown") (cm !! "type") ]} |}).
  pose proof (create_run E key u w1 Hf1 Hb1) as Hcreate.
  cbv zeta in Hcreate. set (s := upsert_spec _ _ _ _) in *.
  match type of Hcreate with _ = (_, ?w) => set (w2 := w) in * end.
  assert (Hb2 : bucket w2 !! session_path key
                = Some (json_dumps_indent E (session_json s))).
  { subst w2. simpl. by rewrite lookup_insert_eq. }
  unfold try_except at 1, past_gate. rewrite bind_run.
  assert (Hsync : ∃ m, synced_in E self i w1 = m w2
                       ∧ ensures (keeps (session_path key)) m).
  { unfold synced_in. cbv zeta. fold key.
    unfold PersistentStorageManager.get_session,
      PersistentStorageManager.create_or_update_session.
    rewrite bind_run, (get_session_absent key w1) by done.
    cbn [truthy negb].
    rewrite bind_run, bind_run, Hchat, py_get_run, bind_run.
    subst u. cbn [up_user_id up_metadata] in Hcreate. rewrite Hcreate.
    cbn [mret M_ret].
    eexists. split; [reflexivity|].
    unfold PersistentStorageManager.sync_files_from_storage,
      PersistentStorageManager.get_chat_history,
      PersistentStorageManager.save_chat_message.
    frame; keeps_other. }
  destruct Hsync as (m & Hm & Hens).
  destruct (synced_in E self i w1) as [[t|e] w3] eqn:Hin.
  - pose proof (synced_in_turn E self _ _ _ _ Hin) as ->.
    symmetry in Hm. apply (ran _ _ _ _ _ Hens) in Hm as [_ Ho1].
    match goal with
    | |- context [match ?g w3 with _ => _ end] =>
        assert (Hens2 : ensures (keeps (session_path key))
                          (try_except g on_error))
    end.
    { unfold PersistentStorageManager.sync_files_to_storage,
        PersistentStorageManager.save_chat_message,
        PersistentStorageManager.save_agent_action,
        invoked, synced_out, replied, on_error.
      cbv zeta. cbn [turn_text turn_chat_id turn_session_key turn_workspace].
      fold key.
      frame; keeps_other. }
    destruct (Hens2 w3) as [_ Ho2].
    unfold same_object, world_of, try_except in Ho1, Ho2.
    unfold world_of. rewrite Ho2, Ho1. exact Hb2.
  - assert (Hk : keeps (session_path key) w2 w3).
    { specialize (Hens w2). unfold world_of in Hens. by rewrite <- Hm in Hens. }
    destruct Hk as [_ Ho1]. unfold same_object in Ho1.
    unfold on_error, logger. rewrite bind_run.
    destruct w3. simpl in *. by rewrite Ho1.
Qed.

End first_contact.

Lemma first_contact_creates_session_witness :
  bucket (world_of (Gateway.handle_telegram_webhook ref_env blank_gateway
                      update_hello empty_world))
    !! session_path ("telegram:" +:+ in_chat_id inbound_hello)
  = Some (json_dumps_indent ref_env
            (session_json (first_session ref_env inbound_hello
                             (ticks empty_world)))).
Proof.
  apply (first_contact_creates_session ref_env blank_gateway update_hello
           inbound_hello empty_world).
  - vm_compute. reflexivity.
  - vm_compute. reflexivity.
  - reflexivity.
  - reflexivity.
Defined.

(** ** The copies of Synced-Out *)

Lemma is_file_in_spec f p :
  FS.is_file_in f p = true ↔ ∃ d, FS.node_at f p = Some (File d).
Proof.
  unfold FS.is_file_in. destruct (FS.node_at f p) as [[d|]|].
  - split; eauto.
  - split; [done|]. by intros [? ?].
  - split; [done|]. by intros [? ?].
Qed.

Global Instance grows_po : PreOrder grows.
Proof.
  split.
  - intros w p n Hn. destruct n; [|done]. apply is_file_in_spec. eauto.
  - intros x y z H1 H2 p n Hn. specialize (H1 p n Hn). destruct n.
    + apply is_file_in_spec in H1 as [d' Hy]. apply (H2 p (File d') Hy).
    + apply (H2 p Dir H1).
Qed.

Lemma same_files_grows w w' : fs w' = fs w → grows w w'.
Proof.
  intros Hfs p n Hn. rewrite Hfs. destruct n; [|done].
  apply is_file_in_spec. eauto.
Qed.

Lemma copied_grows w w' src dst :
  grows w w' → copied (fs w) src dst → copied (fs w') src dst.
Proof.
  intros Hg [Hf|[Hd Hf]].
  - left. apply is_file_in_spec in Hf as [d Hn]. apply (Hg dst (File d) Hn).
  - right. split; [apply (Hg dst Dir Hd)|].
    apply is_file_in_spec in Hf as [d Hn]. apply (Hg _ (File d) Hn).
Qed.

Lemma mkdir_go_extends rest : ∀ pre f f1,
  FS.mkdir_go pre rest f = Some f1 →
  ∀ q n, f !! q = Some n → f1 !! q = Some n.
Proof.
  induction rest as [|c rest IH]; intros pre f f1 Hmk q n Hq.
  - simpl in Hmk. by injection Hmk as <-.
  - simpl in Hmk.
    destruct (f !! (pre ++ [c])) as [[d|]|] eqn:Hc; try done.
    + apply (IH _ _ _ Hmk). destruct (decide (q = pre ++ [c])) as [->|Hne].
      * rewrite lookup_insert_eq. congruence.
      * by rewrite lookup_insert_ne.
    + apply (IH _ _ _ Hmk). rewrite lookup_insert_ne; [done|].
      intros <-. congruence.
Qed.

Lemma node_at_extends f f1 :
  (∀ q n, f !! q = Some n → f1 !! q = Some n) →
  ∀ q n, FS.node_at f q = Some n → FS.node_at f1 q = Some n.
Proof. intros H [|c q] n; [done|]. apply H. Qed.

Lemma node_at_insert f p n q :
  q ≠ p → FS.node_at (<[p := n]> f) q = FS.node_at f q.
Proof. intros Hne. destruct q; [done|]. simpl. by rewrite lookup_insert_ne. Qed.

Lemma node_at_insert_eq f p n :
  p ≠ [] → FS.node_at (<[p := n]> f) p = Some n.
Proof. intros Hne. destruct p; [done|]. simpl. by rewrite lookup_insert_eq. Qed.

Section copies.

(** One copy: after it the copy is there, and nothing has gone. *)
Lemma copy_step (src_dir dst_dir src : path) w w' :
  (is_file ← FS.is_file src;
   if is_file : bool then
     let relative_path := drop (length src_dir) src in
     let dst_file := dst_dir ++ relative_path in
     FS.mkdir_parents (FS.parent dst_file);;
     FS.copy2 src dst_file
   else mret ()) w = (Ok (), w') →
  grows w w'
  ∧ (FS.is_file_in (fs w) src = true →
     copied (fs w') src (dst_dir ++ drop (length src_dir) src)).
Proof.
  cbv zeta. set (dst := dst_dir ++ drop (length src_dir) src).
  destruct w as [b fl f t u o l].
  unfold FS.is_file, gets. rewrite bind_run. cbn [fs].
  destruct (FS.is_file_in f src) eqn:Hsrc.
  2:{ intros [= <-]. split; [reflexivity|done]. }
  intros H. apply bind_inv in H as ([] & w1 & Hmk & Hcopy).
  unfold FS.mkdir_parents in Hmk. cbn [fs] in Hmk.
  destruct (FS.mkdir_go [] (FS.parent dst) f) as [f1|] eqn:Hgo; [|done].
  injection Hmk as <-.
  pose proof (node_at_extends f f1 (mkdir_go_extends _ _ _ _ Hgo)) as Hext.
  unfold FS.copy2 in Hcopy. cbv zeta in Hcopy.
  apply bind_inv in Hcopy as (is_dir & w2 & Hdir & Hcopy).
  unfold gets in Hdir. cbn [fs set_fs] in Hdir. injection Hdir as <- <-.
  set (dst' := if match FS.node_at f1 dst with Some Dir => true | _ => false end
               then dst ++ option_list (last src) else dst) in *.
  apply bind_inv in Hcopy as (data & w3 & Hread & Hcopy).
  unfold FS.read_bytes in Hread. cbn [fs set_fs] in Hread.
  apply is_file_in_spec in Hsrc as [data0 Hn].
  rewrite (Hext _ _ Hn) in Hread. injection Hread as <- <-.
  destruct (bool_decide (src = dst')) eqn:Hsame; [done|].
  apply bind_inv in Hcopy as ([] & w4 & Hopen & Hwrite).
  unfold FS.open_wb in Hopen. cbn [fs set_fs] in Hopen.
  unfold FS.write_bytes, modify in Hwrite. injection Hwrite as <-.
  assert (Hnd : FS.node_at f1 dst' ≠ Some Dir ∧ w4 = set_fs (<[dst' := File ""]> f1)
                  (set_fs f1 (World b fl f t u o l))).
  { destruct (FS.node_at f1 (FS.parent dst')) as [[?|]|]; try done.
    destruct (FS.node_at f1 dst') as [[?|]|]; try done;
      by injection Hopen as <-. }
  destruct Hnd as [Hnd ->]. cbn [fs set_fs]. rewrite insert_insert_eq.
  assert (Hne : dst' ≠ []) by (intros Hnil; by rewrite Hnil in Hnd).
  split.
  - intros p n Hp. cbn [fs set_fs] in *. apply Hext in Hp.
    destruct (decide (p = dst')) as [->|Hpn].
    + destruct n as [d|]; [|done]. apply is_file_in_spec. eexists.
      by apply node_at_insert_eq.
    + destruct n as [d|].
      * apply is_file_in_spec. exists d. by rewrite node_at_insert.
      * by rewrite node_at_insert.
  - intros _. unfold copied. subst dst'.
    destruct (FS.node_at f1 dst) as [[?|]|] eqn:Hd.
    + left. apply is_file_in_spec. eexists. by apply node_at_insert_eq.
    + right. split.
      * rewrite node_at_insert; [done|]. intros Heq.
        apply (f_equal length) in Heq. rewrite length_app in Heq.
        destruct (last src) eqn:Hl; simpl in Heq; [lia|].
        apply last_None in Hl. subst src. by destruct Hne.
      * apply is_file_in_spec. eexists. by apply node_at_insert_eq.
    + left. apply is_file_in_spec. eexists. by apply node_at_insert_eq.
Qed.

Lemma copy_loop (src_dir dst_dir : path) files : ∀ w w',
  Gateway.copy_files files src_dir dst_dir w = (Ok (), w') →
  grows w w'
  ∧ ∀ src, src ∈ files → FS.is_file_in (fs w) src = true →
           copied (fs w') src (dst_dir ++ drop (length src_dir) src).
Proof.
  unfold Gateway.copy_files.
  induction files as [|src files IH]; intros w w' Hrun.
  - injection Hrun as <-. split; [reflexivity|]. by intros src ?%elem_of_nil.
  - cbn [for_each] in Hrun.
    apply bind_inv in Hrun as ([] & w1 & Hstep & Hrest).
    apply copy_step in Hstep as [Hg1 Hc1].
    apply IH in Hrest as [Hg2 Hc2].
    split; [by etrans|].
    intros src' [->|Hin]%elem_of_cons Hfile.
    + eapply copied_grows; [exact Hg2|]. by apply Hc1.
    + apply Hc2; [done|].
      apply is_file_in_spec in Hfile as [d Hn]. apply (Hg1 _ _ Hn).
Qed.

End copies.

Section nesting.
Context (E : env) (self : ServerlessGateway).

(** Synced-Out copies every file of the agent's workspace. *)
Lemma agent_files_are_copied t response w w' :
  synced_out E self t response w = (Ok (), w') →
  ∀ src, src ∈ FS.below (fs w) (agent_workspace (agent_loop self)) →
         FS.is_file_in (fs w) src = true →
         copied (fs w') src
           (turn_workspace t
            ++ drop (length (agent_workspace (agent_loop self))) src).
Proof.
  unfold synced_out. cbv zeta. intros Hout.
  apply bind_inv in Hout as ([] & wa & Ha & Hout).
  apply (ran same_files) in Ha.
  2:{ unfold PersistentStorageManager.save_chat_message,
        GCSFileStorage.save_chat_message. cbv zeta. frame; frame_file. }
  apply bind_inv in Hout as (files & wb & Hb & Hout).
  unfold FS.rglob, gets in Hb. injection Hb as <- <-.
  apply bind_inv in Hout as ([] & wc & Hc & Hout).
  apply copy_loop in Hc as [_ Hc].
  apply bind_inv in Hout as ([] & wd & Hd & Hout).
  apply (ran same_files) in Hd.
  2:{ apply push_frame; [apply _|intros; apply upload_file_same_files|].
      intros; frame_file. }
  apply (ran same_files) in Hout.
  2:{ unfold PersistentStorageManager.save_agent_action,
        GCSFileStorage.save_agent_action. cbv zeta. frame; frame_file. }
  unfold same_files in *.
  intros src Hin Hfile. rewrite Hout, Hd. apply Hc; by rewrite Ha.
Qed.

(** X28. Session files nest: when the agent's workspace is the gateway's
    workspace (as [get_gateway_instance] sets them) and the session
    workspace is the directory [dir] in it, a Synced-Out that returns
    leaves, for every file [dir/rel] of the session workspace, a copy one
    level deeper, at [dir/dir/rel] (inside it when that is a
    directory): the session's own files are among the agent's files and
    are copied again, so every run adds a level. *)
Theorem session_files_nest t response dir w w' :
  agent_workspace (agent_loop self) = workspace self →
  turn_workspace t = workspace self ++ [dir] →
  synced_out E self t response w = (Ok (), w') →
  ∀ rel, workspace self ++ dir :: rel ∈ FS.below (fs w) (workspace self) →
         FS.is_file_in (fs w) (workspace self ++ dir :: rel) = true →
         copied (fs w') (workspace self ++ dir :: rel)
                (workspace self ++ dir :: dir :: rel).
Proof.
  intros Haw Hws Hout rel Hin Hfile.
  pose proof (agent_files_are_copied t response w w' Hout
                (workspace self ++ dir :: rel)) as Hc.
  rewrite Haw, Hws in Hc. rewrite drop_app_length in Hc.
  rewrite <- app_assoc in Hc. by apply Hc.
Qed.

End nesting.

Lemma session_files_nest_witness :
  copied (fs hello_after_file)
    (workspace blank_gateway ++ "telegram_42" :: ["a.txt"])
    (workspace blank_gateway ++ "telegram_42" :: "telegram_42" :: ["a.txt"]).
Proof.
  apply (session_files_nest ref_env blank_gateway turn_hello (Some "  ")
           "telegram_42" hello_with_file hello_after_file).
  - reflexivity.
  - vm_compute. reflexivity.
  - vm_compute. reflexivity.
  - apply (bool_decide_unpack _). vm_compute. exact I.
  - vm_compute. reflexivity.
Defined.

(** In the scenario the deeper copy is there and is stored. *)
Example nested_copy_is_stored :
  fs hello_after_file
    !! ["tmp"; "nanobot_workspace"; "telegram_42"; "telegram_42"; "a.txt"]
  = Some (File "A")
  ∧ bucket hello_after_file
      !! "sessions/telegram_42/files/telegram_42/a.txt"
    = Some "A".
Proof. split; vm_compute; reflexivity. Qed.
